(** * Behavioural cloning and reward networks: a shallow embedding

    This development embeds the two source files of the repository,

    - [src/imitation/algorithms/bc.py]
      ([EpochOrBatchIteratorWithProgress], [BC]) and
    - [src/imitation/rewards/reward_nets.py]
      ([BasicRewardNet], [NormalizedRewardNet], [ShapedRewardNet]),

    and proves the properties the specification states about them.

    Conventions.
    - Python integers are [Z]; [Optional[int]] is [option Z].
    - Tensors hold real numbers ([R]): the arithmetic of the framework is
      idealised, rounding is not modelled.  A batch tensor is a list with one
      entry per sample.
    - A generator is modelled by the trace of events it produces when it is
      drained, together with the way it ends.
    - An exception is a value of [exn]; the specification's error names map to
      the exceptions of the code: [ConfigurationError] is [ValueError],
      [DataContractViolation] is [AssertionError].
    - Calls into collaborators that live outside the two files (the deep
      learning framework, [stable_baselines3], [imitation.util]) are fields of
      interface classes; they are taken to return normally, so a statement
      that a function of the two files returns a value is made only where
      it does not rest on that. *)

From Stdlib Require Import ZArith List Lia Reals Lra Bool.
From stdpp Require Import gmap strings.
Import ListNotations.

Set Default Proof Using "Type".

(** ** Shared data *)

(** The exceptions the two files raise (or let escape). *)
Inductive exn : Type :=
  | ValueError (msg : string)
  | AssertionError
  | TypeError
  | AttributeError
  | ZeroDivisionError
  | RuntimeError.

(** A rank-one tensor (one scalar per sample) and a batch tensor (one
    flattened row per sample). *)
Definition Tensor1 : Type := list R.
Definition Tensor : Type := list (list R).

(** A batch as the data loader hands it out: a mapping with the keys
    ["obs"] and ["acts"]. *)
Record Batch : Type := { obs : Tensor; acts : Tensor }.

(** The [stats] dictionary yielded next to every batch. *)
Record Stats : Type :=
  { epoch_num : Z; batch_num : Z; samples_so_far : Z }.

(** A data loader is an iterable that is iterated afresh at every epoch,
    and every iteration of which ends.  [dl k] is the finite sequence of
    batches produced by the [k]-th full iteration (counting from zero): a
    list that is reused gives the same batches every time, a shuffling
    loader a different order each time, an exhausted generator the empty
    list from its second iteration on.  Iterables with iterations that do
    not end are the [Source]s of [EpochOrBatchIteratorWithProgress]. *)
Definition DataLoader : Type := nat -> list Batch.

(** Callbacks.  A callback supplied by the caller is opaque (the trace
    records that it ran); [SchedulerStep] is the closure
    [lambda **kwargs: self.lr_scheduler.step()] that [BC.__init__] builds.
    A callback is the sequence of the closures it runs, in order. *)
Inductive CallbackAtom : Type :=
  | UserCallback (id : nat)
  | SchedulerStep.

Definition Callback : Type := list CallbackAtom.

(** [gym] spaces, as far as the two files tell them apart. *)
Inductive Space : Type :=
  | Box (shape : list Z)
  | Discrete (n : Z)
  | OtherSpace (name : string).

(** Values found in keyword-argument dictionaries. *)
Inductive PyVal : Type :=
  | PyInt (z : Z)
  | PyBool (b : bool)
  | PyFloat (r : R)
  | PyTuple (zs : list Z)
  | PySpace (s : Space)
  | PyConstantLRSchedule (lr : R)
  | PyObj (name : string).

(** A keyword-argument dictionary. *)
Abbreviation kwargs := (gmap string PyVal).

(** [d.update(other)]: the entries of [other] win. *)
Definition update (d other : kwargs) : kwargs := other ∪ d.

(** Truth value of an optional dictionary: [None] and the empty
    dictionary are false. *)
Definition truthy (d : option kwargs) : bool :=
  match d with
  | None => false
  | Some m => negb (Nat.eqb (size m) 0)
  end.

(** The dictionary behind an optional dictionary that is not [None]. *)
Definition the_dict (d : option kwargs) : kwargs :=
  match d with Some m => m | None => ∅ end.

(** [d or {}]. *)
Definition or_empty (d : option kwargs) : kwargs :=
  if truthy d then the_dict d else ∅.

(** [key in d]. *)
Definition contains (key : string) (d : kwargs) : bool :=
  match d !! key with Some _ => true | None => false end.

(** ** Tensor arithmetic *)

Definition tsum (x : Tensor1) : R := fold_right Rplus 0%R x.

(** [x.mean()]. *)
Definition mean (x : Tensor1) : R := (tsum x / INR (length x))%R.

(** [th.square(x)], [th.exp(x)]. *)
Definition square (x : Tensor1) : Tensor1 := map (fun v => (v * v)%R) x.
Definition texp (x : Tensor1) : Tensor1 := map exp x.

(** An operation on two rank-one tensors, with the broadcasting rule of
    the framework: equal lengths are combined pointwise, a tensor of
    length one is stretched, any other pair of shapes is an error. *)
Definition broadcast (op : R -> R -> R) (x y : Tensor1) : exn + Tensor1 :=
  if Nat.eqb (length x) (length y) then
    inr (map (fun p => op (fst p) (snd p)) (combine x y))
  else
    match x, y with
    | [a], _ => inr (map (fun b => op a b) y)
    | _, [b] => inr (map (fun a => op a b) x)
    | _, _ => inl RuntimeError
    end.

(** [scalar * x] and [1 - x]. *)
Definition scale (k : R) (x : Tensor1) : Tensor1 := map (fun v => (k * v)%R) x.
Definition one_minus (x : Tensor1) : Tensor1 := map (fun v => (1 - v)%R) x.

(** [t.shape] of a batch tensor: number of rows and width of a row.  A
    list of rows records no width when it has no row, so two batch tensors
    without rows have the same shape here, whatever their width in the
    program. *)
Definition shape (t : Tensor) : nat * nat :=
  (length t, match t with [] => 0%nat | row :: _ => length row end).

(** Sequencing of computations that may raise. *)
Definition bind {A B : Type} (m : exn + A) (f : A -> exn + B) : exn + B :=
  match m with
  | inl e => inl e
  | inr a => f a
  end.

Notation "'let*' x ':=' m 'in' k" := (bind m (fun x => k))
  (at level 10, x name, m at level 100, k at level 200).

(** [assert cond]. *)
Definition assert (cond : bool) : exn + unit :=
  if cond then inr tt else inl AssertionError.

(** ** Collaborators *)

(** [stable_baselines3.common.preprocessing]. *)
Class Preprocessing : Type :=
  { get_flattened_obs_dim : Space -> Z;
    preprocess_obs : Tensor -> Space -> bool -> Tensor;
    is_image_space : Space -> bool }.

(** The deep learning framework, the policy and the helpers of
    [imitation.util.util], as far as [BC] uses them.  A [Policy] value is a
    policy object with its weights and the gradients stored on them. *)
Class Torch : Type :=
  { Policy : Type;
    Optimizer : Type;
    LRScheduler : Type;
    Device : Type;
    (* [stable_baselines3.common.utils.get_device], on a name and on a
       device object *)
    get_device : string -> Device;
    get_device_again : Device -> Device;
    policy_to : Policy -> Device -> Policy;
    policy_device : Policy -> Device;
    policy_train_mode : Policy -> Policy;
    parameters : Policy -> list Tensor1;
    grads : Policy -> list (option Tensor1);
    evaluate_actions : Policy -> Tensor -> Tensor -> Tensor1 * Tensor1 * Tensor1;
    zero_grad : Optimizer -> Policy -> Policy;
    (* [loss.backward()], for the loss as a function of the weights *)
    backward : (Policy -> R) -> Policy -> Policy;
    step : Optimizer -> Policy -> Optimizer * Policy;
    scheduler_step : LRScheduler -> Optimizer -> LRScheduler * Optimizer;
    th_norm : Tensor1 -> R -> R;
    (* [imitation.util.util.optim_lr_gmean] and
       [imitation.util.util.join_callbacks] *)
    optim_lr_gmean : Optimizer -> R;
    join_callbacks : option Callback -> option Callback -> option Callback;
    (* [torch.utils.data.DataLoader(data, shuffle=, batch_size=,
       collate_fn=types.transitions_collate_fn)] *)
    th_data_loader : Batch -> bool -> Z -> DataLoader }.

(** [imitation.util.networks]: [build_mlp], called with keyword arguments,
    and the network it returns.  [build_mlp] is taken to return a network
    for every dictionary of keyword arguments; the function of the
    repository raises on the keywords it does not know, so a constructor
    that calls it returns in the program only where it returns here, not
    conversely.  What is proved about such a constructor is therefore about
    the keyword arguments it hands to [build_mlp], about the errors it
    raises before that call, and about the net it returns when it
    returns. *)
Class Networks : Type :=
  { MLP : Type;
    build_mlp : kwargs -> MLP;
    mlp_forward : MLP -> Tensor -> exn + Tensor1 }.

(** [x is None] and [x is not None]. *)
Definition is_None {A : Type} (x : option A) : bool :=
  match x with None => true | Some _ => false end.

Definition is_not_None {A : Type} (x : option A) : bool := negb (is_None x).

(** ** [EpochOrBatchIteratorWithProgress] *)

Module EpochOrBatchIteratorWithProgress.

(** The attributes [__init__] stores on [self]. *)
Record t : Type :=
  { use_epochs : bool;
    data_loader : DataLoader;
    n_epochs : option Z;
    n_batches : option Z;
    use_tqdm : bool;
    on_epoch_end : option Callback;
    on_batch_end : option Callback }.

(** [__init__].  [isatty] stands for [os.isatty(sys.stdout.fileno())]. *)
Definition __init__ (isatty : bool) (data_loader : DataLoader)
    (n_epochs n_batches : option Z) (use_tqdm : option bool)
    (on_epoch_end on_batch_end : option Callback) : exn + t :=
  let mk (use_epochs : bool) :=
    {| use_epochs := use_epochs;
       data_loader := data_loader;
       n_epochs := n_epochs;
       n_batches := n_batches;
       use_tqdm := match use_tqdm with None => isatty | Some u => u end;
       on_epoch_end := on_epoch_end;
       on_batch_end := on_batch_end |} in
  if is_not_None n_epochs && is_None n_batches then inr (mk true)
  else if is_None n_epochs && is_not_None n_batches then inr (mk false)
  else
    inl (ValueError
           "Must provide exactly one of `n_epochs` and `n_batches` arguments.").

(** What the generator does, as seen from outside.  [IterLoader k] is the
    [k]-th request for an iterator over the data loader (the start of a
    [for batch in self.data_loader] loop). *)
Inductive event : Type :=
  | Yield (batch : Batch) (stats : Stats)
  | Call (cb : Callback)
  | IterLoader (pass : nat)
  | TqdmOpen (total : option Z)
  | TqdmSetDescription (batch_num : Z) (batch_suffix : option (option Z))
      (epoch_num : Z) (epoch_suffix : option (option Z))
  | TqdmUpdate
  | TqdmClose.

(** How the generator ends: it returns, an exception escapes, or the
    model ran out of fuel before either happened. *)
Inductive outcome : Type :=
  | Returned
  | Raised (e : exn)
  | OutOfFuel.

(** The three counters of [__iter__]. *)
Record counters : Type :=
  { c_samples_so_far : Z; c_epoch_num : Z; c_batch_num : Z }.

Definition counters0 : counters :=
  {| c_samples_so_far := 0; c_epoch_num := 0; c_batch_num := 0 |}.

(** [batch_suffix] and [epoch_suffix]: empty ([None]) unless a progress
    bar is shown in the corresponding mode. *)
Definition epoch_suffix (self : t) : option (option Z) :=
  if use_tqdm self then
    if use_epochs self then Some (n_epochs self) else None
  else None.

Definition batch_suffix (self : t) : option (option Z) :=
  if use_tqdm self then
    if use_epochs self then None else Some (n_batches self)
  else None.

(** [update_desc()]. *)
Definition update_desc (self : t) (c : counters) : event :=
  TqdmSetDescription (c_batch_num c) (batch_suffix self)
    (c_epoch_num c) (epoch_suffix self).

(** [if display is not None: update_desc()]. *)
Definition show_desc (self : t) (c : counters) : list event :=
  if use_tqdm self then [update_desc self c] else [].

(** [if display is not None: update_desc(); display.update(1)]. *)
Definition show_progress (self : t) (c : counters) : list event :=
  if use_tqdm self then [update_desc self c; TqdmUpdate] else [].

Definition call (cb : option Callback) : list event :=
  match cb with Some f => [Call f] | None => [] end.

(** How a block of statements ends. *)
Inductive signal : Type :=
  | Normal
  | Return
  | Raise (e : exn).

(** [counter >= target], where the target attribute may be [None]. *)
Definition reached (counter : Z) (target : option Z) : exn + bool :=
  match target with
  | Some n => inr (n <=? counter)%Z
  | None => inl TypeError
  end.

(** The body of [for batch in self.data_loader], over the batches that
    are left in this pass.  Returns the events, [got_data_on_epoch], the
    counters and how the loop ended. *)
Fixpoint for_batches (self : t) (batches : list Batch)
    (got_data_on_epoch : bool) (c : counters)
    : list event * (bool * counters * signal) :=
  match batches with
  | [] => ([], (got_data_on_epoch, c, Normal))
  | batch :: rest =>
      let batch_num := (c_batch_num c + 1)%Z in
      let batch_size := Z.of_nat (length (obs batch)) in
      if (0 <? batch_size)%Z then
        let samples := (c_samples_so_far c + batch_size)%Z in
        let c' := {| c_samples_so_far := samples;
                     c_epoch_num := c_epoch_num c;
                     c_batch_num := batch_num |} in
        let stats := {| epoch_num := c_epoch_num c;
                        batch_num := batch_num;
                        samples_so_far := samples |} in
        let evs := Yield batch stats :: call (on_batch_end self) in
        if use_epochs self then
          let '(evs', r) := for_batches self rest true c' in
          (evs ++ evs', r)
        else
          let evs := evs ++ show_progress self c' in
          match reached batch_num (n_batches self) with
          | inl e => (evs, (true, c', Raise e))
          | inr true => (evs, (true, c', Return))
          | inr false =>
              let '(evs', r) := for_batches self rest true c' in
              (evs ++ evs', r)
          end
      else
        ([], (true,
              {| c_samples_so_far := c_samples_so_far c;
                 c_epoch_num := c_epoch_num c;
                 c_batch_num := batch_num |},
              Raise AssertionError))
  end.

(** One turn of the [while True] loop.  [pass] counts how often the data
    loader has been iterated so far; [again] is the rest of the loop,
    entered when the turn falls through to the next one. *)
Definition while_body (self : t) (pass : nat) (c : counters)
    (again : counters -> list event * outcome) : list event * outcome :=
  let evs0 := show_desc self c ++ [IterLoader pass] in
  let '(evs1, (got_data_on_epoch, c1, sig)) :=
    for_batches self (data_loader self pass) false c in
  match sig with
  | Return => (evs0 ++ evs1, Returned)
  | Raise e => (evs0 ++ evs1, Raised e)
  | Normal =>
      if negb got_data_on_epoch then
        (evs0 ++ evs1, Raised AssertionError)
      else
        let c2 := {| c_samples_so_far := c_samples_so_far c1;
                     c_epoch_num := (c_epoch_num c1 + 1)%Z;
                     c_batch_num := c_batch_num c1 |} in
        let evs2 := call (on_epoch_end self) in
        let continue (evs : list event) :=
          let '(evs', out) := again c2 in (evs ++ evs', out) in
        if use_epochs self then
          let evs3 := show_progress self c2 in
          match reached (c_epoch_num c2) (n_epochs self) with
          | inl e => (evs0 ++ evs1 ++ evs2 ++ evs3, Raised e)
          | inr true => (evs0 ++ evs1 ++ evs2 ++ evs3, Returned)
          | inr false => continue (evs0 ++ evs1 ++ evs2 ++ evs3)
          end
        else continue (evs0 ++ evs1 ++ evs2)
  end.

(** The [while True] loop, for at most [fuel] turns. *)
Fixpoint while_true (fuel : nat) (self : t) (pass : nat) (c : counters)
    : list event * outcome :=
  match fuel with
  | O => ([], OutOfFuel)
  | S fuel' => while_body self pass c (while_true fuel' self (S pass))
  end.

(** [__iter__]: the progress bar is opened before the [try], and the
    [finally] clause closes it however the loop ends. *)
Definition __iter__ (fuel : nat) (self : t) : list event * outcome :=
  let open :=
    if use_tqdm self then
      [TqdmOpen (if use_epochs self then n_epochs self else n_batches self)]
    else [] in
  let '(evs, out) := while_true fuel self 0 counters0 in
  let close :=
    match out with
    | OutOfFuel => []
    | _ => if use_tqdm self then [TqdmClose] else []
    end in
  (open ++ evs ++ close, out).

(** *** Data sources with unbounded passes

    [for batch in self.data_loader] accepts any iterable.  A pass over a
    data source is either a finite sequence of batches or an unbounded one
    (its iterator never raises [StopIteration]; [batch_at i] is the batch
    of the [i]-th request).  A [DataLoader] is a data source all of whose
    passes are finite. *)
Inductive Pass : Type :=
  | Finite (batches : list Batch)
  | Unbounded (batch_at : nat -> Batch).

Definition Source : Type := nat -> Pass.

Definition finite_source (dl : DataLoader) : Source := fun k => Finite (dl k).

(** The iterator object with another data loader. *)
Definition with_data_loader (self : t) (dl : DataLoader) : t :=
  {| use_epochs := use_epochs self;
     data_loader := dl;
     n_epochs := n_epochs self;
     n_batches := n_batches self;
     use_tqdm := use_tqdm self;
     on_epoch_end := on_epoch_end self;
     on_batch_end := on_batch_end self |}.

(** One turn of the [while True] loop over an unbounded pass of which the
    batches [taken] have been requested: the [for] loop is left only by
    the [return] or by an exception, so when the batches taken are used up
    the loop is still running. *)
Definition endless_turn (self : t) (taken : list Batch) (pass : nat)
    (c : counters) : list event * outcome :=
  let evs0 := show_desc self c ++ [IterLoader pass] in
  let '(evs1, (_, _, sig)) := for_batches self taken false c in
  match sig with
  | Return => (evs0 ++ evs1, Returned)
  | Raise e => (evs0 ++ evs1, Raised e)
  | Normal => (evs0 ++ evs1, OutOfFuel)
  end.

(** The [while True] loop over a data source.  [self] carries the
    attributes of the iterator object other than [data_loader], in whose
    place the data source [src] is iterated.  [fuel] bounds the turns of
    the loop and the batches requested from an unbounded pass. *)
Fixpoint while_true_over (fuel : nat) (self : t) (src : Source) (pass : nat)
    (c : counters) : list event * outcome :=
  match fuel with
  | O => ([], OutOfFuel)
  | S fuel' =>
      match src pass with
      | Finite batches =>
          while_body (with_data_loader self (fun _ => batches)) pass c
            (while_true_over fuel' self src (S pass))
      | Unbounded batch_at =>
          endless_turn self (map batch_at (seq 0 fuel)) pass c
      end
  end.

(** [__iter__] over a data source. *)
Definition iter_over_source (fuel : nat) (self : t) (src : Source)
    : list event * outcome :=
  let open :=
    if use_tqdm self then
      [TqdmOpen (if use_epochs self then n_epochs self else n_batches self)]
    else [] in
  let '(evs, out) := while_true_over fuel self src 0 counters0 in
  let close :=
    match out with
    | OutOfFuel => []
    | _ => if use_tqdm self then [TqdmClose] else []
    end in
  (open ++ evs ++ close, out).

(** The data contract of section 3 of the specification: a batch holds at
    least one sample, and a pass over the data loader at least one batch. *)
Definition batch_nonempty (b : Batch) : Prop := obs b <> [].

Definition pass_ok (batches : list Batch) : Prop :=
  batches <> [] /\ Forall batch_nonempty batches.

(** The number of batches in the passes before pass [k].  In batch mode
    with target [B] the loop starts pass [k] only while fewer than [B]
    batches have been yielded, that is while [batches_before dl k < B]. *)
Definition batches_before (dl : DataLoader) (k : nat) : nat :=
  list_sum (map (fun j => length (dl j)) (seq 0 k)).

(** The [(batch, stats)] pairs a consumer of the generator receives. *)
Fixpoint yields (evs : list event) : list (Batch * Stats) :=
  match evs with
  | [] => []
  | Yield b s :: evs' => (b, s) :: yields evs'
  | _ :: evs' => yields evs'
  end.

(** The passes over the data source a run has started, in order. *)
Fixpoint loader_passes (evs : list event) : list nat :=
  match evs with
  | [] => []
  | IterLoader k :: evs' => k :: loader_passes evs'
  | _ :: evs' => loader_passes evs'
  end.

(** *** Measures used in the proofs *)

(** [bool(l)] for a list. *)
Definition nonnil {A : Type} (l : list A) : bool :=
  match l with [] => false | _ => true end.

(** Number of yields (in batch mode) or of passes (in epoch mode) still to
    come when the counter of the mode stands at [counter]: the comparison
    with the target only runs after a yield or a pass, hence at least one. *)
Definition needed (target counter : Z) : nat :=
  Z.to_nat (Z.max 1 (target - counter)).

(** Turns the loop may still take: the distance of the counter of the
    active mode from its target. *)
Definition remaining (self : t) (c : counters) : nat :=
  if use_epochs self then
    match n_epochs self with
    | Some E => Z.to_nat (E - c_epoch_num c)
    | None => 0
    end
  else
    match n_batches self with
    | Some B => Z.to_nat (B - c_batch_num c)
    | None => 0
    end.

(** *** Data loaders used to exercise the definitions *)

Definition sample_batch : Batch := {| obs := [[1%R]]; acts := [[0%R]] |}.

Definition empty_batch : Batch := {| obs := []; acts := [] |}.

(** A list of two batches, iterated afresh at every epoch. *)
Definition steady_loader : DataLoader := fun _ => [sample_batch; sample_batch].

(** An empty list. *)
Definition empty_loader : DataLoader := fun _ => [].

(** A generator object: one batch the first time, nothing afterwards. *)
Definition exhausted_loader : DataLoader :=
  fun k => match k with O => [sample_batch] | S _ => [] end.

(** A loader whose only batch holds no sample. *)
Definition hollow_loader : DataLoader := fun _ => [empty_batch].

(** A data source whose every pass goes on for ever. *)
Definition endless_source : Source := fun _ => Unbounded (fun _ => sample_batch).

(** A generator object with five batches: nothing from its second
    iteration on. *)
Definition one_shot_loader : DataLoader :=
  fun k => match k with O => repeat sample_batch 5 | S _ => [] end.

End EpochOrBatchIteratorWithProgress.

(** ** [ConstantLRSchedule] *)

Module ConstantLRSchedule.

Record t : Type := { lr : R }.

Definition __init__ (lr : R) : t := {| lr := lr |}.

(** [__call__]: the argument is ignored. *)
Definition __call__ {A : Type} (self : t) (_ : A) : R := lr self.

End ConstantLRSchedule.

(** ** [BC] *)

Module BC.

Module Iter := EpochOrBatchIteratorWithProgress.

(** [sys.float_info.max] for IEEE double precision. *)
Definition float_max : R := IZR ((2 ^ 53 - 1) * 2 ^ 971).

Definition DEFAULT_BATCH_SIZE : Z := 32.

(** The [expert_data] argument: a ready-made data loader or a
    [TransitionsMinimal] dataset (all observations and actions). *)
Inductive ExpertData : Type :=
  | Loader (dl : DataLoader)
  | TransitionsMinimal (data : Batch).

Section WithTorch.
Context `{Torch}.

(** The attributes of a trainer. *)
Record t : Type :=
  { action_space : Space;
    observation_space : Space;
    policy_class : kwargs -> Policy;
    device : Device;
    policy_kwargs : kwargs;
    policy : Policy;
    optimizer : Optimizer;
    lr_scheduler : option LRScheduler;
    epoch_end_step_callback : option Callback;
    expert_data_loader : option DataLoader;
    ent_weight : R;
    l2_weight : R;
    augmentation_fn : Tensor -> Tensor }.

(** The arguments of [__init__]. *)
Record Args : Type :=
  { arg_observation_space : Space;
    arg_action_space : Space;
    arg_policy_class : kwargs -> Policy;
    arg_policy_kwargs : option kwargs;
    arg_expert_data : option ExpertData;
    arg_optimizer_cls : list Tensor1 -> kwargs -> Optimizer;
    arg_optimizer_kwargs : option kwargs;
    arg_lr_scheduler_cls : option (Optimizer -> kwargs -> LRScheduler);
    arg_lr_scheduler_kwargs : option kwargs;
    arg_ent_weight : R;
    arg_l2_weight : R;
    arg_augmentation_fn : option (Tensor -> Tensor);
    arg_normalize_images : bool;
    arg_device : string }.

(** The constructions [__init__] asks of its collaborators, in order. *)
Inductive init_event : Type :=
  | GetDevice
  | NewPolicy (policy_kwargs : kwargs)
  | NewOptimizer (optimizer_kwargs : kwargs)
  | NewLRScheduler (lr_scheduler_kwargs : kwargs)
  | NewDataLoader.

(** [set_expert_data_loader]. *)
Definition set_expert_data_loader (self : t) (expert_data : ExpertData)
    : list init_event * t :=
  let store (evs : list init_event) (dl : DataLoader) :=
    (evs,
     {| action_space := action_space self;
        observation_space := observation_space self;
        policy_class := policy_class self;
        device := device self;
        policy_kwargs := policy_kwargs self;
        policy := policy self;
        optimizer := optimizer self;
        lr_scheduler := lr_scheduler self;
        epoch_end_step_callback := epoch_end_step_callback self;
        expert_data_loader := Some dl;
        ent_weight := ent_weight self;
        l2_weight := l2_weight self;
        augmentation_fn := augmentation_fn self |}) in
  match expert_data with
  | TransitionsMinimal data =>
      store [NewDataLoader] (th_data_loader data true DEFAULT_BATCH_SIZE)
  | Loader dl => store [] dl
  end.

(** The check at the head of [__init__]. *)
Definition check_optimizer_kwargs (optimizer_kwargs : option kwargs)
    : exn + unit :=
  if truthy optimizer_kwargs then
    if contains "weight_decay" (the_dict optimizer_kwargs) then
      inl (ValueError "Use the parameter l2_weight instead of weight_decay.")
    else inr tt
  else inr tt.

(** [__init__]. *)
Definition __init__ (a : Args) : list init_event * (exn + t) :=
  match check_optimizer_kwargs (arg_optimizer_kwargs a) with
  | inl e => ([], inl e)
  | inr _ =>
      let device := get_device (arg_device a) in
      let unused_lr_schedule := ConstantLRSchedule.__init__ float_max in
      let policy_kwargs :=
        update
          (<["observation_space" := PySpace (arg_observation_space a)]>
             (<["action_space" := PySpace (arg_action_space a)]>
                (<["lr_schedule" :=
                     PyConstantLRSchedule
                       (ConstantLRSchedule.lr unused_lr_schedule)]> ∅)))
          (or_empty (arg_policy_kwargs a)) in
      let device := get_device_again device in
      let policy := policy_to (arg_policy_class a policy_kwargs) device in
      let optimizer_kwargs := or_empty (arg_optimizer_kwargs a) in
      let optimizer :=
        arg_optimizer_cls a (parameters policy) optimizer_kwargs in
      let evs :=
        [GetDevice; GetDevice; NewPolicy policy_kwargs;
         NewOptimizer optimizer_kwargs] in
      let finish (evs : list init_event)
          (lr_scheduler : option LRScheduler)
          (epoch_end_step_callback : option Callback) :=
        let self :=
          {| action_space := arg_action_space a;
             observation_space := arg_observation_space a;
             policy_class := arg_policy_class a;
             device := device;
             policy_kwargs := policy_kwargs;
             policy := policy;
             optimizer := optimizer;
             lr_scheduler := lr_scheduler;
             epoch_end_step_callback := epoch_end_step_callback;
             expert_data_loader := None;
             ent_weight := arg_ent_weight a;
             l2_weight := arg_l2_weight a;
             augmentation_fn :=
               match arg_augmentation_fn a with
               | None => fun x => x
               | Some f => f
               end |} in
        match arg_expert_data a with
        | Some expert_data =>
            let '(evs', self') := set_expert_data_loader self expert_data in
            (evs ++ evs', inr self')
        | None => (evs, inr self)
        end in
      match arg_lr_scheduler_cls a with
      | None => finish evs None None
      | Some lr_scheduler_cls =>
          match arg_lr_scheduler_kwargs a with
          | None => (evs, inl TypeError)
          | Some lr_scheduler_kwargs =>
              finish (evs ++ [NewLRScheduler lr_scheduler_kwargs])
                (Some (lr_scheduler_cls optimizer lr_scheduler_kwargs))
                (Some [SchedulerStep])
          end
      end
  end.


(** The trainer after its policy, optimizer and scheduler objects have
    changed state. *)
Definition with_state (self : t) (pol : Policy) (opt : Optimizer)
    (sch : option LRScheduler) : t :=
  {| action_space := action_space self;
     observation_space := observation_space self;
     policy_class := policy_class self;
     device := device self;
     policy_kwargs := policy_kwargs self;
     policy := pol;
     optimizer := opt;
     lr_scheduler := sch;
     epoch_end_step_callback := epoch_end_step_callback self;
     expert_data_loader := expert_data_loader self;
     ent_weight := ent_weight self;
     l2_weight := l2_weight self;
     augmentation_fn := augmentation_fn self |}.

Definition with_policy (self : t) (pol : Policy) : t :=
  with_state self pol (optimizer self) (lr_scheduler self).

(** [x.detach()]: the values are unchanged. *)
Definition detach {A : Type} (x : A) : A := x.

(** [_calculate_loss]: the loss and the statistics, in the order in
    which the dictionary is built. *)
Definition _calculate_loss (self : t) (obs acts : Tensor)
    : R * list (string * R) :=
  let obs := detach obs in
  let acts := detach acts in
  let '(_, log_prob, entropy) := evaluate_actions (policy self) obs acts in
  let prob_true_act := mean (texp log_prob) in
  let log_prob := mean log_prob in
  let entropy := mean entropy in
  let ent_loss := entropy in
  let l2_norms := map (fun w => tsum (square w)) (parameters (policy self)) in
  let l2_loss_raw := (fold_left Rplus l2_norms 0 / 2)%R in
  let ent_term := (- ent_weight self * ent_loss)%R in
  let neglogp := (- log_prob)%R in
  let l2_term := (l2_weight self * l2_loss_raw)%R in
  let loss := (neglogp + ent_term + l2_term)%R in
  let stats_dict :=
    [("neglogp", neglogp);
     ("loss", loss);
     ("prob_true_act", prob_true_act);
     ("ent_loss_raw", entropy);
     ("ent_loss_term", ent_term);
     ("l2_loss_raw", l2_loss_raw);
     ("l2_loss_term", l2_term)] in
  (loss, stats_dict).

Context `{Preprocessing}.

(** [th.stack]: an empty list of tensors is refused. *)
Definition stack (xs : list R) : exn + Tensor1 :=
  match xs with
  | [] => inl RuntimeError
  | _ => inr xs
  end.

(** [_calculate_policy_norms]. *)
Definition _calculate_policy_norms (self : t) (norm_type : R)
    : exn + (R * R) :=
  let gradient_parameters := omap (fun g => g) (grads (policy self)) in
  let* stacked_gradient_norms :=
    stack (map (fun g => th_norm (detach g) norm_type) gradient_parameters) in
  let* stacked_weight_norms :=
    stack (map (fun w => th_norm (detach w) norm_type)
             (parameters (policy self))) in
  inr (th_norm stacked_gradient_norms norm_type,
       th_norm stacked_weight_norms norm_type).

(** What [train] does, as seen from outside: the events of the
    iterator it drives, the switch of the policy to training mode, the
    calls of [preprocess_obs] and the calls of the logger. *)
Inductive train_event : Type :=
  | Progress (e : Iter.event)
  | PolicyTrain
  | PreprocessObs (obs : Tensor) (space : Space) (normalize_images : bool)
  | RecordMean (key : string) (value : R)
  | Dump (step : Z).

(** The body of the [for batch, stats_dict_it in it] loop. *)
Definition train_step (self : t) (batch : Batch) (batch_num log_interval : Z)
    : list train_event * t * option exn :=
  let acts_tensor := acts batch in
  let obs_tensor := obs batch in
  let pre := PreprocessObs obs_tensor (observation_space self) true in
  let obs_tensor := preprocess_obs obs_tensor (observation_space self) true in
  let obs_tensor := augmentation_fn self obs_tensor in
  let obs_tensor :=
    match observation_space self with
    | Box _ =>
        if is_image_space (observation_space self) then
          map (map (fun v => (v * 255)%R)) obs_tensor
        else obs_tensor
    | _ => obs_tensor
    end in
  let '(loss, stats_dict) := _calculate_loss self obs_tensor acts_tensor in
  let pol := zero_grad (optimizer self) (policy self) in
  let pol :=
    backward
      (fun p => fst (_calculate_loss (with_policy self p) obs_tensor acts_tensor))
      pol in
  let '(opt, pol) := step (optimizer self) pol in
  let self := with_state self pol opt (lr_scheduler self) in
  match _calculate_policy_norms self 2 with
  | inl e => ([pre], self, Some e)
  | inr (gradient_norm, weight_norm) =>
      let stats_dict :=
        stats_dict ++
        [("grad_norm", gradient_norm);
         ("weight_norm", weight_norm);
         ("n_updates", IZR batch_num);
         ("batch_size", INR (length obs_tensor));
         ("lr_gmean", optim_lr_gmean (optimizer self))] in
      let evs :=
        pre :: map (fun kv => RecordMean (fst kv) (snd kv)) stats_dict in
      if (log_interval =? 0)%Z then (evs, self, Some ZeroDivisionError)
      else if (batch_num mod log_interval =? 0)%Z then
        (evs ++ [Dump batch_num], self, None)
      else (evs, self, None)
  end.

(** Running a callback: a closure of the caller leaves the trainer
    alone, the scheduler closure advances the scheduler. *)
Definition run_atom (self : t) (a : CallbackAtom) : exn + t :=
  match a with
  | UserCallback _ => inr self
  | SchedulerStep =>
      match lr_scheduler self with
      | None => inl AttributeError
      | Some sch =>
          let '(sch', opt') := scheduler_step sch (optimizer self) in
          inr (with_state self (policy self) opt' (Some sch'))
      end
  end.

Fixpoint run_callback (self : t) (cb : Callback) : exn + t :=
  match cb with
  | [] => inr self
  | a :: cb' => let* self' := run_atom self a in run_callback self' cb'
  end.

(** The progress bar is closed when the generator is abandoned. *)
Definition abandon (use_tqdm : bool) : list train_event :=
  if use_tqdm then [Progress Iter.TqdmClose] else [].

(** [train] consuming the generator: the loop body runs at every
    yield, the callbacks run inside the generator. *)
Fixpoint consume (log_interval : Z) (use_tqdm : bool) (evs : list Iter.event)
    (self : t) (batch_num : Z) : list train_event * t * option exn :=
  match evs with
  | [] => ([], self, None)
  | Iter.Yield batch stats :: evs' =>
      let '(tevs, self', err) := train_step self batch batch_num log_interval in
      match err with
      | Some e =>
          (Progress (Iter.Yield batch stats) :: tevs ++ abandon use_tqdm,
           self', Some e)
      | None =>
          let '(tevs', self'', err') :=
            consume log_interval use_tqdm evs' self' (batch_num + 1)%Z in
          (Progress (Iter.Yield batch stats) :: tevs ++ tevs', self'', err')
      end
  | Iter.Call cb :: evs' =>
      match run_callback self cb with
      | inl e => (Progress (Iter.Call cb) :: abandon use_tqdm, self, Some e)
      | inr self' =>
          let '(tevs', self'', err') :=
            consume log_interval use_tqdm evs' self' batch_num in
          (Progress (Iter.Call cb) :: tevs', self'', err')
      end
  | e :: evs' =>
      let '(tevs', self'', err') :=
        consume log_interval use_tqdm evs' self batch_num in
      (Progress e :: tevs', self'', err')
  end.

(** [train].  [isatty] is the answer of the terminal, as in the
    iterator. *)
Definition train (isatty : bool) (fuel : nat) (self : t)
    (n_epochs n_batches : option Z)
    (on_epoch_end on_batch_end : option Callback) (log_interval : Z)
    : list train_event * t * Iter.outcome :=
  let on_epoch_end :=
    join_callbacks on_epoch_end (epoch_end_step_callback self) in
  let data_loader :=
    match expert_data_loader self with
    | Some dl => dl
    | None => fun _ => []
    end in
  match Iter.__init__ isatty data_loader n_epochs n_batches None
          on_epoch_end on_batch_end with
  | inl e => ([], self, Iter.Raised e)
  | inr it =>
      let self := with_policy self (policy_train_mode (policy self)) in
      match expert_data_loader self with
      | None =>
          (* iterating [None] is a [TypeError] *)
          (PolicyTrain ::
           (if Iter.use_tqdm it then
              [Progress (Iter.TqdmOpen
                           (if Iter.use_epochs it then Iter.n_epochs it
                            else Iter.n_batches it));
               Progress (Iter.update_desc it Iter.counters0);
               Progress Iter.TqdmClose]
            else []),
           self, Iter.Raised TypeError)
      | Some _ =>
          let '(evs, out) := Iter.__iter__ fuel it in
          let '(tevs, self', err) :=
            consume log_interval (Iter.use_tqdm it) evs self 0%Z in
          (PolicyTrain :: tevs, self',
           match err with Some e => Iter.Raised e | None => out end)
      end
  end.



End WithTorch.

End BC.

(** ** Reward networks *)

(** [RewardNet]: the abstract base class.  [forward] is the abstract
    method; the attributes are those [RewardNet.__init__] stores. *)
Class RewardNet (N : Type) : Type :=
  { observation_space : N -> Space;
    action_space : N -> Space;
    normalize_images : N -> bool;
    forward : N -> Tensor -> Tensor -> Tensor -> Tensor1 -> exn + Tensor1 }.

Module RewardNetBase.
Section Methods.
Context `{Preprocessing} {N : Type} `{RewardNet N}.

(** [preprocess]. *)
Definition preprocess (self : N) (state action next_state : Tensor)
    (done : Tensor1) : exn + (Tensor * Tensor * Tensor * Tensor1) :=
  let state_th :=
    preprocess_obs state (observation_space self) (normalize_images self) in
  let action_th :=
    preprocess_obs action (action_space self) (normalize_images self) in
  let next_state_th :=
    preprocess_obs next_state (observation_space self)
      (normalize_images self) in
  let done_th := done in
  let n_gen := length state_th in
  let* _ :=
    assert (Nat.eqb (fst (shape state_th)) (fst (shape next_state_th))
            && Nat.eqb (snd (shape state_th)) (snd (shape next_state_th))) in
  let* _ := assert (Nat.eqb (length action_th) n_gen) in
  inr (state_th, action_th, next_state_th, done_th).

(** [predict]: evaluation mode and the absence of gradients do not
    change the values. *)
Definition predict (self : N) (state action next_state : Tensor)
    (done : Tensor1) : exn + Tensor1 :=
  let* pre := preprocess self state action next_state done in
  let '(state_th, action_th, next_state_th, done_th) := pre in
  let* rew_th := forward self state_th action_th next_state_th done_th in
  let rew := rew_th in
  let* _ := assert (Nat.eqb (length rew) (length state)) in
  inr rew.

(** [predict_processed], as inherited from [RewardNet]. *)
Definition predict_processed (self : N) (state action next_state : Tensor)
    (done : Tensor1) : exn + Tensor1 :=
  predict self state action next_state done.

End Methods.
End RewardNetBase.

(** [th.cat(inputs, dim=1)], a function of the framework: the rows of the
    inputs are joined.  Inputs that disagree on the number of rows are
    refused with a [RuntimeError], an empty list of inputs with a
    [ValueError]. *)
Definition cat2 (x y : Tensor) : exn + Tensor :=
  if Nat.eqb (length x) (length y) then
    inr (map (fun p => fst p ++ snd p) (combine x y))
  else inl RuntimeError.

Fixpoint cat_dim1 (inputs : list Tensor) : exn + Tensor :=
  match inputs with
  | [] => inl (ValueError "torch.cat(): expected a non-empty list of Tensors")
  | [x] => inr x
  | x :: rest => let* y := cat_dim1 rest in cat2 x y
  end.

Module BasicRewardNet.
Section WithCollaborators.
Context `{Preprocessing} `{Networks}.

Record t : Type :=
  { observation_space : Space;
    action_space : Space;
    normalize_images : bool;
    use_state : bool;
    use_action : bool;
    use_next_state : bool;
    use_done : bool;
    mlp : MLP }.

(** The [combined_size] that [__init__] accumulates. *)
Definition combined_size (observation_space action_space : Space)
    (use_state use_action use_next_state use_done : bool) : Z :=
  let combined_size := 0%Z in
  let combined_size :=
    if use_state then
      (combined_size + get_flattened_obs_dim observation_space)%Z
    else combined_size in
  let combined_size :=
    if use_action then
      (combined_size + get_flattened_obs_dim action_space)%Z
    else combined_size in
  let combined_size :=
    if use_next_state then
      (combined_size + get_flattened_obs_dim observation_space)%Z
    else combined_size in
  let combined_size :=
    if use_done then (combined_size + 1)%Z else combined_size in
  combined_size.

(** The keyword arguments handed to [build_mlp]. *)
Definition full_build_mlp_kwargs (combined_size : Z) (kw : kwargs) : kwargs :=
  let full_build_mlp_kwargs : kwargs := {["hid_sizes" := PyTuple [32; 32]%Z]} in
  let full_build_mlp_kwargs := update full_build_mlp_kwargs kw in
  update full_build_mlp_kwargs
    (<["in_size" := PyInt combined_size]>
       (<["out_size" := PyInt 1]>
          (<["squeeze_output" := PyBool true]> ∅))).

(** [__init__]. *)
Definition __init__ (observation_space action_space : Space)
    (use_state use_action use_next_state use_done : bool) (kw : kwargs) : t :=
  {| observation_space := observation_space;
     action_space := action_space;
     normalize_images := true;
     use_state := use_state;
     use_action := use_action;
     use_next_state := use_next_state;
     use_done := use_done;
     mlp :=
       build_mlp
         (full_build_mlp_kwargs
            (combined_size observation_space action_space
               use_state use_action use_next_state use_done) kw) |}.

(** [forward]. *)
Definition forward (self : t) (state action next_state : Tensor)
    (done : Tensor1) : exn + Tensor1 :=
  let inputs := [] in
  let inputs := if use_state self then inputs ++ [state] else inputs in
  let inputs := if use_action self then inputs ++ [action] else inputs in
  let inputs :=
    if use_next_state self then inputs ++ [next_state] else inputs in
  let inputs :=
    if use_done self then inputs ++ [map (fun d => [d]) done] else inputs in
  let* inputs_concat := cat_dim1 inputs in
  let* outputs := mlp_forward (mlp self) inputs_concat in
  let* _ := assert (Nat.eqb (length outputs) (length state)) in
  inr outputs.

#[global] Instance reward_net : RewardNet t :=
  { observation_space := observation_space;
    action_space := action_space;
    normalize_images := normalize_images;
    forward := forward }.

(** The inputs of the network, in the words of the specification. *)
Inductive component : Type := State | Action | NextState | Done.

(** Flattened dimensionality of a component. *)
Definition component_dim (observation_space action_space : Space)
    (c : component) : Z :=
  match c with
  | State | NextState => get_flattened_obs_dim observation_space
  | Action => get_flattened_obs_dim action_space
  | Done => 1%Z
  end.

Definition enabled (use_state use_action use_next_state use_done : bool)
    (c : component) : bool :=
  match c with
  | State => use_state
  | Action => use_action
  | NextState => use_next_state
  | Done => use_done
  end.

(** Sum of the flattened dimensionalities of exactly the enabled
    components. *)
Definition enabled_width (observation_space action_space : Space)
    (use_state use_action use_next_state use_done : bool) : Z :=
  fold_right Z.add 0%Z
    (map (component_dim observation_space action_space)
       (List.filter (enabled use_state use_action use_next_state use_done)
          [State; Action; NextState; Done])).

End WithCollaborators.
End BasicRewardNet.

Module NormalizedRewardNet.
Section WithBase.
Context `{Preprocessing} {B : Type} `{RewardNet B}.

Record t : Type :=
  { observation_space : Space;
    action_space : Space;
    normalize_images : bool;
    base : B;
    rew_normalize_layer : option (Tensor1 -> Tensor1) }.

(** [__init__]: [rew_normalize_class], when given, is instantiated for
    one feature. *)
Definition __init__ (observation_space action_space : Space) (base : B)
    (rew_normalize_class : option (Z -> Tensor1 -> Tensor1))
    (normalize_images : bool) : t :=
  {| observation_space := observation_space;
     action_space := action_space;
     normalize_images := normalize_images;
     base := base;
     rew_normalize_layer :=
       match rew_normalize_class with
       | Some cls => Some (cls 1%Z)
       | None => None
       end |}.

(** [forward]. *)
Definition forward (self : t) (state action next_state : Tensor)
    (done : Tensor1) : exn + Tensor1 :=
  forward (base self) state action next_state done.

(** [predict_processed]: calling a layer that is [None] is a
    [TypeError]. *)
Definition predict_processed (self : t) (state action next_state : Tensor)
    (done : Tensor1) : exn + Tensor1 :=
  let* rew :=
    RewardNetBase.predict (base self) state action next_state done in
  let rew_th := rew in
  match rew_normalize_layer self with
  | None => inl TypeError
  | Some layer =>
      let rew := layer rew_th in
      let* _ := assert (Nat.eqb (length rew) (length state)) in
      inr rew
  end.

#[global] Instance reward_net : RewardNet t :=
  { observation_space := observation_space;
    action_space := action_space;
    normalize_images := normalize_images;
    forward := forward }.

End WithBase.
End NormalizedRewardNet.

Module ShapedRewardNet.
Section WithBase.
Context {B : Type} `{RewardNet B}.

Record t : Type :=
  { observation_space : Space;
    action_space : Space;
    normalize_images : bool;
    base : B;
    potential : Tensor -> Tensor1;
    discount_factor : R }.

(** [__init__]. *)
Definition __init__ (observation_space action_space : Space) (base : B)
    (potential : Tensor -> Tensor1) (discount_factor : R)
    (normalize_images : bool) : t :=
  {| observation_space := observation_space;
     action_space := action_space;
     normalize_images := normalize_images;
     base := base;
     potential := potential;
     discount_factor := discount_factor |}.

(** [forward]. *)
Definition forward (self : t) (state action next_state : Tensor)
    (done : Tensor1) : exn + Tensor1 :=
  let* base_reward_net_output :=
    forward (base self) state action next_state done in
  let new_shaping_output := potential self next_state in
  let old_shaping_output := potential self state in
  let* new_shaping := broadcast Rmult (one_minus done) new_shaping_output in
  let* with_new :=
    broadcast Rplus base_reward_net_output
      (scale (discount_factor self) new_shaping) in
  let* final_rew := broadcast Rminus with_new old_shaping_output in
  let* _ := assert (Nat.eqb (length final_rew) (length state)) in
  inr final_rew.

#[global] Instance reward_net : RewardNet t :=
  { observation_space := observation_space;
    action_space := action_space;
    normalize_images := normalize_images;
    forward := forward }.

End WithBase.
End ShapedRewardNet.

(** ** The loss in the words of the specification *)

(** The L2 norm of a weight tensor, and the sum over all weight tensors of
    the squared L2 norm. *)
Definition l2_norm (w : Tensor1) : R := sqrt (tsum (square w)).

Definition sum_squared_l2_norms (ws : list Tensor1) : R :=
  tsum (map (fun w => Rsqr (l2_norm w)) ws).

(** ** Stand-ins for the collaborators

    Small implementations of the interfaces, used to run the definitions
    on concrete inputs. *)

Module Toy.

(** A policy is its list of weight tensors; every action has log
    probability [-1] and entropy [1/2]. *)
Definition torch : Torch :=
  {| Policy := list Tensor1;
     Optimizer := unit;
     LRScheduler := unit;
     Device := string;
     get_device := fun name => name;
     get_device_again := fun d => d;
     policy_to := fun pol _ => pol;
     policy_device := fun _ => "cpu";
     policy_train_mode := fun pol => pol;
     parameters := fun pol => pol;
     grads := fun pol => map Some pol;
     evaluate_actions :=
       fun _ obs _ =>
         (map (fun _ => 0%R) obs, map (fun _ => (-1)%R) obs,
          map (fun _ => (1 / 2)%R) obs);
     zero_grad := fun _ pol => pol;
     backward := fun _ pol => pol;
     step := fun opt pol => (opt, pol);
     scheduler_step := fun sch opt => (sch, opt);
     th_norm := fun x _ => sqrt (tsum (square x));
     optim_lr_gmean := fun _ => 1%R;
     join_callbacks :=
       fun first second =>
         Some (match first with Some f => f | None => [] end
               ++ match second with Some g => g | None => [] end);
     th_data_loader := fun data _ _ => fun _ => [data] |}.

Definition preprocessing : Preprocessing :=
  {| get_flattened_obs_dim :=
       fun s =>
         match s with
         | Box shape => fold_right Z.mul 1%Z shape
         | Discrete n => n
         | OtherSpace _ => 1%Z
         end;
     preprocess_obs := fun t _ _ => t;
     is_image_space := fun _ => false |}.

(** A reward net that gives every transition the same reward. *)
Record ConstantNet : Type := { reward : R }.

Definition constant_net : RewardNet ConstantNet :=
  {| observation_space := fun _ => Box [1%Z];
     action_space := fun _ => Discrete 2;
     normalize_images := fun _ => true;
     forward := fun net state _ _ _ => inr (map (fun _ => reward net) state) |}.

(** The constant net shaped by the sum of the state's features, with
    discount one half. *)
Definition shaped_net : @ShapedRewardNet.t ConstantNet :=
  ShapedRewardNet.__init__ (Box [1%Z]) (Discrete 2) {| reward := 1 |}
    (map tsum) (1 / 2) true.

#[local] Existing Instance torch.

(** Arguments for a trainer whose optimizer is given a weight decay. *)
Definition args_with_weight_decay : @BC.Args torch :=
  {| BC.arg_observation_space := Box [1%Z];
     BC.arg_action_space := Discrete 2;
     BC.arg_policy_class := fun _ => [[1%R]];
     BC.arg_policy_kwargs := None;
     BC.arg_expert_data := None;
     BC.arg_optimizer_cls := fun _ _ => tt;
     BC.arg_optimizer_kwargs := Some {["weight_decay" := PyFloat 1]};
     BC.arg_lr_scheduler_cls := None;
     BC.arg_lr_scheduler_kwargs := None;
     BC.arg_ent_weight := 0%R;
     BC.arg_l2_weight := 1%R;
     BC.arg_augmentation_fn := None;
     BC.arg_normalize_images := true;
     BC.arg_device := "auto" |}.

End Toy.

(** ** Further constructors of [reward_nets.py] *)

(** A call [f(k1=v1, ..., **kw)]: a key that is given explicitly and is
    also in [kw] is a [TypeError] (multiple values for a keyword
    argument); otherwise the callee receives all of them. *)
Definition call_with (explicit : list (string * PyVal)) (kw : kwargs)
    : exn + kwargs :=
  if existsb (fun kv => contains (fst kv) kw) explicit then inl TypeError
  else inr ((list_to_map explicit : kwargs) ∪ kw).

(** [{k: v for k, v in kwargs.items() if k != "rew_normalize_class"}]. *)
Definition build_mlp_kwargs (kw : kwargs) : kwargs :=
  delete "rew_normalize_class" kw.

Module BasicPotentialMLP.
Section WithCollaborators.
Context `{Preprocessing} `{Networks}.

Record t : Type := { _potential_net : MLP }.

(** [__init__]: [build_mlp] is called with four explicit keywords and the
    remaining keyword arguments. *)
Definition __init__ (observation_space : Space) (hid_sizes : list Z)
    (kw : kwargs) : exn + t :=
  let potential_in_size := get_flattened_obs_dim observation_space in
  let* full :=
    call_with
      [("in_size", PyInt potential_in_size);
       ("hid_sizes", PyTuple hid_sizes);
       ("squeeze_output", PyBool true);
       ("flatten_input", PyBool true)] kw in
  inr {| _potential_net := build_mlp full |}.

(** [forward]. *)
Definition forward (self : t) (state : Tensor) : exn + Tensor1 :=
  mlp_forward (_potential_net self) state.

End WithCollaborators.
End BasicPotentialMLP.

Module BasicNormalizedRewardNet.
Section WithCollaborators.
Context `{Preprocessing} `{Networks}.

(** [__init__]: the base net is built with [hid_sizes=reward_hid_sizes]
    and the remaining keyword arguments, then wrapped. *)
Definition __init__ (observation_space action_space : Space)
    (rew_normalize_class : option (Z -> Tensor1 -> Tensor1))
    (reward_hid_sizes : list Z)
    (use_state use_action use_next_state use_done : bool) (kw : kwargs)
    : exn + @NormalizedRewardNet.t BasicRewardNet.t :=
  let build_mlp_kwargs := build_mlp_kwargs kw in
  let* base_kwargs :=
    call_with [("hid_sizes", PyTuple reward_hid_sizes)] build_mlp_kwargs in
  let base_reward_net :=
    BasicRewardNet.__init__ observation_space action_space
      use_state use_action use_next_state use_done base_kwargs in
  inr (NormalizedRewardNet.__init__ observation_space action_space
         base_reward_net rew_normalize_class true).

End WithCollaborators.
End BasicNormalizedRewardNet.

Module BasicShapedRewardNet.
Section WithCollaborators.
Context `{Preprocessing} `{Networks}.

(** What [__init__] hands to [ShapedRewardNet.__init__]: the base net, the
    potential network and the discount factor ([normalize_images] keeps
    its default). *)
Record t : Type :=
  { observation_space : Space;
    action_space : Space;
    normalize_images : bool;
    base : BasicRewardNet.t;
    potential : BasicPotentialMLP.t;
    discount_factor : R }.

(** [__init__]. *)
Definition __init__ (observation_space action_space : Space)
    (reward_hid_sizes potential_hid_sizes : list Z)
    (use_state use_action use_next_state use_done : bool)
    (discount_factor : R) (kw : kwargs) : exn + t :=
  let build_mlp_kwargs := build_mlp_kwargs kw in
  let* base_kwargs :=
    call_with [("hid_sizes", PyTuple reward_hid_sizes)] build_mlp_kwargs in
  let base_reward_net :=
    BasicRewardNet.__init__ observation_space action_space
      use_state use_action use_next_state use_done base_kwargs in
  let* potential_kwargs :=
    call_with [("hid_sizes", PyTuple potential_hid_sizes)] build_mlp_kwargs in
  let* potential_net :=
    BasicPotentialMLP.__init__ observation_space potential_hid_sizes
      (delete "hid_sizes" potential_kwargs) in
  inr {| observation_space := observation_space;
         action_space := action_space;
         normalize_images := true;
         base := base_reward_net;
         potential := potential_net;
         discount_factor := discount_factor |}.

End WithCollaborators.
End BasicShapedRewardNet.

(** ** Observations on traces and results *)

Module IterTrace.
Import EpochOrBatchIteratorWithProgress.

(** The callbacks a run called, in order. *)
Fixpoint calls (evs : list event) : list Callback :=
  match evs with
  | [] => []
  | Call cb :: evs' => cb :: calls evs'
  | _ :: evs' => calls evs'
  end.

(** How often a run asked the data loader for an iterator. *)
Fixpoint loader_iterations (evs : list event) : nat :=
  match evs with
  | [] => 0
  | IterLoader _ :: evs' => S (loader_iterations evs')
  | _ :: evs' => loader_iterations evs'
  end.

(** How often a progress bar was opened, and closed. *)
Fixpoint opens (evs : list event) : nat :=
  match evs with
  | [] => 0
  | TqdmOpen _ :: evs' => S (opens evs')
  | _ :: evs' => opens evs'
  end.

Fixpoint closes (evs : list event) : nat :=
  match evs with
  | [] => 0
  | TqdmClose :: evs' => S (closes evs')
  | _ :: evs' => closes evs'
  end.

(** Events of the progress bar. *)
Definition is_tqdm (e : event) : bool :=
  match e with
  | TqdmOpen _ | TqdmSetDescription _ _ _ _ | TqdmUpdate | TqdmClose => true
  | _ => false
  end.

(** The [batch_num] and [samples_so_far] one expects next to a sequence of
    batches when the counters stand at [k] and [s]. *)
Fixpoint stats_from (k s : Z) (batches : list Batch) : list (Z * Z) :=
  match batches with
  | [] => []
  | b :: rest =>
      let k' := (k + 1)%Z in
      let s' := (s + Z.of_nat (length (obs b)))%Z in
      (k', s') :: stats_from k' s' rest
  end.

(** The counters after these batches. *)
Fixpoint stats_end (k s : Z) (batches : list Batch) : Z * Z :=
  match batches with
  | [] => (k, s)
  | b :: rest => stats_end (k + 1)%Z (s + Z.of_nat (length (obs b)))%Z rest
  end.

(** Iterators used to exercise the definitions: one batch with a progress
    bar; three batches with a batch-end callback. *)
Definition one_batch_with_bar : t :=
  {| use_epochs := false; data_loader := steady_loader;
     n_epochs := None; n_batches := Some 1%Z; use_tqdm := true;
     on_epoch_end := None; on_batch_end := None |}.


(** [batch_num] and [samples_so_far] of a yielded pair. *)
Definition progress_of (p : Batch * Stats) : Z * Z :=
  (batch_num (snd p), samples_so_far (snd p)).

End IterTrace.

Module BCTrace.
Section WithTorch.
Context `{Torch} `{Preprocessing}.

(** [stats_dict[key]]. *)
Fixpoint stat (key : string) (stats_dict : list (string * R)) : option R :=
  match stats_dict with
  | [] => None
  | (k, v) :: rest => if String.eqb k key then Some v else stat key rest
  end.

(** The batches a run of [train] received from its iterator. *)
Fixpoint batches_received (evs : list BC.train_event) : list Batch :=
  match evs with
  | [] => []
  | BC.Progress (BC.Iter.Yield b _) :: evs' => b :: batches_received evs'
  | _ :: evs' => batches_received evs'
  end.

(** The observations [preprocess_obs] was called on. *)
Fixpoint preprocessed (evs : list BC.train_event) : list Tensor :=
  match evs with
  | [] => []
  | BC.PreprocessObs o _ _ :: evs' => o :: preprocessed evs'
  | _ :: evs' => preprocessed evs'
  end.



(** The steps at which the logger was flushed. *)
Fixpoint dumps (evs : list BC.train_event) : list Z :=
  match evs with
  | [] => []
  | BC.Dump n :: evs' => n :: dumps evs'
  | _ :: evs' => dumps evs'
  end.

(** The three entries [__init__] puts into [policy_kwargs] before the
    caller's. *)
Definition default_policy_kwargs (a : BC.Args) : kwargs :=
  <["observation_space" := PySpace (BC.arg_observation_space a)]>
    (<["action_space" := PySpace (BC.arg_action_space a)]>
       (<["lr_schedule" := PyConstantLRSchedule BC.float_max]> ∅)).

End WithTorch.
End BCTrace.

(** The discounted return of a sequence of rewards. *)
Fixpoint discounted_return (gamma : R) (rewards : list R) : R :=
  match rewards with
  | [] => 0%R
  | r :: rest => (r + gamma * discounted_return gamma rest)%R
  end.

(** A potential that scores every state of the batch on its own. *)
Definition rowwise (phi : list R -> R) : Tensor -> Tensor1 := map phi.

(** Pointwise combination of two tensors of equal length. *)
Definition zip_with_R (op : R -> R -> R) (x y : Tensor1) : Tensor1 :=
  map (fun p => op (fst p) (snd p)) (combine x y).

(** The arithmetic of [ShapedRewardNet.forward] when no broadcasting takes
    place. *)
Definition shaping_output (gamma : R) (base_out done new old : Tensor1)
    : Tensor1 :=
  zip_with_R Rminus
    (zip_with_R Rplus base_out
       (scale gamma (zip_with_R Rmult (one_minus done) new)))
    old.

Module ToyMore.

#[local] Existing Instance Toy.torch.

(** Arguments for a trainer with a scheduler and no expert data. *)
Definition args_with_scheduler : @BC.Args Toy.torch :=
  {| BC.arg_observation_space := Box [1%Z];
     BC.arg_action_space := Discrete 2;
     BC.arg_policy_class := fun _ => [[1%R]];
     BC.arg_policy_kwargs := Some {["net_arch" := PyTuple [8%Z]]};
     BC.arg_expert_data := None;
     BC.arg_optimizer_cls := fun _ _ => tt;
     BC.arg_optimizer_kwargs := None;
     BC.arg_lr_scheduler_cls := Some (fun _ _ => tt);
     BC.arg_lr_scheduler_kwargs := Some ∅;
     BC.arg_ent_weight := 0%R;
     BC.arg_l2_weight := 1%R;
     BC.arg_augmentation_fn := None;
     BC.arg_normalize_images := true;
     BC.arg_device := "auto" |}.

(** The same arguments, with the keyword arguments of the scheduler
    left out. *)
Definition args_scheduler_without_kwargs : @BC.Args Toy.torch :=
  {| BC.arg_observation_space := Box [1%Z];
     BC.arg_action_space := Discrete 2;
     BC.arg_policy_class := fun _ => [[1%R]];
     BC.arg_policy_kwargs := None;
     BC.arg_expert_data := None;
     BC.arg_optimizer_cls := fun _ _ => tt;
     BC.arg_optimizer_kwargs := None;
     BC.arg_lr_scheduler_cls := Some (fun _ _ => tt);
     BC.arg_lr_scheduler_kwargs := None;
     BC.arg_ent_weight := 0%R;
     BC.arg_l2_weight := 1%R;
     BC.arg_augmentation_fn := None;
     BC.arg_normalize_images := true;
     BC.arg_device := "auto" |}.

(** The trainer these arguments give. *)
Definition trainer : @BC.t Toy.torch :=
  {| BC.action_space := Discrete 2;
     BC.observation_space := Box [1%Z];
     BC.policy_class := fun _ => [[1%R]];
     BC.device := "auto";
     BC.policy_kwargs :=
       update (BCTrace.default_policy_kwargs args_with_scheduler)
         (or_empty (BC.arg_policy_kwargs args_with_scheduler));
     BC.policy := [[1%R]];
     BC.optimizer := tt;
     BC.lr_scheduler := Some tt;
     BC.epoch_end_step_callback := Some [SchedulerStep];
     BC.expert_data_loader := None;
     BC.ent_weight := 0%R;
     BC.l2_weight := 1%R;
     BC.augmentation_fn := fun x => x |}.

(** A normalization layer that halves every reward. *)
Definition halving (num_features : Z) : Tensor1 -> Tensor1 :=
  map (fun v => (v / 2)%R).

(** A network that sums the features of every row. *)
Definition networks : Networks :=
  {| MLP := kwargs;
     build_mlp := fun kw => kw;
     mlp_forward := fun _ x => inr (map tsum x) |}.

End ToyMore.

(** * Theorems *)

Section IteratorFacts.
Import EpochOrBatchIteratorWithProgress.

Lemma yields_app (evs1 evs2 : list event) :
  yields (evs1 ++ evs2) = yields evs1 ++ yields evs2.
Proof.
  induction evs1 as [|e evs1 IH]; simpl; [reflexivity|].
  destruct e; simpl; rewrite ?IH; reflexivity.
Qed.

Lemma yields_call (cb : option Callback) : yields (call cb) = [].
Proof. destruct cb; reflexivity. Qed.

Lemma yields_show_desc (self : t) (c : counters) : yields (show_desc self c) = [].
Proof. unfold show_desc. destruct (use_tqdm self); reflexivity. Qed.

Lemma yields_show_progress (self : t) (c : counters) :
  yields (show_progress self c) = [].
Proof. unfold show_progress. destruct (use_tqdm self); reflexivity. Qed.

Lemma batch_size_pos (b : Batch) :
  batch_nonempty b -> (0 <? Z.of_nat (length (obs b)))%Z = true.
Proof.
  unfold batch_nonempty. intros H. apply Z.ltb_lt.
  destruct (obs b); [congruence | simpl; lia].
Qed.

(** The inner loop in epoch mode: a pass of well-formed batches is
    yielded whole. *)
Lemma for_batches_epoch_mode (self : t) (bs : list Batch) (g : bool) (c : counters) :
  use_epochs self = true ->
  Forall batch_nonempty bs ->
  exists evs c',
    for_batches self bs g c = (evs, (g || nonnil bs, c', Normal)) /\
    map fst (yields evs) = bs /\
    c_epoch_num c' = c_epoch_num c.
Proof.
  intros Hu. revert g c.
  induction bs as [|b bs IH]; intros g c Hok.
  - exists [], c. simpl. rewrite orb_false_r. auto.
  - inversion Hok as [|? ? Hb Hbs]; subst.
    cbn [for_batches]. rewrite (batch_size_pos b Hb), Hu.
    match goal with |- context [for_batches self bs true ?c1] =>
      destruct (IH true c1 Hbs) as (evs & c' & Heq & Hy & He) end.
    rewrite Heq. eexists _, c'. split; [|split].
    + simpl. rewrite orb_true_r. reflexivity.
    + simpl. rewrite yields_app, yields_call. simpl. now rewrite Hy.
    + rewrite He. reflexivity.
Qed.

Lemma needed_last (B k : Z) : (B <= k + 1)%Z -> needed B k = 1%nat.
Proof. unfold needed. lia. Qed.

Lemma needed_more (B k : Z) : (k + 1 < B)%Z -> needed B k = S (needed B (k + 1)).
Proof. unfold needed. lia. Qed.

(** The inner loop in batch mode: either the pass is too short to reach
    the target and is yielded whole, or the loop returns right after the
    yield that reaches the target. *)
Lemma for_batches_batch_mode (self : t) (bs : list Batch) (g : bool)
    (c : counters) (B : Z) :
  use_epochs self = false ->
  n_batches self = Some B ->
  Forall batch_nonempty bs ->
  exists evs c',
    map fst (yields evs) = firstn (needed B (c_batch_num c)) bs /\
    ((length bs < needed B (c_batch_num c))%nat /\
     for_batches self bs g c = (evs, (g || nonnil bs, c', Normal)) /\
     c_epoch_num c' = c_epoch_num c /\
     c_batch_num c' = (c_batch_num c + Z.of_nat (length bs))%Z
     \/
     (needed B (c_batch_num c) <= length bs)%nat /\
     for_batches self bs g c = (evs, (true, c', Return))).
Proof.
  intros Hu HB. revert g c.
  induction bs as [|b bs IH]; intros g c Hok.
  - exists [], c. split; [now rewrite firstn_nil|]. left. simpl.
    rewrite orb_false_r. repeat split; try lia. unfold needed. lia.
  - inversion Hok as [|? ? Hb Hbs]; subst.
    cbn [for_batches]. rewrite (batch_size_pos b Hb), Hu, HB.
    cbn [reached].
    destruct (Z.leb_spec B (c_batch_num c + 1)) as [Hle|Hlt].
    + rewrite (needed_last _ _ Hle). eexists _, _. split; [|right; split; [simpl; lia|reflexivity]].
      rewrite !yields_app, yields_show_progress. simpl.
      rewrite yields_call. reflexivity.
    + rewrite (needed_more _ _ Hlt).
      match goal with |- context [for_batches self bs true ?c1] =>
        destruct (IH true c1 Hbs) as (evs & c' & Hy & Hcase) end.
      cbn [c_batch_num c_epoch_num] in Hy, Hcase.
      destruct Hcase as [(Hlen & Heq & He & Hn)|(Hlen & Heq)]; rewrite Heq.
      * cbn [nonnil orb]. rewrite orb_true_r.
        eexists _, c'. split; [|left; split; [|split; [reflexivity|split]]].
        -- rewrite !yields_app, yields_show_progress. simpl.
           rewrite yields_call. simpl. now rewrite Hy.
        -- simpl. lia.
        -- exact He.
        -- rewrite Hn. simpl length. lia.
      * eexists _, c'. split; [|right; split; [simpl; lia|reflexivity]].
        rewrite !yields_app, yields_show_progress. simpl.
        rewrite yields_call. simpl. now rewrite Hy.
Qed.

Lemma nonnil_true {A : Type} (l : list A) : l <> [] -> nonnil l = true.
Proof. destruct l; [congruence | reflexivity]. Qed.

Lemma needed_pos (B k : Z) : (1 <= needed B k)%nat.
Proof. unfold needed. lia. Qed.

Lemma needed_advance (B k : Z) (l : nat) :
  (1 <= l < needed B k)%nat ->
  needed B (k + Z.of_nat l) = (needed B k - l)%nat.
Proof. unfold needed. lia. Qed.

(** The outer loop in batch mode. *)
Lemma while_true_batch_mode (self : t) (B : Z) :
  use_epochs self = false ->
  n_batches self = Some B ->
  forall (fuel p : nat) (c : counters) (n : nat),
    (needed B (c_batch_num c) <= fuel)%nat ->
    (needed B (c_batch_num c) <= n)%nat ->
    (forall k, (p <= k < p + needed B (c_batch_num c))%nat ->
               pass_ok (data_loader self k)) ->
    exists evs,
      while_true fuel self p c = (evs, Returned) /\
      map fst (yields evs)
      = firstn (needed B (c_batch_num c))
          (concat (map (data_loader self) (seq p n))) /\
      length (yields evs) = needed B (c_batch_num c).
Proof.
  intros Hu HB. induction fuel as [|fuel IH]; intros p c n Hfuel Hn Hok.
  - pose proof (needed_pos B (c_batch_num c)). lia.
  - pose proof (needed_pos B (c_batch_num c)) as Hpos.
    destruct n as [|n]; [lia|].
    destruct (Hok p ltac:(lia)) as [Hne Hall].
    destruct (for_batches_batch_mode self (data_loader self p) false c B Hu HB Hall)
      as (evs1 & c1 & Hy & [(Hlen & Heq & He & Hb)|(Hlen & Heq)]).
    + (* the pass is exhausted before the target is reached *)
      assert (Hl : (1 <= length (data_loader self p))%nat)
        by (destruct (data_loader self p); [congruence | simpl; lia]).
      cbn [while_true]. unfold while_body.
      rewrite Heq, (nonnil_true _ Hne), Hu. cbn [orb negb].
      match goal with |- context [while_true fuel self (S p) ?c2] =>
        destruct (IH (S p) c2 n) as (evs2 & Hrun & Hy2 & Hlen2) end.
      { cbn [c_batch_num]. rewrite Hb, needed_advance by lia. lia. }
      { cbn [c_batch_num]. rewrite Hb, needed_advance by lia. lia. }
      { cbn [c_batch_num]. rewrite Hb, needed_advance by lia.
        intros k Hk. apply Hok. lia. }
      cbn [c_batch_num] in Hy2, Hlen2.
      rewrite Hb, needed_advance in Hy2, Hlen2 by lia.
      rewrite Hrun. eexists. split; [reflexivity|].
      rewrite !yields_app, yields_show_desc, yields_call.
      cbn [yields app]. rewrite ?app_nil_r.
      rewrite !length_app, !map_app, Hy, Hy2, Hlen2.
      rewrite firstn_all2 by lia.
      split.
      * cbn [seq map concat].
        rewrite firstn_app, (firstn_all2 (data_loader self p)) by lia.
        reflexivity.
      * rewrite <- (length_map fst), Hy, firstn_all2 by lia. lia.
    + (* the target is reached inside this pass *)
      cbn [while_true]. unfold while_body.
      rewrite Heq. eexists. split; [reflexivity|].
      rewrite !yields_app, yields_show_desc. cbn [yields app].
      split.
      * rewrite Hy. cbn [seq map concat]. rewrite firstn_app.
        replace (needed B (c_batch_num c) - length (data_loader self p))%nat
          with 0%nat by lia.
        now rewrite firstn_O, app_nil_r.
      * rewrite <- (length_map fst), Hy, length_firstn. lia.
Qed.

(** The outer loop in batch mode, asking for the data contract only on the
    passes the loop starts: pass [p + j] is started only while the passes
    [p .. p + j - 1] hold fewer batches than are still needed. *)
Lemma while_true_batch_mode_reached (self : t) (B : Z) :
  use_epochs self = false ->
  n_batches self = Some B ->
  forall (fuel p : nat) (c : counters) (n : nat),
    (needed B (c_batch_num c) <= fuel)%nat ->
    (needed B (c_batch_num c) <= n)%nat ->
    (forall j,
        (list_sum (map (fun i => length (data_loader self (p + i))) (seq 0 j))
         < needed B (c_batch_num c))%nat ->
        pass_ok (data_loader self (p + j))) ->
    exists evs,
      while_true fuel self p c = (evs, Returned) /\
      map fst (yields evs)
      = firstn (needed B (c_batch_num c))
          (concat (map (data_loader self) (seq p n))) /\
      length (yields evs) = needed B (c_batch_num c).
Proof.
  intros Hu HB. induction fuel as [|fuel IH]; intros p c n Hfuel Hn Hok.
  - pose proof (needed_pos B (c_batch_num c)). lia.
  - pose proof (needed_pos B (c_batch_num c)) as Hpos.
    destruct n as [|n]; [lia|].
    assert (Hp : pass_ok (data_loader self p)).
    { rewrite <- (Nat.add_0_r p). apply Hok. simpl. lia. }
    destruct Hp as [Hne Hall].
    destruct (for_batches_batch_mode self (data_loader self p) false c B Hu HB Hall)
      as (evs1 & c1 & Hy & [(Hlen & Heq & He & Hb)|(Hlen & Heq)]).
    + (* the pass is exhausted before the target is reached *)
      assert (Hl : (1 <= length (data_loader self p))%nat)
        by (destruct (data_loader self p); [congruence | simpl; lia]).
      cbn [while_true]. unfold while_body.
      rewrite Heq, (nonnil_true _ Hne), Hu. cbn [orb negb].
      match goal with |- context [while_true fuel self (S p) ?c2] =>
        destruct (IH (S p) c2 n) as (evs2 & Hrun & Hy2 & Hlen2) end.
      { cbn [c_batch_num]. rewrite Hb, needed_advance by lia. lia. }
      { cbn [c_batch_num]. rewrite Hb, needed_advance by lia. lia. }
      { cbn [c_batch_num]. rewrite Hb, needed_advance by lia.
        intros j Hj. replace (S p + j)%nat with (p + S j)%nat by lia.
        apply Hok. cbn [seq map list_sum fold_right].
        rewrite <- seq_shift, map_map, Nat.add_0_r.
        rewrite (map_ext (fun i => length (data_loader self (p + S i)))
                   (fun i => length (data_loader self (S p + i)))) by
          (intros i; now replace (p + S i)%nat with (S p + i)%nat by lia).
        unfold list_sum in Hj |- *. lia. }
      cbn [c_batch_num] in Hy2, Hlen2.
      rewrite Hb, needed_advance in Hy2, Hlen2 by lia.
      rewrite Hrun. eexists. split; [reflexivity|].
      rewrite !yields_app, yields_show_desc, yields_call.
      cbn [yields app]. rewrite ?app_nil_r.
      rewrite !length_app, !map_app, Hy, Hy2, Hlen2.
      rewrite firstn_all2 by lia.
      split.
      * cbn [seq map concat].
        rewrite firstn_app, (firstn_all2 (data_loader self p)) by lia.
        reflexivity.
      * rewrite <- (length_map fst), Hy, firstn_all2 by lia. lia.
    + (* the target is reached inside this pass *)
      cbn [while_true]. unfold while_body.
      rewrite Heq. eexists. split; [reflexivity|].
      rewrite !yields_app, yields_show_desc. cbn [yields app].
      split.
      * rewrite Hy. cbn [seq map concat]. rewrite firstn_app.
        replace (needed B (c_batch_num c) - length (data_loader self p))%nat
          with 0%nat by lia.
        now rewrite firstn_O, app_nil_r.
      * rewrite <- (length_map fst), Hy, length_firstn. lia.
Qed.

(** The outer loop in epoch mode. *)
Lemma while_true_epoch_mode (self : t) (E : Z) :
  use_epochs self = true ->
  n_epochs self = Some E ->
  forall (fuel p : nat) (c : counters),
    (needed E (c_epoch_num c) <= fuel)%nat ->
    (forall k, (p <= k < p + needed E (c_epoch_num c))%nat ->
               pass_ok (data_loader self k)) ->
    exists evs,
      while_true fuel self p c = (evs, Returned) /\
      map fst (yields evs)
      = concat (map (data_loader self) (seq p (needed E (c_epoch_num c)))).
Proof.
  intros Hu HE. induction fuel as [|fuel IH]; intros p c Hfuel Hok.
  - pose proof (needed_pos E (c_epoch_num c)). lia.
  - pose proof (needed_pos E (c_epoch_num c)) as Hpos.
    destruct (Hok p ltac:(lia)) as [Hne Hall].
    destruct (for_batches_epoch_mode self (data_loader self p) false c Hu Hall)
      as (evs1 & c1 & Heq & Hy & He).
    cbn [while_true]. unfold while_body.
    rewrite Heq, (nonnil_true _ Hne), Hu, HE. cbn [orb negb reached c_epoch_num].
    rewrite He.
    destruct (Z.leb_spec E (c_epoch_num c + 1)) as [Hle|Hlt].
    + eexists. split; [reflexivity|].
      rewrite (needed_last _ _ Hle). cbn [seq map concat].
      rewrite !yields_app, yields_show_desc, yields_call, yields_show_progress.
      cbn [yields app]. now rewrite !app_nil_r.
    + match goal with |- context [while_true fuel self (S p) ?c2] =>
        destruct (IH (S p) c2) as (evs2 & Hrun & Hy2) end.
      { cbn [c_epoch_num]. rewrite (needed_more _ _ Hlt) in Hfuel. lia. }
      { cbn [c_epoch_num]. rewrite (needed_more _ _ Hlt) in Hok.
        intros k Hk. apply Hok. lia. }
      cbn [c_epoch_num] in Hy2.
      rewrite Hrun. eexists. split; [reflexivity|].
      rewrite (needed_more _ _ Hlt). cbn [seq map concat].
      rewrite !yields_app, yields_show_desc, yields_call, yields_show_progress.
      cbn [yields app]. rewrite ?app_nil_r.
      now rewrite map_app, Hy, Hy2.
Qed.

(** What is known when the inner loop falls through, whatever the data. *)
Lemma for_batches_normal (self : t) (bs : list Batch) (g : bool) (c : counters)
    (evs : list event) (g' : bool) (c' : counters) :
  for_batches self bs g c = (evs, (g', c', Normal)) ->
  g' = g || nonnil bs /\
  c_epoch_num c' = c_epoch_num c /\
  c_batch_num c' = (c_batch_num c + Z.of_nat (length bs))%Z /\
  (use_epochs self = false -> bs <> [] ->
   exists B, n_batches self = Some B /\ (c_batch_num c' < B)%Z).
Proof.
  revert g c evs. induction bs as [|b bs IH]; intros g c evs H.
  - simpl in H. inversion H; subst. rewrite orb_false_r.
    repeat split; simpl; try lia. congruence.
  - cbn [for_batches] in H.
    destruct (0 <? Z.of_nat (length (obs b)))%Z; [|discriminate].
    destruct (use_epochs self) eqn:Hu.
    + destruct (for_batches self bs true _) as [evs1 r] eqn:Hrec.
      inversion H; subst. destruct (IH _ _ _ Hrec) as (Hg & He & Hb & _).
      cbn [c_epoch_num c_batch_num] in He, Hb.
      repeat split; [now rewrite orb_true_r | exact He | | discriminate].
      rewrite Hb. simpl length. lia.
    + destruct (n_batches self) as [B|] eqn:HB; cbn [reached] in H;
        [|discriminate].
      destruct (Z.leb_spec B (c_batch_num c + 1)) as [Hle|Hlt]; [discriminate|].
      destruct (for_batches self bs true _) as [evs1 r] eqn:Hrec.
      inversion H; subst. destruct (IH _ _ _ Hrec) as (Hg & He & Hb & Hlim).
      cbn [c_epoch_num c_batch_num] in He, Hb.
      repeat split; [now rewrite orb_true_r | exact He | | ].
      * rewrite Hb. simpl length. lia.
      * intros _ _. exists B. split; [reflexivity|].
        destruct bs as [|b' bs'].
        -- simpl in Hb. lia.
        -- destruct (Hlim eq_refl ltac:(discriminate)) as (B' & HB' & Hlt').
           congruence.
Qed.

Lemma while_true_terminates (self : t) (fuel p : nat) (c : counters) :
  (remaining self c < fuel)%nat ->
  snd (while_true fuel self p c) <> OutOfFuel.
Proof.
  revert p c. induction fuel as [|fuel IH]; intros p c Hfuel; [lia|].
  cbn [while_true]. unfold while_body.
  destruct (for_batches self (data_loader self p) false c)
    as [evs1 [[g1 c1] sig]] eqn:Hfor.
  destruct sig; [|discriminate|discriminate].
  destruct (for_batches_normal _ _ _ _ _ _ _ Hfor) as (Hg & He & Hb & Hlim).
  destruct (negb g1) eqn:Hneg; [discriminate|].
  assert (Hne : data_loader self p <> []).
  { intros Hnil. rewrite Hnil in Hg. simpl in Hg. subst g1. discriminate. }
  unfold remaining in Hfuel.
  destruct (use_epochs self) eqn:Hu.
  - destruct (n_epochs self) as [E|] eqn:HE; cbn [reached c_epoch_num];
      [|discriminate].
    destruct (Z.leb_spec E (c_epoch_num c1 + 1)) as [Hle|Hlt]; [discriminate|].
    match goal with |- context [while_true fuel self (S p) ?c2] =>
      specialize (IH (S p) c2);
      destruct (while_true fuel self (S p) c2) as [evs' out] end.
    cbn [snd] in *. apply IH. unfold remaining. rewrite Hu, HE.
    cbn [c_epoch_num]. lia.
  - destruct (Hlim eq_refl Hne) as (B & HB & Hlt).
    match goal with |- context [while_true fuel self (S p) ?c2] =>
      specialize (IH (S p) c2);
      destruct (while_true fuel self (S p) c2) as [evs' out] end.
    cbn [snd] in *. apply IH. unfold remaining. rewrite Hu, HB.
    cbn [c_batch_num]. rewrite HB in Hfuel.
    assert (1 <= length (data_loader self p))%nat
      by (destruct (data_loader self p); [congruence | simpl; lia]).
    lia.
Qed.

(** More fuel does not change a run that has ended. *)
Lemma while_true_fuel_S (self : t) (fuel p : nat) (c : counters) :
  snd (while_true fuel self p c) <> OutOfFuel ->
  while_true (S fuel) self p c = while_true fuel self p c.
Proof.
  revert p c. induction fuel as [|fuel IH]; intros p c Hend;
    [simpl in Hend; congruence|].
  change (while_true (S (S fuel)) self p c)
    with (while_body self p c (while_true (S fuel) self (S p))).
  change (while_true (S fuel) self p c)
    with (while_body self p c (while_true fuel self (S p))) in Hend |- *.
  unfold while_body in *.
  destruct (for_batches self (data_loader self p) false c)
    as [evs1 [[g1 c1] sig]].
  destruct sig; [|reflexivity|reflexivity].
  destruct (negb g1); [reflexivity|].
  match goal with |- context [while_true fuel self (S p) ?c2] =>
    specialize (IH (S p) c2) end.
  destruct (use_epochs self).
  - destruct (reached _ (n_epochs self)) as [e|[|]]; try reflexivity.
    destruct (while_true fuel self (S p) _) as [evs' out] eqn:Hrun.
    rewrite IH; [reflexivity | exact Hend].
  - destruct (while_true fuel self (S p) _) as [evs' out] eqn:Hrun.
    rewrite IH; [reflexivity | exact Hend].
Qed.

Lemma while_true_fuel_ge (self : t) (n fuel p : nat) (c : counters) :
  snd (while_true n self p c) <> OutOfFuel ->
  (n <= fuel)%nat ->
  while_true fuel self p c = while_true n self p c.
Proof.
  intros Hend Hle. induction Hle as [|fuel Hle IH]; [reflexivity|].
  rewrite while_true_fuel_S; [exact IH | now rewrite IH].
Qed.

(** Only the head of the outer loop asks the data loader for an iterator. *)
Lemma for_batches_no_iter (self : t) (bs : list Batch) (g : bool) (c : counters)
    (k : nat) :
  ~ In (IterLoader k) (fst (for_batches self bs g c)).
Proof.
  revert g c. induction bs as [|b bs IH]; intros g c; [simpl; tauto|].
  cbn [for_batches].
  assert (Hcall : ~ In (IterLoader k) (call (on_batch_end self)))
    by (destruct (on_batch_end self); simpl; intuition discriminate).
  assert (Hshow : forall c1, ~ In (IterLoader k) (show_progress self c1))
    by (intros c1; unfold show_progress; destruct (use_tqdm self); simpl;
        intuition discriminate).
  destruct (0 <? Z.of_nat (length (obs b)))%Z; [|simpl; tauto].
  destruct (use_epochs self).
  - match goal with |- context [for_batches self bs true ?c1] =>
      specialize (IH true c1);
      destruct (for_batches self bs true c1) as [evs1 r] end.
    cbn [fst] in *. rewrite in_app_iff. simpl. intuition discriminate.
  - destruct (reached _ _) as [e|[|]]; cbn [fst];
      try (rewrite in_app_iff; simpl; specialize (Hshow
        {| c_samples_so_far := c_samples_so_far c + Z.of_nat (length (obs b));
           c_epoch_num := c_epoch_num c;
           c_batch_num := c_batch_num c + 1 |}); intuition discriminate).
    match goal with |- context [for_batches self bs true ?c1] =>
      specialize (IH true c1); specialize (Hshow c1);
      destruct (for_batches self bs true c1) as [evs1 r] end.
    cbn [fst] in *. rewrite !in_app_iff. simpl. intuition discriminate.
Qed.

Lemma loader_passes_none (evs : list event) :
  (forall k, ~ In (IterLoader k) evs) -> loader_passes evs = [].
Proof.
  induction evs as [|e evs IH]; intros Hno; [reflexivity|].
  destruct e; simpl; try (apply IH; intros k Hk; apply (Hno k); now right).
  exfalso. apply (Hno pass). now left.
Qed.

Lemma for_batches_passes (self : t) (bs : list Batch) (g : bool) (c : counters) :
  loader_passes (fst (for_batches self bs g c)) = [].
Proof.
  apply loader_passes_none. intros k. apply for_batches_no_iter.
Qed.

(** A pass in which the data loader produces nothing ends the loop with
    an [AssertionError]. *)
Lemma while_true_empty_pass (self : t) (fuel p : nat) (c : counters)
    (evs : list event) (out : outcome) (k : nat) :
  while_true fuel self p c = (evs, out) ->
  In (IterLoader k) evs ->
  data_loader self k = [] ->
  out = Raised AssertionError.
Proof.
  intros Hrun Hin Hnil. revert p c evs out Hrun Hin.
  induction fuel as [|fuel IH]; intros p c evs out Hrun Hin.
  - simpl in Hrun. inversion Hrun; subst. destruct Hin.
  - cbn [while_true] in Hrun. unfold while_body in Hrun.
    destruct (Nat.eq_dec k p) as [->|Hkp].
    + rewrite Hnil in Hrun. simpl in Hrun. now inversion Hrun.
    + pose proof (for_batches_no_iter self (data_loader self p) false c k) as Hfor.
      assert (Hdesc : ~ In (IterLoader k) (show_desc self c))
        by (unfold show_desc; destruct (use_tqdm self); simpl;
            intuition discriminate).
      assert (Hp : ~ In (IterLoader k) [IterLoader p])
        by (simpl; intuition congruence).
      assert (Hcall : ~ In (IterLoader k) (call (on_epoch_end self)))
        by (destruct (on_epoch_end self); simpl; intuition discriminate).
      assert (Hshow : forall c1, ~ In (IterLoader k) (show_progress self c1))
        by (intros c1; unfold show_progress; destruct (use_tqdm self); simpl;
            intuition discriminate).
      destruct (for_batches self (data_loader self p) false c)
        as [evs1 [[g1 c1] sig]].
      cbn [fst] in Hfor.
      destruct sig;
        try (inversion Hrun; subst; rewrite !in_app_iff in Hin; tauto).
      destruct (negb g1);
        try (inversion Hrun; subst; rewrite !in_app_iff in Hin; tauto).
      match type of Hrun with context [while_true fuel self (S p) ?c2] =>
        specialize (IH (S p) c2); specialize (Hshow c2);
        destruct (while_true fuel self (S p) c2) as [evs' out'] end.
      destruct (use_epochs self).
      * destruct (reached _ _) as [e|[|]]; inversion Hrun; subst;
          rewrite !in_app_iff in Hin; try tauto.
        apply (IH _ _ eq_refl). tauto.
      * inversion Hrun; subst. rewrite !in_app_iff in Hin.
        apply (IH _ _ eq_refl). tauto.
Qed.

(** [__iter__] adds the opening and the closing of the progress bar. *)
Lemma iter_inv (fuel : nat) (self : t) (evs : list event) (out : outcome) :
  __iter__ fuel self = (evs, out) ->
  exists evs',
    while_true fuel self 0 counters0 = (evs', out) /\
    yields evs = yields evs' /\
    (forall k, In (IterLoader k) evs <-> In (IterLoader k) evs').
Proof.
  unfold __iter__. destruct (while_true fuel self 0 counters0) as [evs' out'].
  intros H. inversion H; subst. exists evs'. split; [reflexivity|]. split.
  - rewrite !yields_app.
    destruct (use_tqdm self), out; simpl; now rewrite ?app_nil_r.
  - intros k. rewrite !in_app_iff.
    destruct (use_tqdm self), out; simpl; intuition discriminate.
Qed.

Lemma iter_of_while_true (fuel : nat) (self : t) (evs' : list event)
    (out : outcome) :
  while_true fuel self 0 counters0 = (evs', out) ->
  exists evs, __iter__ fuel self = (evs, out) /\ yields evs = yields evs'.
Proof.
  intros H. destruct (__iter__ fuel self) as [evs out0] eqn:Hiter.
  destruct (iter_inv _ _ _ _ Hiter) as (evs0 & Hrun & Hy & _).
  rewrite H in Hrun. inversion Hrun; subst. eauto.
Qed.

Lemma needed_from_zero (target : Z) :
  (0 < target)%Z -> needed target 0 = Z.to_nat target.
Proof. unfold needed. lia. Qed.

(** C4.  Constructing the iterator with both targets or with neither
    fails with a [ValueError] (the specification's [ConfigurationError]);
    constructing it with exactly one of them succeeds and selects the
    corresponding mode. *)
Theorem init_exactly_one_target (isatty : bool) (dl : DataLoader)
    (use_tqdm : option bool) (cb_epoch cb_batch : option Callback) (E B : Z) :
  (exists msg,
      __init__ isatty dl (Some E) (Some B) use_tqdm cb_epoch cb_batch
      = inl (ValueError msg)) /\
  (exists msg,
      __init__ isatty dl None None use_tqdm cb_epoch cb_batch
      = inl (ValueError msg)) /\
  (exists it,
      __init__ isatty dl (Some E) None use_tqdm cb_epoch cb_batch = inr it /\
      use_epochs it = true /\ n_epochs it = Some E /\ data_loader it = dl) /\
  (exists it,
      __init__ isatty dl None (Some B) use_tqdm cb_epoch cb_batch = inr it /\
      use_epochs it = false /\ n_batches it = Some B /\ data_loader it = dl).
Proof.
  unfold __init__. cbn [is_not_None is_None negb andb].
  repeat split; eexists; try reflexivity; repeat split; reflexivity.
Qed.

(** C1, as amended.  For every data loader (a data source whose passes
    are finite) that keeps the data contract on the passes the iteration
    reaches (each such pass has at least one batch, each of its batches at
    least one sample) and every positive target: with [n_batches = target]
    the generator returns after yielding exactly [target] pairs, namely the
    first [target] batches of the passes laid end to end, wherever the pass
    boundaries fall; here pass [k] is reached only while the passes before
    it hold fewer than [target] batches.  With [n_epochs = target] the
    passes reached are the first [target] ones, and the generator returns
    after yielding exactly their batches, so their number is the sum of the
    per-pass batch counts. *)
Theorem iter_yields_exactly_target (isatty : bool) (dl : DataLoader)
    (use_tqdm : option bool) (cb_epoch cb_batch : option Callback)
    (target : Z) :
  (0 < target)%Z ->
  ((forall k, (batches_before dl k < Z.to_nat target)%nat -> pass_ok (dl k)) ->
   exists it,
     __init__ isatty dl None (Some target) use_tqdm cb_epoch cb_batch = inr it /\
     forall fuel, (Z.to_nat target <= fuel)%nat ->
       exists evs,
         __iter__ fuel it = (evs, Returned) /\
         Z.of_nat (length (yields evs)) = target /\
         map fst (yields evs)
         = firstn (Z.to_nat target)
             (concat (map dl (seq 0 (Z.to_nat target))))) /\
  ((forall k, (k < Z.to_nat target)%nat -> pass_ok (dl k)) ->
   exists it,
     __init__ isatty dl (Some target) None use_tqdm cb_epoch cb_batch = inr it /\
     forall fuel, (Z.to_nat target <= fuel)%nat ->
       exists evs,
         __iter__ fuel it = (evs, Returned) /\
         map fst (yields evs) = concat (map dl (seq 0 (Z.to_nat target))) /\
         length (yields evs)
         = list_sum (map (fun k => length (dl k)) (seq 0 (Z.to_nat target)))).
Proof.
  intros Hpos. split; intros Hok.
  - eexists. split; [reflexivity|]. intros fuel Hfuel.
    match goal with |- context [__iter__ fuel ?it] => set (self := it) end.
    destruct (while_true_batch_mode_reached self target eq_refl eq_refl fuel 0
                counters0 (Z.to_nat target))
      as (evs' & Hrun & Hy & Hlen);
      cbn [counters0 c_batch_num]; rewrite ?needed_from_zero by lia;
      try lia.
    { intros j Hj. apply Hok. exact Hj. }
    cbn [counters0 c_batch_num] in Hy, Hlen.
    rewrite needed_from_zero in Hy, Hlen by lia.
    destruct (iter_of_while_true _ _ _ _ Hrun) as (evs & Hiter & Hyy).
    exists evs. rewrite Hyy. repeat split; [exact Hiter | lia | exact Hy].
  - eexists. split; [reflexivity|]. intros fuel Hfuel.
    match goal with |- context [__iter__ fuel ?it] => set (self := it) end.
    destruct (while_true_epoch_mode self target eq_refl eq_refl fuel 0
                counters0)
      as (evs' & Hrun & Hy);
      cbn [counters0 c_epoch_num]; rewrite ?needed_from_zero by lia;
      try lia.
    { intros k Hk. apply Hok. lia. }
    cbn [counters0 c_epoch_num] in Hy.
    rewrite needed_from_zero in Hy by lia.
    destruct (iter_of_while_true _ _ _ _ Hrun) as (evs & Hiter & Hyy).
    exists evs. rewrite Hyy. repeat split; [exact Hiter | exact Hy |].
    rewrite <- (length_map fst), Hy, length_concat, map_map. reflexivity.
Qed.

Lemma iter_yields_exactly_target_witness :
  (exists it,
      __init__ false steady_loader None (Some 3%Z) (Some true) None None = inr it /\
      forall fuel, (Z.to_nat 3 <= fuel)%nat ->
        exists evs,
          __iter__ fuel it = (evs, Returned) /\
          Z.of_nat (length (yields evs)) = 3%Z /\
          map fst (yields evs)
          = firstn (Z.to_nat 3)
              (concat (map steady_loader (seq 0 (Z.to_nat 3))))) /\
  (exists it,
      __init__ false steady_loader (Some 3%Z) None (Some true) None None = inr it /\
      forall fuel, (Z.to_nat 3 <= fuel)%nat ->
        exists evs,
          __iter__ fuel it = (evs, Returned) /\
          map fst (yields evs)
          = concat (map steady_loader (seq 0 (Z.to_nat 3))) /\
          length (yields evs)
          = list_sum (map (fun k => length (steady_loader k))
                        (seq 0 (Z.to_nat 3)))) /\
  (exists it,
      __init__ false one_shot_loader None (Some 3%Z) (Some true) None None
      = inr it /\
      forall fuel, (Z.to_nat 3 <= fuel)%nat ->
        exists evs,
          __iter__ fuel it = (evs, Returned) /\
          Z.of_nat (length (yields evs)) = 3%Z /\
          map fst (yields evs)
          = firstn (Z.to_nat 3)
              (concat (map one_shot_loader (seq 0 (Z.to_nat 3))))).
Proof.
  assert (Hsteady : forall k, pass_ok (steady_loader k)).
  { intros k. split; [discriminate|]. repeat constructor; discriminate. }
  destruct (iter_yields_exactly_target false steady_loader (Some true)
              None None 3 ltac:(lia)) as [Hbatch Hepoch].
  split; [apply Hbatch; intros k _; apply Hsteady|].
  split; [apply Hepoch; intros k _; apply Hsteady|].
  apply (proj1 (iter_yields_exactly_target false one_shot_loader (Some true)
                  None None 3 ltac:(lia))).
  intros k Hk. destruct k as [|k].
  - split; [discriminate|]. repeat constructor; discriminate.
  - unfold batches_before in Hk. cbn [seq map list_sum fold_right] in Hk.
    cbn [one_shot_loader repeat length] in Hk. lia.
Defined.

(** C1 as stated fails.  Over an empty list and with [n_batches = 1] the
    generator yields nothing and ends with an [AssertionError]; over a
    loader whose batch holds no sample and with [n_epochs = 1] it does the
    same. *)
Lemma iter_yields_exactly_target_counterexample :
  (__init__ false empty_loader None (Some 1%Z) (Some false) None None
   = inr {| use_epochs := false; data_loader := empty_loader;
            n_epochs := None; n_batches := Some 1%Z; use_tqdm := false;
            on_epoch_end := None; on_batch_end := None |} /\
   __iter__ 1 {| use_epochs := false; data_loader := empty_loader;
                 n_epochs := None; n_batches := Some 1%Z; use_tqdm := false;
                 on_epoch_end := None; on_batch_end := None |}
   = ([IterLoader 0], Raised AssertionError) /\
   Z.of_nat (length (yields [IterLoader 0])) <> 1%Z) /\
  (__init__ false hollow_loader (Some 1%Z) None (Some false) None None
   = inr {| use_epochs := true; data_loader := hollow_loader;
            n_epochs := Some 1%Z; n_batches := None; use_tqdm := false;
            on_epoch_end := None; on_batch_end := None |} /\
   __iter__ 1 {| use_epochs := true; data_loader := hollow_loader;
                 n_epochs := Some 1%Z; n_batches := None; use_tqdm := false;
                 on_epoch_end := None; on_batch_end := None |}
   = ([IterLoader 0], Raised AssertionError) /\
   length (yields [IterLoader 0])
   <> list_sum (map (fun k => length (hollow_loader k)) (seq 0 1))).
Proof. repeat split; discriminate. Qed.

(** Over a data source with finite passes the generator is the generator
    over the data loader. *)
Lemma for_batches_with_data_loader (self : t) (dl : DataLoader)
    (bs : list Batch) (g : bool) (c : counters) :
  for_batches (with_data_loader self dl) bs g c = for_batches self bs g c.
Proof.
  revert g c. induction bs as [|b bs IH]; intros g c; [reflexivity|].
  cbn [for_batches]. rewrite !IH. reflexivity.
Qed.

Lemma while_body_with_data_loader (self : t) (p : nat) (c : counters)
    (again : counters -> list event * outcome) :
  while_body (with_data_loader self (fun _ => data_loader self p)) p c again
  = while_body self p c again.
Proof.
  unfold while_body.
  cbn [with_data_loader data_loader].
  rewrite for_batches_with_data_loader. reflexivity.
Qed.

Lemma while_true_over_finite (self : t) (fuel p : nat) (c : counters) :
  while_true_over fuel self (finite_source (data_loader self)) p c
  = while_true fuel self p c.
Proof.
  revert p c. induction fuel as [|fuel IH]; intros p c; [reflexivity|].
  cbn [while_true_over while_true finite_source].
  rewrite while_body_with_data_loader.
  unfold while_body.
  destruct (for_batches self (data_loader self p) false c)
    as [evs1 [[g1 c1] sig]].
  destruct sig; try reflexivity.
  destruct (negb g1); [reflexivity|].
  rewrite IH. reflexivity.
Qed.

(** Over any data source, a pass in which the source produces nothing
    ends the loop with an [AssertionError]. *)
Lemma while_true_over_empty_pass (self : t) (src : Source) (fuel p : nat)
    (c : counters) (evs : list event) (out : outcome) (k : nat) :
  while_true_over fuel self src p c = (evs, out) ->
  In (IterLoader k) evs ->
  src k = Finite [] ->
  out = Raised AssertionError.
Proof.
  intros Hrun Hin Hnil. revert p c evs out Hrun Hin.
  induction fuel as [|fuel IH]; intros p c evs out Hrun Hin.
  - simpl in Hrun. inversion Hrun; subst. destruct Hin.
  - cbn [while_true_over] in Hrun.
    assert (Hdesc : ~ In (IterLoader k) (show_desc self c))
      by (unfold show_desc; destruct (use_tqdm self); simpl;
          intuition discriminate).
    destruct (Nat.eq_dec k p) as [->|Hkp].
    + rewrite Hnil in Hrun. unfold while_body in Hrun.
      cbn [with_data_loader data_loader for_batches negb] in Hrun.
      now inversion Hrun.
    + assert (Hp : ~ In (IterLoader k) [IterLoader p])
        by (simpl; intuition congruence).
      destruct (src p) as [bs|f].
      * unfold while_body in Hrun.
        cbn [with_data_loader data_loader] in Hrun.
        rewrite for_batches_with_data_loader in Hrun.
        change (show_desc (with_data_loader self (fun _ => bs)) c)
          with (show_desc self c) in Hrun.
        pose proof (for_batches_no_iter self bs false c k) as Hfor.
        assert (Hcall : ~ In (IterLoader k)
                          (call (on_epoch_end
                                   (with_data_loader self (fun _ => bs)))))
          by (cbn [with_data_loader on_epoch_end];
              destruct (on_epoch_end self); simpl; intuition discriminate).
        assert (Hshow : forall c1,
                   ~ In (IterLoader k)
                       (show_progress (with_data_loader self (fun _ => bs)) c1))
          by (intros c1; unfold show_progress;
              cbn [with_data_loader use_tqdm];
              destruct (use_tqdm self); simpl; intuition discriminate).
        destruct (for_batches self bs false c) as [evs1 [[g1 c1] sig]].
        cbn [fst] in Hfor.
        destruct sig;
          try (inversion Hrun; subst; rewrite !in_app_iff in Hin; tauto).
        destruct (negb g1);
          try (inversion Hrun; subst; rewrite !in_app_iff in Hin; tauto).
        match type of Hrun with
          context [while_true_over fuel self src (S p) ?c2] =>
            specialize (IH (S p) c2); specialize (Hshow c2);
            destruct (while_true_over fuel self src (S p) c2) as [evs' out']
        end.
        destruct (use_epochs (with_data_loader self (fun _ => bs))).
        -- destruct (reached _ _) as [e|[|]]; inversion Hrun; subst;
             rewrite !in_app_iff in Hin; try tauto.
           apply (IH _ _ eq_refl). tauto.
        -- inversion Hrun; subst. rewrite !in_app_iff in Hin.
           apply (IH _ _ eq_refl). tauto.
      * unfold endless_turn in Hrun.
        pose proof (for_batches_no_iter self (map f (seq 0 (S fuel))) false c k)
          as Hfor.
        destruct (for_batches self (map f (seq 0 (S fuel))) false c)
          as [evs1 [[g1 c1] sig]].
        cbn [fst] in Hfor.
        destruct sig; inversion Hrun; subst; rewrite !in_app_iff in Hin; tauto.
Qed.

(** C6, as amended.  Whenever a run of the generator starts a pass in
    which the data source produces no batch, the run ends by raising an
    [AssertionError] (the specification's [DataContractViolation]): it
    neither returns nor goes on.  This holds over a data loader and over
    any data source, unbounded passes included.  Over a data loader, that
    is over a data source all of whose passes are finite, the generator
    terminates for every iterator object: some amount of fuel lets the run
    end, and more fuel does not change it; and over such a source the
    generator over data sources is the generator over the data loader. *)
Theorem empty_epoch_raises_and_iter_terminates (self : t) :
  (forall (fuel : nat) (evs : list event) (out : outcome) (k : nat),
      __iter__ fuel self = (evs, out) ->
      In (IterLoader k) evs ->
      data_loader self k = [] ->
      out = Raised AssertionError) /\
  (exists n : nat,
      snd (__iter__ n self) <> OutOfFuel /\
      forall fuel, (n <= fuel)%nat -> __iter__ fuel self = __iter__ n self) /\
  (forall (src : Source) (fuel : nat) (evs : list event) (out : outcome)
          (k : nat),
      iter_over_source fuel self src = (evs, out) ->
      In (IterLoader k) evs ->
      src k = Finite [] ->
      out = Raised AssertionError) /\
  (forall fuel : nat,
      iter_over_source fuel self (finite_source (data_loader self))
      = __iter__ fuel self).
Proof.
  split; [|split; [|split]].
  - intros fuel evs out k Hiter Hin Hnil.
    destruct (iter_inv _ _ _ _ Hiter) as (evs' & Hrun & _ & Hmem).
    apply (while_true_empty_pass self fuel 0 counters0 evs' out k Hrun);
      [now apply Hmem | exact Hnil].
  - exists (S (remaining self counters0)).
    assert (Hend : snd (while_true (S (remaining self counters0)) self 0 counters0)
                   <> OutOfFuel)
      by (apply while_true_terminates; lia).
    split.
    + unfold __iter__.
      destruct (while_true (S (remaining self counters0)) self 0 counters0).
      exact Hend.
    + intros fuel Hfuel. unfold __iter__.
      now rewrite (while_true_fuel_ge self _ fuel 0 counters0 Hend Hfuel).
  - intros src fuel evs out k Hiter Hin Hnil.
    unfold iter_over_source in Hiter.
    destruct (while_true_over fuel self src 0 counters0) as [evs' out'] eqn:Hrun.
    inversion Hiter; subst.
    apply (while_true_over_empty_pass self src fuel 0 counters0 evs' out k Hrun);
      [|exact Hnil].
    rewrite !in_app_iff in Hin.
    destruct (use_tqdm self), out; simpl in Hin; intuition discriminate.
  - intros fuel. unfold iter_over_source, __iter__.
    now rewrite while_true_over_finite.
Qed.

Lemma empty_epoch_raises_and_iter_terminates_witness :
  snd (__iter__ 2 {| use_epochs := true; data_loader := exhausted_loader;
                 n_epochs := Some 2%Z; n_batches := None; use_tqdm := false;
                 on_epoch_end := None; on_batch_end := None |})
  = Raised AssertionError.
Proof.
  eapply (proj1 (empty_epoch_raises_and_iter_terminates
                  {| use_epochs := true; data_loader := exhausted_loader;
                     n_epochs := Some 2%Z; n_batches := None;
                     use_tqdm := false;
                     on_epoch_end := None; on_batch_end := None |})
           2%nat _ _ 1%nat).
  - reflexivity.
  - simpl. auto.
  - reflexivity.
Defined.

(** C6 as stated fails: the generator does not terminate for every data
    source.  In epoch mode with [n_epochs = 1], over a data source whose
    passes do not end, the [for] loop over the first pass is never left:
    whatever the number of batches requested, the generator has yielded
    that many batches of the first pass and has neither returned nor
    raised. *)
Lemma empty_epoch_raises_and_iter_terminates_counterexample :
  exists it : t,
    __init__ false (fun _ => []) (Some 1%Z) None (Some false) None None
    = inr it /\
    forall fuel : nat,
      exists evs,
        iter_over_source (S fuel) it endless_source = (evs, OutOfFuel) /\
        loader_passes evs = [0%nat] /\
        map fst (yields evs) = repeat sample_batch (S fuel).
Proof.
  eexists. split; [reflexivity|]. intros fuel.
  match goal with |- context [iter_over_source _ ?it _] => set (self := it) end.
  unfold iter_over_source.
  cbn [while_true_over endless_source]. unfold endless_turn.
  destruct (for_batches_epoch_mode self
              (map (fun _ : nat => sample_batch) (seq 0 (S fuel))) false
              counters0 eq_refl)
    as (evs1 & c1 & Heq & Hy & _).
  { clear. generalize 0%nat. induction (S fuel) as [|n IH]; intros start;
      simpl; constructor; [discriminate | apply IH]. }
  rewrite Heq. eexists. split; [reflexivity|].
  pose proof (for_batches_passes self
                (map (fun _ : nat => sample_batch) (seq 0 (S fuel))) false
                counters0) as Hpasses.
  rewrite Heq in Hpasses. cbn [fst] in Hpasses.
  split.
  - cbn [use_tqdm self show_desc app]. rewrite app_nil_r.
    cbn [loader_passes]. now rewrite Hpasses.
  - cbn [use_tqdm self show_desc app]. rewrite app_nil_r.
    cbn [yields]. rewrite Hy.
    clear. generalize 0%nat. induction (S fuel) as [|n IH]; intros start;
      simpl; [reflexivity | now rewrite IH].
Qed.

(** C10, as amended.  In batch mode the check of the target runs only
    after a yield: if the first pass over the data loader starts with a
    batch that holds at least one sample, an iterator built with
    [n_batches = 0] yields exactly one pair (that batch, with
    [batch_num = 1]) and then returns. *)
Theorem n_batches_zero_yields_one (isatty : bool) (dl : DataLoader)
    (use_tqdm : option bool) (cb_epoch cb_batch : option Callback)
    (b : Batch) (rest : list Batch) :
  dl 0%nat = b :: rest ->
  batch_nonempty b ->
  exists it,
    __init__ isatty dl None (Some 0%Z) use_tqdm cb_epoch cb_batch = inr it /\
    forall fuel, (1 <= fuel)%nat ->
      exists evs,
        __iter__ fuel it = (evs, Returned) /\
        yields evs
        = [(b, {| epoch_num := 0; batch_num := 1;
                  samples_so_far := Z.of_nat (length (obs b)) |})].
Proof.
  intros Hdl Hb. eexists. split; [reflexivity|].
  intros [|fuel] Hfuel; [lia|].
  match goal with |- context [__iter__ _ ?it] => set (self := it) end.
  assert (Hrun : exists evs',
             while_true (S fuel) self 0 counters0 = (evs', Returned) /\
             yields evs'
             = [(b, {| epoch_num := 0; batch_num := 1;
                       samples_so_far := Z.of_nat (length (obs b)) |})]).
  { cbn [while_true]. unfold while_body.
    change (data_loader self 0) with (dl 0%nat). rewrite Hdl.
    cbn [for_batches]. rewrite (batch_size_pos b Hb).
    cbn [self use_epochs n_batches reached counters0 c_batch_num
           c_samples_so_far c_epoch_num Z.add Z.leb Z.compare].
    eexists. split; [reflexivity|].
    rewrite !yields_app, yields_show_desc, yields_show_progress.
    cbn [yields app]. now rewrite yields_call. }
  destruct Hrun as (evs' & Hrun & Hy).
  destruct (iter_of_while_true _ _ _ _ Hrun) as (evs & Hiter & Hyy).
  exists evs. now rewrite Hyy.
Qed.

Lemma n_batches_zero_yields_one_witness :
  exists it,
    __init__ false steady_loader None (Some 0%Z) (Some false) None None = inr it /\
    forall fuel, (1 <= fuel)%nat ->
      exists evs,
        __iter__ fuel it = (evs, Returned) /\
        yields evs
        = [(sample_batch,
            {| epoch_num := 0; batch_num := 1;
               samples_so_far := Z.of_nat (length (obs sample_batch)) |})].
Proof.
  apply (n_batches_zero_yields_one false steady_loader (Some false) None None
           sample_batch [sample_batch]).
  - reflexivity.
  - discriminate.
Defined.

(** C10 as stated fails: the first pass of [hollow_loader] has a batch,
    yet with [n_batches = 0] nothing is yielded, because the batch is
    rejected by [assert batch_size > 0] before the [yield]. *)
Lemma n_batches_zero_yields_one_counterexample :
  hollow_loader 0%nat <> [] /\
  __init__ false hollow_loader None (Some 0%Z) (Some false) None None
  = inr {| use_epochs := false; data_loader := hollow_loader;
           n_epochs := None; n_batches := Some 0%Z; use_tqdm := false;
           on_epoch_end := None; on_batch_end := None |} /\
  __iter__ 1 {| use_epochs := false; data_loader := hollow_loader;
            n_epochs := None; n_batches := Some 0%Z; use_tqdm := false;
            on_epoch_end := None; on_batch_end := None |}
  = ([IterLoader 0], Raised AssertionError) /\
  length (yields [IterLoader 0]) <> 1%nat.
Proof. repeat split; discriminate. Qed.

End IteratorFacts.

Section TrainerFacts.
Context `{Torch} `{Preprocessing}.

Lemma tsum_square_nonneg (w : Tensor1) : (0 <= tsum (square w))%R.
Proof.
  induction w as [|v w IH]; simpl; [lra|].
  pose proof (Rle_0_sqr v) as Hv. unfold Rsqr in Hv. lra.
Qed.

Lemma fold_left_Rplus (xs : list R) : fold_left Rplus xs 0%R = tsum xs.
Proof.
  unfold tsum. apply fold_symmetric; intros; lra.
Qed.

(** What the code sums is the squared L2 norm of each weight tensor. *)
Lemma sum_squares_is_sum_squared_l2_norms (ws : list Tensor1) :
  tsum (map (fun w => tsum (square w)) ws) = sum_squared_l2_norms ws.
Proof.
  unfold sum_squared_l2_norms, l2_norm.
  induction ws as [|w ws IH]; simpl; [reflexivity|].
  rewrite IH, Rsqr_sqrt by apply tsum_square_nonneg. reflexivity.
Qed.

(** C3.  For every batch the loss [_calculate_loss] returns is
    [- mean(log_prob) - ent_weight * mean(entropy)
     + l2_weight * (sum over the weight tensors of the squared L2 norm) / 2],
    with [log_prob] and [entropy] as [evaluate_actions] gives them for
    the observations and the expert actions. *)
Theorem calculate_loss_decomposition (self : BC.t) (obs acts : Tensor) :
  let evaluated :=
    evaluate_actions (BC.policy self) (BC.detach obs) (BC.detach acts) in
  let log_prob := snd (fst evaluated) in
  let entropy := snd evaluated in
  fst (BC._calculate_loss self obs acts)
  = (- mean log_prob - BC.ent_weight self * mean entropy
     + BC.l2_weight self * sum_squared_l2_norms (parameters (BC.policy self)) / 2)%R.
Proof.
  unfold BC._calculate_loss, BC.detach.
  destruct (evaluate_actions (BC.policy self) obs acts) as [[values lp] ent].
  cbn [fst snd].
  rewrite fold_left_Rplus, sum_squares_is_sum_squared_l2_norms. lra.
Qed.

(** C5.  If the optimizer keyword arguments contain the key
    [weight_decay], then, whatever [l2_weight] is (nonzero in
    particular), [BC.__init__] raises a [ValueError] (the specification's
    [ConfigurationError]) before it constructs anything: no device, policy,
    optimizer, scheduler or data loader is built, and no trainer comes into
    being that could take a training step. *)
Theorem weight_decay_rejected (a : BC.Args) (kw : kwargs) :
  BC.arg_optimizer_kwargs a = Some kw ->
  is_Some (kw !! "weight_decay") ->
  (exists msg, BC.__init__ a = ([], inl (ValueError msg))) /\
  (forall evs self, BC.__init__ a <> (evs, inr self)).
Proof.
  intros Hkw Hin.
  assert (Hinit : exists msg, BC.__init__ a = ([], inl (ValueError msg))).
  { unfold BC.__init__, BC.check_optimizer_kwargs. rewrite Hkw.
    unfold truthy, contains, the_dict.
    pose proof (map_size_ne_0_lookup_2 kw "weight_decay" Hin) as Hsize.
    destruct (Nat.eqb_spec (size kw) 0) as [Hz|_]; [contradiction|].
    cbn [negb]. destruct Hin as [v Hv]. rewrite Hv. eauto. }
  split; [exact Hinit|].
  intros evs self Heq. destruct Hinit as [msg Hmsg]. congruence.
Qed.






Lemma batches_received_app (evs1 evs2 : list BC.train_event) :
  BCTrace.batches_received (evs1 ++ evs2)
  = BCTrace.batches_received evs1 ++ BCTrace.batches_received evs2.
Proof.
  induction evs1 as [|e evs1 IH]; simpl; [reflexivity|].
  destruct e as [e| | | |]; try destruct e; simpl; rewrite ?IH; reflexivity.
Qed.










End TrainerFacts.

Lemma weight_decay_rejected_witness :
  (exists msg,
      @BC.__init__ Toy.torch Toy.args_with_weight_decay = ([], inl (ValueError msg))) /\
  (forall evs self,
      @BC.__init__ Toy.torch Toy.args_with_weight_decay <> (evs, inr self)).
Proof.
  apply (@weight_decay_rejected Toy.torch Toy.args_with_weight_decay
           {["weight_decay" := PyFloat 1]}).
  - reflexivity.
  - rewrite lookup_singleton_eq. eexists. reflexivity.
Defined.


Section RewardNetFacts.
Context `{Preprocessing} `{Networks}.

(** The accumulation in [__init__] adds up exactly the enabled
    components. *)
Lemma combined_size_enabled_width (observation_space action_space : Space)
    (use_state use_action use_next_state use_done : bool) :
  BasicRewardNet.combined_size observation_space action_space
    use_state use_action use_next_state use_done
  = BasicRewardNet.enabled_width observation_space action_space
      use_state use_action use_next_state use_done.
Proof.
  unfold BasicRewardNet.combined_size, BasicRewardNet.enabled_width.
  destruct use_state, use_action, use_next_state, use_done; simpl; lia.
Qed.

(** The caller cannot override [in_size]. *)
Lemma full_build_mlp_kwargs_in_size (size : Z) (kw : kwargs) :
  BasicRewardNet.full_build_mlp_kwargs size kw !! "in_size" = Some (PyInt size).
Proof.
  unfold BasicRewardNet.full_build_mlp_kwargs, update.
  apply lookup_union_Some_l. apply lookup_insert_eq.
Qed.

(** C7.  For every combination of the four flags and whatever further
    keyword arguments are passed, the [in_size] with which
    [BasicRewardNet.__init__] calls [build_mlp] is the sum of the flattened
    dimensionalities of exactly the enabled components: the flattened
    observation dimension for the state and for the next state, the
    flattened action dimension for the action, and 1 for the done flag.
    With a single component enabled it is the dimension of that
    component. *)
Theorem basic_reward_net_input_width (observation_space action_space : Space)
    (use_state use_action use_next_state use_done : bool) (kw : kwargs) :
  let width :=
    BasicRewardNet.enabled_width observation_space action_space
      use_state use_action use_next_state use_done in
  BasicRewardNet.mlp
    (BasicRewardNet.__init__ observation_space action_space
       use_state use_action use_next_state use_done kw)
  = build_mlp (BasicRewardNet.full_build_mlp_kwargs width kw) /\
  BasicRewardNet.full_build_mlp_kwargs width kw !! "in_size" = Some (PyInt width) /\
  width
  = ((if use_state then get_flattened_obs_dim observation_space else 0)
     + (if use_action then get_flattened_obs_dim action_space else 0)
     + (if use_next_state then get_flattened_obs_dim observation_space else 0)
     + (if use_done then 1 else 0))%Z /\
  BasicRewardNet.enabled_width observation_space action_space
    true false false false = get_flattened_obs_dim observation_space /\
  BasicRewardNet.enabled_width observation_space action_space
    false true false false = get_flattened_obs_dim action_space /\
  BasicRewardNet.enabled_width observation_space action_space
    false false true false = get_flattened_obs_dim observation_space /\
  BasicRewardNet.enabled_width observation_space action_space
    false false false true = 1%Z.
Proof.
  intros width. subst width. split; [|split; [|split]].
  - cbn [BasicRewardNet.__init__ BasicRewardNet.mlp].
    now rewrite combined_size_enabled_width.
  - apply full_build_mlp_kwargs_in_size.
  - unfold BasicRewardNet.enabled_width.
    destruct use_state, use_action, use_next_state, use_done; simpl; lia.
  - unfold BasicRewardNet.enabled_width. simpl. repeat split; lia.
Qed.

Section Wrappers.
Context {B : Type} `{RewardNet B}.

(** C8.  [NormalizedRewardNet.forward] returns what the base net's
    [forward] returns on the same inputs, error or value; the
    normalization layer plays no part in it. *)
Theorem normalized_forward_is_base_forward
    (observation_space action_space : Space) (base : B)
    (rew_normalize_class rew_normalize_class' : option (Z -> Tensor1 -> Tensor1))
    (normalize_images : bool) (self : @NormalizedRewardNet.t B)
    (state action next_state : Tensor) (done : Tensor1) :
  forward self state action next_state done
  = forward (NormalizedRewardNet.base self) state action next_state done /\
  forward
    (NormalizedRewardNet.__init__ observation_space action_space base
       rew_normalize_class normalize_images)
    state action next_state done
  = forward base state action next_state done /\
  forward
    (NormalizedRewardNet.__init__ observation_space action_space base
       rew_normalize_class normalize_images)
    state action next_state done
  = forward
      (NormalizedRewardNet.__init__ observation_space action_space base
         rew_normalize_class' normalize_images)
      state action next_state done.
Proof. repeat split. Qed.

Lemma broadcast_same_length (op : R -> R -> R) (x y : Tensor1) :
  length x = length y ->
  broadcast op x y = inr (map (fun p => op (fst p) (snd p)) (combine x y)).
Proof.
  intros Hlen. unfold broadcast. now rewrite Hlen, Nat.eqb_refl.
Qed.

Lemma length_zip (op : R -> R -> R) (x y : Tensor1) :
  length x = length y ->
  length (map (fun p => op (fst p) (snd p)) (combine x y)) = length x.
Proof. intros Hlen. rewrite length_map, length_combine. lia. Qed.

Lemma nth_zip (op : R -> R -> R) (x y : Tensor1) (i : nat) :
  length x = length y ->
  (i < length x)%nat ->
  nth i (map (fun p => op (fst p) (snd p)) (combine x y)) 0%R
  = op (nth i x 0%R) (nth i y 0%R).
Proof.
  intros Hlen Hi.
  rewrite (nth_indep _ 0%R (op (fst (0%R, 0%R)) (snd (0%R, 0%R))))
    by (rewrite length_zip; assumption).
  rewrite (map_nth (fun p => op (fst p) (snd p))).
  now rewrite combine_nth.
Qed.

Lemma nth_map_R (f : R -> R) (x : Tensor1) (i : nat) :
  (i < length x)%nat -> nth i (map f x) 0%R = f (nth i x 0%R).
Proof.
  intros Hi. rewrite (nth_indep _ 0%R (f 0%R)) by now rewrite length_map.
  apply map_nth.
Qed.

(** C2.  On a batch of [n] transitions for which the base net returns
    [n] rewards and the potential [n] values, [ShapedRewardNet.forward]
    returns, for every transition,
    [base + discount_factor * (1 - done) * potential(next_state)
     - potential(state)].  Where [done] is one throughout this is
    [base - potential(state)]; where it is zero throughout it is
    [base + discount_factor * potential(next_state) - potential(state)]. *)
Theorem shaped_forward_formula (self : @ShapedRewardNet.t B)
    (state action next_state : Tensor) (done base_out : Tensor1) :
  forward (ShapedRewardNet.base self) state action next_state done
  = inr base_out ->
  length base_out = length state ->
  length done = length state ->
  length (ShapedRewardNet.potential self next_state) = length state ->
  length (ShapedRewardNet.potential self state) = length state ->
  exists out,
    forward self state action next_state done = inr out /\
    length out = length state /\
    (forall i, (i < length state)%nat ->
       nth i out 0
       = nth i base_out 0
         + ShapedRewardNet.discount_factor self * (1 - nth i done 0)
           * nth i (ShapedRewardNet.potential self next_state) 0
         - nth i (ShapedRewardNet.potential self state) 0)%R /\
    ((forall i, (i < length state)%nat -> nth i done 0%R = 1%R) ->
     forall i, (i < length state)%nat ->
       nth i out 0
       = nth i base_out 0 - nth i (ShapedRewardNet.potential self state) 0)%R /\
    ((forall i, (i < length state)%nat -> nth i done 0%R = 0%R) ->
     forall i, (i < length state)%nat ->
       nth i out 0
       = nth i base_out 0
         + ShapedRewardNet.discount_factor self
           * nth i (ShapedRewardNet.potential self next_state) 0
         - nth i (ShapedRewardNet.potential self state) 0)%R.
Proof.
  intros Hbase Hlb Hld Hln Hlo.
  set (new := ShapedRewardNet.potential self next_state) in *.
  set (old := ShapedRewardNet.potential self state) in *.
  set (gamma := ShapedRewardNet.discount_factor self).
  set (shaped :=
         map (fun p => Rmult (fst p) (snd p)) (combine (one_minus done) new)).
  set (with_new :=
         map (fun p => Rplus (fst p) (snd p))
           (combine base_out (scale gamma shaped))).
  set (out := map (fun p => Rminus (fst p) (snd p)) (combine with_new old)).
  assert (Hl1 : length (one_minus done) = length new)
    by (unfold one_minus; rewrite length_map; congruence).
  assert (Hl2 : length shaped = length state)
    by (unfold shaped; rewrite length_zip by exact Hl1;
        unfold one_minus; now rewrite length_map).
  assert (Hl3 : length base_out = length (scale gamma shaped))
    by (unfold scale; rewrite length_map; congruence).
  assert (Hl4 : length with_new = length state)
    by (unfold with_new; rewrite length_zip by exact Hl3; exact Hlb).
  assert (Hl5 : length with_new = length old) by congruence.
  assert (Hl6 : length out = length state)
    by (unfold out; rewrite length_zip by exact Hl5; exact Hl4).
  assert (Hnth : forall i, (i < length state)%nat ->
            nth i out 0%R
            = (nth i base_out 0 + gamma * (1 - nth i done 0) * nth i new 0
               - nth i old 0)%R).
  { intros i Hi. unfold out, with_new, shaped.
    rewrite nth_zip by (fold shaped; fold with_new; lia).
    rewrite nth_zip by (fold shaped; lia).
    unfold scale. rewrite nth_map_R by (fold shaped; lia).
    rewrite nth_zip by lia.
    unfold one_minus. rewrite nth_map_R by lia. lra. }
  exists out. split; [|split; [exact Hl6|split; [exact Hnth|split]]].
  - change (forward self) with (ShapedRewardNet.forward self).
    unfold ShapedRewardNet.forward. rewrite Hbase. cbn [bind].
    fold new old gamma.
    rewrite (broadcast_same_length Rmult _ _ Hl1). cbn [bind]. fold shaped.
    rewrite (broadcast_same_length Rplus _ _ Hl3). cbn [bind]. fold with_new.
    rewrite (broadcast_same_length Rminus _ _ Hl5). cbn [bind]. fold out.
    rewrite Hl6, Nat.eqb_refl. reflexivity.
  - intros Hdone i Hi. rewrite (Hnth i Hi), (Hdone i Hi). lra.
  - intros Hdone i Hi. rewrite (Hnth i Hi), (Hdone i Hi). lra.
Qed.

End Wrappers.
End RewardNetFacts.

Lemma shaped_forward_formula_witness :
  exists out,
    @forward _ (@ShapedRewardNet.reward_net _ Toy.constant_net)
      Toy.shaped_net [[2%R]] [[0%R]] [[4%R]] [0%R] = inr out /\
    length out = length [[2%R]] /\
    (forall i, (i < length [[2%R]])%nat ->
       nth i out 0
       = nth i [1] 0
         + ShapedRewardNet.discount_factor Toy.shaped_net * (1 - nth i [0] 0)
           * nth i (ShapedRewardNet.potential Toy.shaped_net [[4]]) 0
         - nth i (ShapedRewardNet.potential Toy.shaped_net [[2]]) 0)%R /\
    ((forall i, (i < length [[2%R]])%nat -> nth i [0%R] 0%R = 1%R) ->
     forall i, (i < length [[2%R]])%nat ->
       nth i out 0
       = nth i [1] 0 - nth i (ShapedRewardNet.potential Toy.shaped_net [[2]]) 0)%R /\
    ((forall i, (i < length [[2%R]])%nat -> nth i [0%R] 0%R = 0%R) ->
     forall i, (i < length [[2%R]])%nat ->
       nth i out 0
       = nth i [1] 0
         + ShapedRewardNet.discount_factor Toy.shaped_net
           * nth i (ShapedRewardNet.potential Toy.shaped_net [[4]]) 0
         - nth i (ShapedRewardNet.potential Toy.shaped_net [[2]]) 0)%R.
Proof.
  apply (@shaped_forward_formula Toy.ConstantNet Toy.constant_net Toy.shaped_net
           [[2%R]] [[0%R]] [[4%R]] [0%R] [1%R]);
    reflexivity.
Defined.

Section IteratorMore.
Import EpochOrBatchIteratorWithProgress IterTrace.

Lemma calls_app (evs1 evs2 : list event) :
  calls (evs1 ++ evs2) = calls evs1 ++ calls evs2.
Proof.
  induction evs1 as [|e evs1 IH]; simpl; [reflexivity|].
  destruct e; simpl; rewrite ?IH; reflexivity.
Qed.

Lemma loader_iterations_app (evs1 evs2 : list event) :
  loader_iterations (evs1 ++ evs2)
  = (loader_iterations evs1 + loader_iterations evs2)%nat.
Proof.
  induction evs1 as [|e evs1 IH]; simpl; [reflexivity|].
  destruct e; simpl; rewrite ?IH; reflexivity.
Qed.

Lemma opens_app (evs1 evs2 : list event) :
  opens (evs1 ++ evs2) = (opens evs1 + opens evs2)%nat.
Proof.
  induction evs1 as [|e evs1 IH]; simpl; [reflexivity|].
  destruct e; simpl; rewrite ?IH; reflexivity.
Qed.

Lemma closes_app (evs1 evs2 : list event) :
  closes (evs1 ++ evs2) = (closes evs1 + closes evs2)%nat.
Proof.
  induction evs1 as [|e evs1 IH]; simpl; [reflexivity|].
  destruct e; simpl; rewrite ?IH; reflexivity.
Qed.

Lemma stats_from_app (k s : Z) (l1 l2 : list Batch) :
  stats_from k s (l1 ++ l2)
  = stats_from k s l1
    ++ stats_from (fst (stats_end k s l1)) (snd (stats_end k s l1)) l2.
Proof.
  revert k s. induction l1 as [|b l1 IH]; intros k s; simpl; [reflexivity|].
  now rewrite IH.
Qed.

Lemma stats_end_app (k s : Z) (l1 l2 : list Batch) :
  stats_end k s (l1 ++ l2)
  = stats_end (fst (stats_end k s l1)) (snd (stats_end k s l1)) l2.
Proof.
  revert k s. induction l1 as [|b l1 IH]; intros k s; simpl; [reflexivity|].
  now rewrite IH.
Qed.

(** The statistics the inner loop yields continue the counters, and the
    counters it hands on are those after the batches it yielded. *)
Lemma for_batches_stats (self : t) (bs : list Batch) (g : bool) (c : counters)
    (evs : list event) (g' : bool) (c' : counters) (sig : signal) :
  for_batches self bs g c = (evs, (g', c', sig)) ->
  map progress_of (yields evs)
  = stats_from (c_batch_num c) (c_samples_so_far c) (map fst (yields evs)) /\
  (sig = Normal ->
   (c_batch_num c', c_samples_so_far c')
   = stats_end (c_batch_num c) (c_samples_so_far c) (map fst (yields evs))).
Proof.
  revert g c evs. induction bs as [|b bs IH]; intros g c evs Hrun.
  - simpl in Hrun. inversion Hrun; subst. simpl. auto.
  - cbn [for_batches] in Hrun.
    destruct (0 <? Z.of_nat (length (obs b)))%Z.
    2:{ inversion Hrun; subst. simpl. split; [reflexivity|discriminate]. }
    destruct (use_epochs self).
    + destruct (for_batches self bs true _) as [evs1 r] eqn:Hrec.
      inversion Hrun; subst. destruct (IH _ _ _ Hrec) as [Hs He].
      cbn [c_batch_num c_samples_so_far] in Hs, He.
      cbn [app yields]. rewrite yields_app, yields_call. cbn [app map fst].
      cbn [stats_from stats_end progress_of snd batch_num samples_so_far].
      split; [now rewrite Hs | exact He].
    + destruct (reached _ _) as [e|[|]].
      * inversion Hrun; subst.
        cbn [yields]. rewrite yields_app, yields_call, yields_show_progress.
        simpl. split; [reflexivity|discriminate].
      * inversion Hrun; subst.
        cbn [yields]. rewrite yields_app, yields_call, yields_show_progress.
        simpl. split; [reflexivity|discriminate].
      * destruct (for_batches self bs true _) as [evs1 r] eqn:Hrec.
        inversion Hrun; subst. destruct (IH _ _ _ Hrec) as [Hs He].
        cbn [c_batch_num c_samples_so_far] in Hs, He.
        cbn [yields].
        rewrite !yields_app, yields_call, yields_show_progress.
        cbn [app map fst].
        cbn [stats_from stats_end progress_of snd batch_num samples_so_far].
        split; [now rewrite Hs | exact He].
Qed.

Lemma while_true_stats (self : t) (fuel p : nat) (c : counters) :
  map progress_of (yields (fst (while_true fuel self p c)))
  = stats_from (c_batch_num c) (c_samples_so_far c)
      (map fst (yields (fst (while_true fuel self p c)))).
Proof.
  revert p c. induction fuel as [|fuel IH]; intros p c; [reflexivity|].
  cbn [while_true]. unfold while_body.
  destruct (for_batches self (data_loader self p) false c)
    as [evs1 [[g1 c1] sig]] eqn:Hfor.
  destruct (for_batches_stats _ _ _ _ _ _ _ _ Hfor) as [Hs He].
  assert (Hnorm : forall evs,
             yields ((show_desc self c ++ [IterLoader p]) ++ evs)
             = yields evs).
  { intros evs. rewrite !yields_app, yields_show_desc. reflexivity. }
  destruct sig; cbn [fst]; rewrite ?Hnorm; try exact Hs.
  destruct (negb g1); cbn [fst]; rewrite ?Hnorm; try exact Hs.
  specialize (He eq_refl).
  match goal with |- context [while_true fuel self (S p) ?c2] =>
    specialize (IH (S p) c2);
    destruct (while_true fuel self (S p) c2) as [evs' out'] end.
  cbn [fst c_batch_num c_samples_so_far] in IH.
  assert (Hk : c_batch_num c1
               = fst (stats_end (c_batch_num c) (c_samples_so_far c)
                        (map fst (yields evs1))))
    by (rewrite <- He; reflexivity).
  assert (Hsm : c_samples_so_far c1
                = snd (stats_end (c_batch_num c) (c_samples_so_far c)
                         (map fst (yields evs1))))
    by (rewrite <- He; reflexivity).
  assert (Hgoal :
            map progress_of (yields evs1 ++ yields evs')
            = stats_from (c_batch_num c) (c_samples_so_far c)
                (map fst (yields evs1 ++ yields evs'))).
  { rewrite !map_app, stats_from_app, <- Hk, <- Hsm, Hs, IH. reflexivity. }
  destruct (use_epochs self); [destruct (reached _ _) as [e|[|]]|];
    cbn [fst];
    rewrite !yields_app, yields_show_desc, yields_call,
      ?yields_show_progress;
    cbn [yields app]; rewrite ?app_nil_r;
    first [exact Hs | exact Hgoal].
Qed.

(** X1.  In every run of the generator, whatever the data loader and
    however the run ends, the [batch_num] next to the i-th yielded batch
    is i and [samples_so_far] is the number of samples in the batches
    yielded up to and including it. *)
Theorem iter_stats_count_batches_and_samples (self : t) (fuel : nat) :
  map progress_of (yields (fst (__iter__ fuel self)))
  = stats_from 0 0 (map fst (yields (fst (__iter__ fuel self)))).
Proof.
  pose proof (while_true_stats self fuel 0 counters0) as Hrun.
  destruct (__iter__ fuel self) as [evs out] eqn:Hiter.
  destruct (iter_inv _ _ _ _ Hiter) as (evs' & Hw & Hy & _).
  rewrite Hw in Hrun. cbn [fst] in *. rewrite Hy. exact Hrun.
Qed.

Lemma bar_ends_show (self : t) (c : counters) :
  opens (show_desc self c) = 0%nat /\ closes (show_desc self c) = 0%nat /\
  opens (show_progress self c) = 0%nat /\ closes (show_progress self c) = 0%nat.
Proof.
  unfold show_desc, show_progress. destruct (use_tqdm self); simpl; auto.
Qed.

Lemma bar_ends_call (cb : option Callback) :
  opens (call cb) = 0%nat /\ closes (call cb) = 0%nat.
Proof. destruct cb; simpl; auto. Qed.

Lemma for_batches_bar_ends (self : t) (bs : list Batch) (g : bool) (c : counters) :
  opens (fst (for_batches self bs g c)) = 0%nat /\
  closes (fst (for_batches self bs g c)) = 0%nat.
Proof.
  revert g c. induction bs as [|b bs IH]; intros g c; [simpl; auto|].
  cbn [for_batches].
  destruct (bar_ends_call (on_batch_end self)) as [Ho Hc].
  destruct (0 <? Z.of_nat (length (obs b)))%Z; [|simpl; auto].
  match goal with |- context [for_batches self bs true ?c1] =>
    specialize (IH true c1);
    destruct (bar_ends_show self c1) as (_ & _ & Hso & Hsc);
    destruct (for_batches self bs true c1) as [evs1 r] end.
  cbn [fst] in IH. destruct IH as [IHo IHc].
  destruct (use_epochs self); [|destruct (reached _ _) as [e|[|]]]; cbn [fst];
    rewrite ?opens_app, ?closes_app; cbn [opens closes];
    rewrite ?opens_app, ?closes_app, ?Ho, ?Hc, ?Hso, ?Hsc, ?IHo, ?IHc; auto.
Qed.

Lemma while_true_bar_ends (self : t) (fuel p : nat) (c : counters) :
  opens (fst (while_true fuel self p c)) = 0%nat /\
  closes (fst (while_true fuel self p c)) = 0%nat.
Proof.
  revert p c. induction fuel as [|fuel IH]; intros p c; [simpl; auto|].
  cbn [while_true]. unfold while_body.
  destruct (for_batches_bar_ends self (data_loader self p) false c) as [Hfo Hfc].
  destruct (for_batches self (data_loader self p) false c)
    as [evs1 [[g1 c1] sig]].
  cbn [fst] in Hfo, Hfc.
  destruct (bar_ends_show self c) as (Hdo & Hdc & _ & _).
  destruct (bar_ends_call (on_epoch_end self)) as [Ho Hc].
  match goal with |- context [while_true fuel self (S p) ?c2] =>
    specialize (IH (S p) c2);
    destruct (bar_ends_show self c2) as (_ & _ & Hso & Hsc);
    destruct (while_true fuel self (S p) c2) as [evs' out'] end.
  cbn [fst] in IH. destruct IH as [IHo IHc].
  destruct sig; [destruct (negb g1);
                 [|destruct (use_epochs self);
                   [destruct (reached _ _) as [e|[|]]|]]| |];
    cbn [fst]; rewrite ?opens_app, ?closes_app; cbn [opens closes];
    rewrite ?Hdo, ?Hdc, ?Hfo, ?Hfc, ?Ho, ?Hc, ?Hso, ?Hsc, ?IHo, ?IHc; auto.
Qed.

Lemma for_batches_quiet (self : t) (bs : list Batch) (g : bool) (c : counters) :
  use_tqdm self = false ->
  forallb (fun e => negb (is_tqdm e)) (fst (for_batches self bs g c)) = true.
Proof.
  intros Hq. revert g c. induction bs as [|b bs IH]; intros g c; [reflexivity|].
  cbn [for_batches]. unfold show_progress. rewrite Hq.
  assert (Hcall : forallb (fun e => negb (is_tqdm e)) (call (on_batch_end self))
                  = true)
    by (destruct (on_batch_end self); reflexivity).
  destruct (0 <? Z.of_nat (length (obs b)))%Z; [|reflexivity].
  match goal with |- context [for_batches self bs true ?c1] =>
    specialize (IH true c1);
    destruct (for_batches self bs true c1) as [evs1 r] end.
  cbn [fst] in IH.
  destruct (use_epochs self); [|destruct (reached _ _) as [e|[|]]]; cbn [fst];
    rewrite ?forallb_app; cbn [forallb is_tqdm negb andb];
    rewrite ?forallb_app, ?Hcall, ?IH; reflexivity.
Qed.

Lemma while_true_quiet (self : t) (fuel p : nat) (c : counters) :
  use_tqdm self = false ->
  forallb (fun e => negb (is_tqdm e)) (fst (while_true fuel self p c)) = true.
Proof.
  intros Hq. revert p c. induction fuel as [|fuel IH]; intros p c; [reflexivity|].
  cbn [while_true]. unfold while_body, show_desc, show_progress. rewrite Hq.
  pose proof (for_batches_quiet self (data_loader self p) false c Hq) as Hfor.
  destruct (for_batches self (data_loader self p) false c)
    as [evs1 [[g1 c1] sig]].
  cbn [fst] in Hfor.
  assert (Hcall : forallb (fun e => negb (is_tqdm e)) (call (on_epoch_end self))
                  = true)
    by (destruct (on_epoch_end self); reflexivity).
  match goal with |- context [while_true fuel self (S p) ?c2] =>
    specialize (IH (S p) c2);
    destruct (while_true fuel self (S p) c2) as [evs' out'] end.
  cbn [fst] in IH.
  destruct sig; [destruct (negb g1);
                 [|destruct (use_epochs self);
                   [destruct (reached _ _) as [e|[|]]|]]| |];
    cbn [fst]; rewrite ?forallb_app; cbn [forallb is_tqdm negb andb app];
    rewrite ?Hfor, ?Hcall, ?IH; reflexivity.
Qed.

(** X2.  The progress bar is a scoped resource.  In every run that has
    ended, by a return or by an exception, a bar is opened exactly once and
    closed exactly once when a bar is shown: it is the first event of the
    run and its closing the last.  When no bar is shown the run has no
    progress-bar event at all. *)
Theorem progress_bar_opened_and_closed_once (self : t) (fuel : nat) :
  snd (__iter__ fuel self) <> OutOfFuel ->
  opens (fst (__iter__ fuel self)) = (if use_tqdm self then 1 else 0)%nat /\
  closes (fst (__iter__ fuel self)) = (if use_tqdm self then 1 else 0)%nat /\
  (use_tqdm self = true ->
   exists total middle,
     fst (__iter__ fuel self) = TqdmOpen total :: middle ++ [TqdmClose]) /\
  (use_tqdm self = false ->
   forallb (fun e => negb (is_tqdm e)) (fst (__iter__ fuel self)) = true).
Proof.
  unfold __iter__.
  destruct (while_true_bar_ends self fuel 0 counters0) as [Ho Hc].
  pose proof (while_true_quiet self fuel 0 counters0) as Hquiet.
  destruct (while_true fuel self 0 counters0) as [evs out].
  cbn [fst snd] in *. intros Hend.
  destruct (use_tqdm self).
  - assert (Hclose : match out with
                     | OutOfFuel => []
                     | _ => [TqdmClose]
                     end = [TqdmClose])
      by (destruct out; congruence).
    rewrite Hclose, !opens_app, !closes_app, Ho, Hc. cbn.
    repeat split; try discriminate. intros _. eauto.
  - assert (Hclose : match out with
                     | OutOfFuel => []
                     | _ => @nil event
                     end = [])
      by (destruct out; reflexivity).
    rewrite Hclose, app_nil_r. cbn [app]. rewrite Ho, Hc.
    repeat split; try discriminate. intros _. now apply Hquiet.
Qed.

Lemma progress_bar_opened_and_closed_once_witness :
  opens (fst (__iter__ 1 one_batch_with_bar)) = 1%nat /\
  closes (fst (__iter__ 1 one_batch_with_bar)) = 1%nat /\
  (use_tqdm one_batch_with_bar = true ->
   exists total middle,
     fst (__iter__ 1 one_batch_with_bar)
     = TqdmOpen total :: middle ++ [TqdmClose]) /\
  (use_tqdm one_batch_with_bar = false ->
   forallb (fun e => negb (is_tqdm e)) (fst (__iter__ 1 one_batch_with_bar))
   = true).
Proof.
  apply (progress_bar_opened_and_closed_once one_batch_with_bar 1).
  discriminate.
Defined.

Lemma for_batches_calls (self : t) (bs : list Batch) (g : bool) (c : counters) :
  calls (fst (for_batches self bs g c))
  = match on_batch_end self with
    | Some cb => repeat cb (length (yields (fst (for_batches self bs g c))))
    | None => []
    end.
Proof.
  revert g c. induction bs as [|b bs IH]; intros g c.
  - simpl. now destruct (on_batch_end self).
  - cbn [for_batches].
    assert (Hshow : forall c1, calls (show_progress self c1) = [])
      by (intros c1; unfold show_progress; now destruct (use_tqdm self)).
    destruct (0 <? Z.of_nat (length (obs b)))%Z;
      [|simpl; now destruct (on_batch_end self)].
    match goal with |- context [for_batches self bs true ?c1] =>
      specialize (IH true c1); specialize (Hshow c1);
      destruct (for_batches self bs true c1) as [evs1 r] end.
    cbn [fst] in IH.
    destruct (use_epochs self); [|destruct (reached _ _) as [e|[|]]]; cbn [fst];
      cbn [calls yields app];
      rewrite ?calls_app, ?yields_app, ?yields_call, ?yields_show_progress,
        ?Hshow, ?IH;
      destruct (on_batch_end self); cbn [call calls yields app length repeat];
      rewrite ?app_nil_r; reflexivity.
Qed.




Lemma for_batches_epoch_no_calls (self : t) (bs : list Batch) (g : bool)
    (c : counters) :
  on_batch_end self = None ->
  calls (fst (for_batches self bs g c)) = [].
Proof.
  intros Hbatch. rewrite for_batches_calls, Hbatch. reflexivity.
Qed.

Lemma while_true_epoch_calls (self : t) (E : Z) (cb : Callback) :
  use_epochs self = true ->
  n_epochs self = Some E ->
  on_batch_end self = None ->
  on_epoch_end self = Some cb ->
  forall (fuel p : nat) (c : counters),
    (needed E (c_epoch_num c) <= fuel)%nat ->
    (forall k, (p <= k < p + needed E (c_epoch_num c))%nat ->
               pass_ok (data_loader self k)) ->
    calls (fst (while_true fuel self p c))
    = repeat cb (needed E (c_epoch_num c)).
Proof.
  intros Hu HE Hbatch Hepoch.
  induction fuel as [|fuel IH]; intros p c Hfuel Hok.
  - pose proof (needed_pos E (c_epoch_num c)). lia.
  - pose proof (needed_pos E (c_epoch_num c)) as Hpos.
    destruct (Hok p ltac:(lia)) as [Hne Hall].
    pose proof (for_batches_epoch_no_calls self (data_loader self p) false c
                  Hbatch) as Hcalls.
    destruct (for_batches_epoch_mode self (data_loader self p) false c Hu Hall)
      as (evs1 & c1 & Heq & Hy & He).
    rewrite Heq in Hcalls. cbn [fst] in Hcalls.
    cbn [while_true]. unfold while_body.
    rewrite Heq, (nonnil_true _ Hne), Hu, HE, Hepoch.
    cbn [orb negb reached c_epoch_num call]. rewrite He.
    assert (Hdesc : calls (show_desc self c) = [])
      by (unfold show_desc; now destruct (use_tqdm self)).
    assert (Hshow : forall c2, calls (show_progress self c2) = [])
      by (intros c2; unfold show_progress; now destruct (use_tqdm self)).
    destruct (Z.leb_spec E (c_epoch_num c + 1)) as [Hle|Hlt].
    + cbn [fst]. rewrite (needed_last _ _ Hle).
      rewrite !calls_app, Hdesc, Hcalls, Hshow. reflexivity.
    + match goal with |- context [while_true fuel self (S p) ?c2] =>
        specialize (IH (S p) c2);
        destruct (while_true fuel self (S p) c2) as [evs' out'] end.
      cbn [fst c_epoch_num] in *.
      rewrite (needed_more _ _ Hlt) in *.
      rewrite !calls_app, Hdesc, Hcalls, Hshow, IH; [reflexivity|lia|].
      intros k Hk. apply Hok. lia.
Qed.

(** X4.  In epoch mode with a positive target [E], over a data loader that
    keeps the data contract on its first [E] passes, an epoch-end callback
    (with no batch-end callback) is called exactly [E] times: once after
    every pass, the last one included. *)
Theorem on_epoch_end_called_once_per_epoch (isatty : bool) (dl : DataLoader)
    (use_tqdm : option bool) (cb : Callback) (E : Z) :
  (0 < E)%Z ->
  (forall k, (k < Z.to_nat E)%nat -> pass_ok (dl k)) ->
  exists it,
    __init__ isatty dl (Some E) None use_tqdm (Some cb) None = inr it /\
    forall fuel, (Z.to_nat E <= fuel)%nat ->
      calls (fst (__iter__ fuel it)) = repeat cb (Z.to_nat E).
Proof.
  intros Hpos Hok. eexists. split; [reflexivity|]. intros fuel Hfuel.
  match goal with |- context [__iter__ fuel ?it] => set (self := it) end.
  pose proof (while_true_epoch_calls self E cb eq_refl eq_refl eq_refl eq_refl
                fuel 0 counters0) as Hrun.
  cbn [counters0 c_epoch_num] in Hrun.
  rewrite needed_from_zero in Hrun by lia.
  unfold __iter__.
  destruct (while_true fuel self 0 counters0) as [evs out]. cbn [fst] in *.
  rewrite !calls_app, Hrun; [|lia|intros k Hk; apply Hok; lia].
  destruct (EpochOrBatchIteratorWithProgress.use_tqdm self), out;
    cbn [calls app]; now rewrite ?app_nil_r.
Qed.

Lemma on_epoch_end_called_once_per_epoch_witness :
  exists it,
    __init__ false steady_loader (Some 2%Z) None (Some false)
      (Some [UserCallback 7]) None = inr it /\
    forall fuel, (Z.to_nat 2 <= fuel)%nat ->
      calls (fst (__iter__ fuel it)) = repeat [UserCallback 7] (Z.to_nat 2).
Proof.
  apply (on_epoch_end_called_once_per_epoch false steady_loader (Some false)
           [UserCallback 7] 2).
  - lia.
  - intros k _. split; [discriminate|]. repeat constructor; discriminate.
Defined.

Lemma while_true_exhausted (self : t) (fuel : nat) (c : counters)
    (bs : list Batch) :
  data_loader self 0%nat = bs ->
  data_loader self 1%nat = [] ->
  pass_ok bs ->
  (use_epochs self = true /\
   exists E, n_epochs self = Some E /\ (c_epoch_num c + 1 < E)%Z) \/
  (use_epochs self = false /\
   exists B, n_batches self = Some B /\
             (length bs < needed B (c_batch_num c))%nat) ->
  exists evs,
    while_true (S (S fuel)) self 0 c = (evs, Raised AssertionError) /\
    map fst (yields evs) = bs.
Proof.
  intros Hdl0 Hdl1 [Hne Hall] Hmode.
  cbn [while_true]. unfold while_body at 1. rewrite Hdl0.
  assert (Hsecond : forall c2 rest,
             exists evs2,
               while_body self 1 c2 rest = (evs2, Raised AssertionError) /\
               yields evs2 = []).
  { intros c2 rest. unfold while_body. rewrite Hdl1. cbn [for_batches negb].
    eexists. split; [reflexivity|].
    rewrite !yields_app, yields_show_desc. reflexivity. }
  destruct Hmode as [(Hu & E & HE & Hlt)|(Hu & B & HB & Hlen)].
  - destruct (for_batches_epoch_mode self bs false c Hu Hall)
      as (evs1 & c1 & Heq & Hy & He).
    rewrite Heq, (nonnil_true _ Hne), Hu, HE.
    cbn [orb negb reached c_epoch_num]. rewrite He.
    destruct (Z.leb_spec E (c_epoch_num c + 1)) as [Hle|_]; [lia|].
    match goal with |- context [while_body self 1 ?c2 ?rest] =>
      destruct (Hsecond c2 rest) as (evs2 & Hrun & Hy2) end.
    rewrite Hrun. eexists. split; [reflexivity|].
    rewrite !yields_app, yields_show_desc, yields_call, yields_show_progress, Hy2.
    cbn [yields app]. now rewrite !app_nil_r.
  - destruct (for_batches_batch_mode self bs false c B Hu HB Hall)
      as (evs1 & c1 & Hy & [(_ & Heq & _ & _)|(Hge & _)]); [|lia].
    rewrite Heq, (nonnil_true _ Hne), Hu. cbn [orb negb].
    match goal with |- context [while_body self 1 ?c2 ?rest] =>
      destruct (Hsecond c2 rest) as (evs2 & Hrun & Hy2) end.
    rewrite Hrun. eexists. split; [reflexivity|].
    rewrite !yields_app, yields_show_desc, yields_call, Hy2.
    cbn [yields app]. rewrite !app_nil_r, Hy.
    apply firstn_all2. lia.
Qed.

(** X5.  A data loader that can be iterated only once (a generator
    object): if its first pass keeps the data contract and its second pass
    is empty, then a run that needs more than the first pass, two epochs or
    more, or more batches than the first pass holds, yields the batches of
    the first pass and then raises an [AssertionError] instead of
    returning. *)
Theorem one_shot_loader_raises_after_first_pass (isatty : bool)
    (dl : DataLoader) (use_tqdm : option bool)
    (cb_epoch cb_batch : option Callback) (target : Z) :
  pass_ok (dl 0%nat) ->
  dl 1%nat = [] ->
  ((2 <= target)%Z ->
   exists it,
     __init__ isatty dl (Some target) None use_tqdm cb_epoch cb_batch = inr it /\
     forall fuel, (2 <= fuel)%nat ->
       exists evs,
         __iter__ fuel it = (evs, Raised AssertionError) /\
         map fst (yields evs) = dl 0%nat) /\
  ((Z.of_nat (length (dl 0%nat)) < target)%Z ->
   exists it,
     __init__ isatty dl None (Some target) use_tqdm cb_epoch cb_batch = inr it /\
     forall fuel, (2 <= fuel)%nat ->
       exists evs,
         __iter__ fuel it = (evs, Raised AssertionError) /\
         map fst (yields evs) = dl 0%nat).
Proof.
  intros Hok Hnil. split; intros Htarget.
  - eexists. split; [reflexivity|]. intros [|[|fuel]] Hfuel; try lia.
    match goal with |- context [__iter__ _ ?it] => set (self := it) end.
    destruct (while_true_exhausted self fuel counters0 (dl 0%nat)
                eq_refl Hnil Hok) as (evs' & Hrun & Hy).
    { left. split; [reflexivity|]. exists target. split; [reflexivity|].
      cbn. lia. }
    destruct (iter_of_while_true _ _ _ _ Hrun) as (evs & Hiter & Hyy).
    exists evs. now rewrite Hyy.
  - eexists. split; [reflexivity|]. intros [|[|fuel]] Hfuel; try lia.
    match goal with |- context [__iter__ _ ?it] => set (self := it) end.
    destruct (while_true_exhausted self fuel counters0 (dl 0%nat)
                eq_refl Hnil Hok) as (evs' & Hrun & Hy).
    { right. split; [reflexivity|]. exists target. split; [reflexivity|].
      cbn [counters0 c_batch_num]. unfold needed. lia. }
    destruct (iter_of_while_true _ _ _ _ Hrun) as (evs & Hiter & Hyy).
    exists evs. now rewrite Hyy.
Qed.

Lemma one_shot_loader_raises_after_first_pass_witness :
  ((2 <= 2)%Z ->
   exists it,
     __init__ false exhausted_loader (Some 2%Z) None (Some false) None None
     = inr it /\
     forall fuel, (2 <= fuel)%nat ->
       exists evs,
         __iter__ fuel it = (evs, Raised AssertionError) /\
         map fst (yields evs) = exhausted_loader 0%nat) /\
  ((Z.of_nat (length (exhausted_loader 0%nat)) < 2)%Z ->
   exists it,
     __init__ false exhausted_loader None (Some 2%Z) (Some false) None None
     = inr it /\
     forall fuel, (2 <= fuel)%nat ->
       exists evs,
         __iter__ fuel it = (evs, Raised AssertionError) /\
         map fst (yields evs) = exhausted_loader 0%nat).
Proof.
  apply (one_shot_loader_raises_after_first_pass false exhausted_loader
           (Some false) None None 2).
  - split; [discriminate|]. repeat constructor; discriminate.
  - reflexivity.
Defined.

(** X6.  A target that is not positive still costs one unit of work: with
    [n_epochs <= 1] (zero and negative numbers included) the generator
    yields one full pass and returns, and with [n_batches <= 1] it yields
    one batch and returns, provided the first pass keeps the data
    contract. *)
Theorem non_positive_target_runs_once (isatty : bool) (dl : DataLoader)
    (use_tqdm : option bool) (cb_epoch cb_batch : option Callback)
    (target : Z) :
  (target <= 1)%Z ->
  pass_ok (dl 0%nat) ->
  (exists it,
      __init__ isatty dl (Some target) None use_tqdm cb_epoch cb_batch = inr it /\
      forall fuel, (1 <= fuel)%nat ->
        exists evs,
          __iter__ fuel it = (evs, Returned) /\
          map fst (yields evs) = dl 0%nat) /\
  (exists it,
      __init__ isatty dl None (Some target) use_tqdm cb_epoch cb_batch = inr it /\
      forall fuel, (1 <= fuel)%nat ->
        exists evs,
          __iter__ fuel it = (evs, Returned) /\
          map fst (yields evs) = firstn 1 (dl 0%nat)).
Proof.
  intros Hle Hok.
  assert (Hneed : needed target 0 = 1%nat) by (unfold needed; lia).
  split.
  - eexists. split; [reflexivity|]. intros fuel Hfuel.
    match goal with |- context [__iter__ fuel ?it] => set (self := it) end.
    destruct (while_true_epoch_mode self target eq_refl eq_refl fuel 0
                counters0) as (evs' & Hrun & Hy);
      cbn [counters0 c_epoch_num]; rewrite ?Hneed; try lia.
    { intros k Hk. replace k with 0%nat by lia. exact Hok. }
    cbn [counters0 c_epoch_num] in Hy. rewrite Hneed in Hy.
    destruct (iter_of_while_true _ _ _ _ Hrun) as (evs & Hiter & Hyy).
    exists evs. rewrite Hyy, Hy. cbn. now rewrite app_nil_r.
  - eexists. split; [reflexivity|]. intros fuel Hfuel.
    match goal with |- context [__iter__ fuel ?it] => set (self := it) end.
    destruct (while_true_batch_mode self target eq_refl eq_refl fuel 0
                counters0 1) as (evs' & Hrun & Hy & _);
      cbn [counters0 c_batch_num]; rewrite ?Hneed; try lia.
    { intros k Hk. replace k with 0%nat by lia. exact Hok. }
    cbn [counters0 c_batch_num] in Hy. rewrite Hneed in Hy.
    destruct (iter_of_while_true _ _ _ _ Hrun) as (evs & Hiter & Hyy).
    exists evs. rewrite Hyy, Hy. cbn [seq map concat]. now rewrite app_nil_r.
Qed.

Lemma non_positive_target_runs_once_witness :
  (exists it,
      __init__ false steady_loader (Some (-3)%Z) None (Some false) None None
      = inr it /\
      forall fuel, (1 <= fuel)%nat ->
        exists evs,
          __iter__ fuel it = (evs, Returned) /\
          map fst (yields evs) = steady_loader 0%nat) /\
  (exists it,
      __init__ false steady_loader None (Some (-3)%Z) (Some false) None None
      = inr it /\
      forall fuel, (1 <= fuel)%nat ->
        exists evs,
          __iter__ fuel it = (evs, Returned) /\
          map fst (yields evs) = firstn 1 (steady_loader 0%nat)).
Proof.
  apply (non_positive_target_runs_once false steady_loader (Some false) None
           None (-3)).
  - lia.
  - split; [discriminate|]. repeat constructor; discriminate.
Defined.

(** In batch mode the inner loop never yields more than is needed, and
    when it falls through it has yielded the whole pass without reaching
    the target. *)
Lemma for_batches_yield_bound (self : t) (B : Z) (bs : list Batch) (g : bool)
    (c : counters) (evs : list event) (g' : bool) (c' : counters)
    (sig : signal) :
  use_epochs self = false ->
  n_batches self = Some B ->
  for_batches self bs g c = (evs, (g', c', sig)) ->
  (length (yields evs) <= needed B (c_batch_num c))%nat /\
  (sig = Normal ->
   length (yields evs) = length bs /\
   c_batch_num c' = (c_batch_num c + Z.of_nat (length bs))%Z /\
   g' = g || nonnil bs /\
   (bs <> [] -> (length bs < needed B (c_batch_num c))%nat)).
Proof.
  intros Hu HB. revert g c evs. induction bs as [|b bs IH]; intros g c evs Hrun.
  - simpl in Hrun. inversion Hrun; subst. simpl. rewrite orb_false_r.
    repeat split; try lia. congruence.
  - cbn [for_batches] in Hrun. rewrite Hu, HB in Hrun. cbn [reached] in Hrun.
    pose proof (needed_pos B (c_batch_num c)) as Hpos.
    destruct (0 <? Z.of_nat (length (obs b)))%Z.
    2:{ inversion Hrun; subst. simpl. split; [lia|discriminate]. }
    destruct (Z.leb_spec B (c_batch_num c + 1)) as [Hle|Hlt].
    + inversion Hrun; subst. cbn [yields].
      rewrite yields_app, yields_call, yields_show_progress. simpl.
      split; [lia|discriminate].
    + destruct (for_batches self bs true _) as [evs1 r] eqn:Hrec.
      inversion Hrun; subst. destruct (IH _ _ _ Hrec) as [Hb Hn].
      cbn [c_batch_num] in Hb, Hn.
      cbn [yields].
      rewrite !yields_app, yields_call, yields_show_progress.
      cbn [app length]. rewrite (needed_more _ _ Hlt). split; [lia|].
      intros Hs. destruct (Hn Hs) as (Hl & Hc & Hg & Hlim).
      repeat split.
      * simpl. lia.
      * rewrite Hc. simpl length. lia.
      * rewrite Hg. simpl. now rewrite orb_true_r.
      * intros _. simpl length. destruct bs as [|b' bs'].
        -- pose proof (needed_pos B (c_batch_num c + 1)). simpl. lia.
        -- specialize (Hlim ltac:(discriminate)). lia.
Qed.

Lemma while_true_yield_bound (self : t) (B : Z) (fuel p : nat) (c : counters) :
  use_epochs self = false ->
  n_batches self = Some B ->
  (length (yields (fst (while_true fuel self p c)))
   <= needed B (c_batch_num c))%nat.
Proof.
  intros Hu HB. revert p c.
  induction fuel as [|fuel IH]; intros p c; [simpl; lia|].
  cbn [while_true]. unfold while_body. rewrite Hu.
  destruct (for_batches self (data_loader self p) false c)
    as [evs1 [[g1 c1] sig]] eqn:Hfor.
  destruct (for_batches_yield_bound _ _ _ _ _ _ _ _ _ Hu HB Hfor) as [Hb Hn].
  assert (Hhead : forall evs,
             yields ((show_desc self c ++ [IterLoader p]) ++ evs) = yields evs)
    by (intros evs; rewrite !yields_app, yields_show_desc; reflexivity).
  destruct sig; cbn [fst]; rewrite ?Hhead; try exact Hb.
  destruct (Hn eq_refl) as (Hl & Hc & Hg & Hlim).
  destruct (negb g1) eqn:Hneg; cbn [fst]; rewrite ?Hhead; try exact Hb.
  assert (Hne : data_loader self p <> []).
  { intros Hnil. rewrite Hnil in Hg. simpl in Hg. subst g1. discriminate. }
  specialize (Hlim Hne).
  assert (Hone : (1 <= length (data_loader self p))%nat)
    by (destruct (data_loader self p); [congruence | simpl; lia]).
  match goal with |- context [while_true fuel self (S p) ?c2] =>
    specialize (IH (S p) c2);
    destruct (while_true fuel self (S p) c2) as [evs' out'] end.
  cbn [fst c_batch_num] in *.
  rewrite Hc, needed_advance in IH by lia.
  rewrite !yields_app, yields_show_desc, yields_call, !length_app.
  simpl. lia.
Qed.

Lemma for_batches_loader_iterations (self : t) (bs : list Batch) (g : bool)
    (c : counters) :
  loader_iterations (fst (for_batches self bs g c)) = 0%nat.
Proof.
  revert g c. induction bs as [|b bs IH]; intros g c; [reflexivity|].
  cbn [for_batches].
  assert (Hcall : loader_iterations (call (on_batch_end self)) = 0%nat)
    by (now destruct (on_batch_end self)).
  assert (Hshow : forall c2, loader_iterations (show_progress self c2) = 0%nat)
    by (intros c2; unfold show_progress; now destruct (use_tqdm self)).
  destruct (0 <? Z.of_nat (length (obs b)))%Z; [|reflexivity].
  match goal with |- context [for_batches self bs true ?c1] =>
    specialize (IH true c1); specialize (Hshow c1);
    destruct (for_batches self bs true c1) as [evs1 r] end.
  cbn [fst] in IH.
  destruct (use_epochs self); [|destruct (reached _ _) as [e|[|]]]; cbn [fst];
    rewrite ?loader_iterations_app; cbn [loader_iterations];
    rewrite ?loader_iterations_app, ?Hcall, ?Hshow, ?IH; reflexivity.
Qed.

Lemma while_true_loader_iterations (self : t) (E : Z) (fuel p : nat)
    (c : counters) :
  use_epochs self = true ->
  n_epochs self = Some E ->
  (loader_iterations (fst (while_true fuel self p c))
   <= needed E (c_epoch_num c))%nat.
Proof.
  intros Hu HE. revert p c.
  induction fuel as [|fuel IH]; intros p c; [simpl; lia|].
  pose proof (needed_pos E (c_epoch_num c)) as Hpos.
  cbn [while_true]. unfold while_body. rewrite Hu, HE.
  pose proof (for_batches_loader_iterations self (data_loader self p) false c)
    as Hzero.
  destruct (for_batches self (data_loader self p) false c)
    as [evs1 [[g1 c1] sig]] eqn:Hfor.
  cbn [fst] in Hzero.
  assert (Hdesc : loader_iterations (show_desc self c) = 0%nat)
    by (unfold show_desc; now destruct (use_tqdm self)).
  assert (Hcall : loader_iterations (call (on_epoch_end self)) = 0%nat)
    by (now destruct (on_epoch_end self)).
  assert (Hshow : forall c2, loader_iterations (show_progress self c2) = 0%nat)
    by (intros c2; unfold show_progress; now destruct (use_tqdm self)).
  destruct sig; cbn [fst];
    try (rewrite !loader_iterations_app, Hdesc, Hzero; simpl; lia).
  destruct (for_batches_normal _ _ _ _ _ _ _ Hfor) as (_ & He & _ & _).
  destruct (negb g1); cbn [fst];
    try (rewrite !loader_iterations_app, Hdesc, Hzero; simpl; lia).
  cbn [reached c_epoch_num]. rewrite He.
  match goal with |- context [while_true fuel self (S p) ?c2] =>
    specialize (IH (S p) c2); specialize (Hshow c2);
    destruct (while_true fuel self (S p) c2) as [evs' out'] end.
  cbn [fst c_epoch_num] in IH.
  destruct (Z.leb_spec E (c_epoch_num c + 1)) as [Hle|Hlt]; cbn [fst];
    rewrite !loader_iterations_app, Hdesc, Hzero, Hcall, Hshow.
  - simpl. lia.
  - rewrite (needed_more _ _ Hlt). simpl. lia.
Qed.

(** X7.  Bounds that hold for every data loader, whether it keeps the data
    contract or not, and for every run: in batch mode the generator never
    yields more than [max(1, n_batches)] pairs, and in epoch mode it never
    starts more than [max(1, n_epochs)] passes over the data loader. *)
Theorem iter_never_exceeds_target (isatty : bool) (dl : DataLoader)
    (use_tqdm : option bool) (cb_epoch cb_batch : option Callback)
    (target : Z) (fuel : nat) :
  (exists it,
      __init__ isatty dl None (Some target) use_tqdm cb_epoch cb_batch = inr it /\
      (length (yields (fst (__iter__ fuel it)))
       <= Z.to_nat (Z.max 1 target))%nat) /\
  (exists it,
      __init__ isatty dl (Some target) None use_tqdm cb_epoch cb_batch = inr it /\
      (loader_iterations (fst (__iter__ fuel it))
       <= Z.to_nat (Z.max 1 target))%nat).
Proof.
  split.
  - eexists. split; [reflexivity|].
    match goal with |- context [__iter__ fuel ?it] => set (self := it) end.
    pose proof (while_true_yield_bound self target fuel 0 counters0
                  eq_refl eq_refl) as Hrun.
    unfold needed in Hrun. cbn [counters0 c_batch_num] in Hrun.
    rewrite Z.sub_0_r in Hrun.
    destruct (__iter__ fuel self) as [evs out] eqn:Hiter.
    destruct (iter_inv _ _ _ _ Hiter) as (evs' & Hw & Hy & _).
    rewrite Hw in Hrun. cbn [fst] in *. now rewrite Hy.
  - eexists. split; [reflexivity|].
    match goal with |- context [__iter__ fuel ?it] => set (self := it) end.
    pose proof (while_true_loader_iterations self target fuel 0 counters0
                  eq_refl eq_refl) as Hrun.
    unfold needed in Hrun. cbn [counters0 c_epoch_num] in Hrun.
    rewrite Z.sub_0_r in Hrun.
    unfold __iter__.
    destruct (while_true fuel self 0 counters0) as [evs out]. cbn [fst] in *.
    rewrite !loader_iterations_app.
    replace (loader_iterations
               (if EpochOrBatchIteratorWithProgress.use_tqdm self
                then [TqdmOpen (if use_epochs self then n_epochs self
                                else n_batches self)]
                else [])) with 0%nat
      by (now destruct (EpochOrBatchIteratorWithProgress.use_tqdm self)).
    replace (loader_iterations
               match out with
               | OutOfFuel => []
               | _ => if EpochOrBatchIteratorWithProgress.use_tqdm self
                      then [TqdmClose] else []
               end) with 0%nat
      by (now destruct out, (EpochOrBatchIteratorWithProgress.use_tqdm self)).
    lia.
Qed.

End IteratorMore.

Section TrainerMore.
Context `{Torch} `{Preprocessing}.

(** X8.  [train] called with both targets or with neither raises the
    [ValueError] of the iterator before anything else happens: the policy
    is not switched to training mode, no batch is requested and the trainer
    is unchanged. *)
Theorem train_rejects_both_or_neither_target (isatty : bool) (fuel : nat)
    (self : BC.t) (E B : Z) (on_epoch_end on_batch_end : option Callback)
    (log_interval : Z) :
  (exists msg,
      BC.train isatty fuel self (Some E) (Some B) on_epoch_end on_batch_end
        log_interval
      = ([], self, BC.Iter.Raised (ValueError msg))) /\
  (exists msg,
      BC.train isatty fuel self None None on_epoch_end on_batch_end
        log_interval
      = ([], self, BC.Iter.Raised (ValueError msg))).
Proof.
  unfold BC.train, BC.Iter.__init__.
  cbn [is_not_None is_None negb andb]. split; eexists; reflexivity.
Qed.

(** X9.  [train] on a trainer that has no expert data loader raises a
    [TypeError] right after it has switched the policy to training mode:
    no batch is received, nothing is preprocessed, and the optimizer and
    the scheduler are left as they were. *)
Theorem train_without_expert_data (isatty : bool) (fuel : nat) (self : BC.t)
    (n_epochs n_batches : option Z)
    (on_epoch_end on_batch_end : option Callback) (log_interval : Z) :
  BC.expert_data_loader self = None ->
  is_None n_epochs = negb (is_None n_batches) ->
  exists tevs,
    BC.train isatty fuel self n_epochs n_batches on_epoch_end on_batch_end
      log_interval
    = (BC.PolicyTrain :: tevs,
       BC.with_policy self (policy_train_mode (BC.policy self)),
       BC.Iter.Raised TypeError) /\
    BCTrace.batches_received tevs = [] /\
    BCTrace.preprocessed tevs = [].
Proof.
  intros Hnone Hone. unfold BC.train. rewrite Hnone.
  unfold BC.Iter.__init__, is_not_None.
  destruct n_epochs as [E|], n_batches as [B|]; cbn in Hone; try discriminate;
    cbn [is_None negb andb BC.with_policy BC.with_state BC.expert_data_loader];
    rewrite Hnone; eexists; (split; [reflexivity|]);
    cbn [BC.Iter.use_tqdm];
    destruct isatty; split; reflexivity.
Qed.

Lemma init_success_inv (a : BC.Args) (evs : list BC.init_event) (self : BC.t) :
  BC.__init__ a = (evs, inr self) ->
  BC.check_optimizer_kwargs (BC.arg_optimizer_kwargs a) = inr tt /\
  BC.policy_kwargs self
  = update (BCTrace.default_policy_kwargs a) (or_empty (BC.arg_policy_kwargs a)) /\
  In (BC.NewPolicy (BC.policy_kwargs self)) evs /\
  BC.ent_weight self = BC.arg_ent_weight a /\
  BC.l2_weight self = BC.arg_l2_weight a /\
  (BC.lr_scheduler self = None /\ BC.epoch_end_step_callback self = None \/
   (exists sch, BC.lr_scheduler self = Some sch) /\
   BC.epoch_end_step_callback self = Some [SchedulerStep]).
Proof.
  unfold BC.__init__.
  destruct (BC.check_optimizer_kwargs (BC.arg_optimizer_kwargs a)) as [e|[]];
    [discriminate|].
  destruct (BC.arg_lr_scheduler_cls a) as [cls|];
    [destruct (BC.arg_lr_scheduler_kwargs a) as [skw|]; [|discriminate]|];
    (destruct (BC.arg_expert_data a) as [[dl|data]|]);
    cbn [BC.set_expert_data_loader];
    intros Heq; inversion Heq; subst; clear Heq;
    cbn [BC.policy_kwargs BC.ent_weight BC.l2_weight BC.lr_scheduler
           BC.epoch_end_step_callback];
    (repeat split; try reflexivity;
     [simpl; tauto | first [left; split; reflexivity
                           | right; split; [eexists|]; reflexivity]]).
Qed.

(** X10.  A trainer that [__init__] returns has its scheduler callback
    registered exactly when it has a scheduler, so running the registered
    callback never fails; it stores the two loss weights it was given. *)
Theorem init_registers_scheduler_callback (a : BC.Args)
    (evs : list BC.init_event) (self : BC.t) :
  BC.__init__ a = (evs, inr self) ->
  (BC.lr_scheduler self = None <-> BC.epoch_end_step_callback self = None) /\
  (forall cb, BC.epoch_end_step_callback self = Some cb ->
              exists self', BC.run_callback self cb = inr self') /\
  BC.ent_weight self = BC.arg_ent_weight a /\
  BC.l2_weight self = BC.arg_l2_weight a.
Proof.
  intros Hinit.
  destruct (init_success_inv a evs self Hinit)
    as (_ & _ & _ & Hent & Hl2 & [[Hs Hc]|[[sch Hs] Hc]]).
  - repeat split; try assumption; try tauto.
    intros cb Hcb. congruence.
  - repeat split; try assumption; try congruence.
    intros cb Hcb. rewrite Hc in Hcb. inversion Hcb; subst.
    cbn [BC.run_callback BC.run_atom]. rewrite Hs.
    destruct (scheduler_step sch (BC.optimizer self)) as [sch' opt'].
    cbn [bind]. eauto.
Qed.

(** X11.  The keyword arguments the policy is built with are the three
    entries [__init__] supplies ([observation_space], [action_space] and an
    unused constant [lr_schedule] at the largest float), overridden key by
    key by the caller's [policy_kwargs]. *)
Theorem init_policy_kwargs_caller_wins (a : BC.Args)
    (evs : list BC.init_event) (self : BC.t) (key : string) :
  BC.__init__ a = (evs, inr self) ->
  In (BC.NewPolicy (BC.policy_kwargs self)) evs /\
  BC.policy_kwargs self !! key
  = match or_empty (BC.arg_policy_kwargs a) !! key with
    | Some v => Some v
    | None => BCTrace.default_policy_kwargs a !! key
    end /\
  BCTrace.default_policy_kwargs a !! "lr_schedule"
  = Some (PyConstantLRSchedule BC.float_max).
Proof.
  intros Hinit.
  destruct (init_success_inv a evs self Hinit) as (_ & Hkw & Hin & _).
  split; [exact Hin|]. split; [|reflexivity].
  rewrite Hkw. unfold update. rewrite lookup_union.
  destruct (or_empty (BC.arg_policy_kwargs a) !! key),
    (BCTrace.default_policy_kwargs a !! key); reflexivity.
Qed.

(** X12.  A scheduler class given without [lr_scheduler_kwargs] makes
    [__init__] fail with a [TypeError], but only after the device was
    resolved and the policy and the optimizer were constructed. *)
Theorem init_scheduler_without_kwargs (a : BC.Args)
    (cls : Optimizer -> kwargs -> LRScheduler) :
  BC.check_optimizer_kwargs (BC.arg_optimizer_kwargs a) = inr tt ->
  BC.arg_lr_scheduler_cls a = Some cls ->
  BC.arg_lr_scheduler_kwargs a = None ->
  exists policy_kwargs,
    BC.__init__ a
    = ([BC.GetDevice; BC.GetDevice; BC.NewPolicy policy_kwargs;
        BC.NewOptimizer (or_empty (BC.arg_optimizer_kwargs a))],
       inl TypeError).
Proof.
  intros Hcheck Hcls Hkw. unfold BC.__init__.
  rewrite Hcheck, Hcls, Hkw. eexists. reflexivity.
Qed.

(** X13.  The statistics [_calculate_loss] reports are consistent with
    the loss it returns: the entry [loss] is the loss, it is the sum of the
    entries [neglogp], [ent_loss_term] and [l2_loss_term], the two terms
    are the raw entries scaled by [- ent_weight] and by [l2_weight], and
    the raw L2 entry is never negative. *)
Theorem calculate_loss_stats_consistent (self : BC.t) (obs acts : Tensor) :
  let loss := fst (BC._calculate_loss self obs acts) in
  let stats_dict := snd (BC._calculate_loss self obs acts) in
  BCTrace.stat "loss" stats_dict = Some loss /\
  exists neglogp ent_raw ent_term l2_raw l2_term,
    BCTrace.stat "neglogp" stats_dict = Some neglogp /\
    BCTrace.stat "ent_loss_raw" stats_dict = Some ent_raw /\
    BCTrace.stat "ent_loss_term" stats_dict = Some ent_term /\
    BCTrace.stat "l2_loss_raw" stats_dict = Some l2_raw /\
    BCTrace.stat "l2_loss_term" stats_dict = Some l2_term /\
    loss = (neglogp + ent_term + l2_term)%R /\
    ent_term = (- BC.ent_weight self * ent_raw)%R /\
    l2_term = (BC.l2_weight self * l2_raw)%R /\
    (0 <= l2_raw)%R.
Proof.
  unfold BC._calculate_loss.
  destruct (evaluate_actions _ _ _) as [[values lp] ent]. cbn [fst snd].
  split; [reflexivity|].
  do 5 eexists. repeat split; try reflexivity.
  rewrite fold_left_Rplus.
  assert (Hnn : (0 <= tsum (map (fun w => tsum (square w))
                              (parameters (BC.policy self))))%R).
  { induction (parameters (BC.policy self)) as [|w ws IH]; simpl; [lra|].
    pose proof (tsum_square_nonneg w). lra. }
  lra.
Qed.

End TrainerMore.

Lemma train_without_expert_data_witness :
  exists tevs,
    @BC.train Toy.torch Toy.preprocessing false 3 ToyMore.trainer None
      (Some 2%Z) None None 100
    = (BC.PolicyTrain :: tevs,
       BC.with_policy ToyMore.trainer
         (@policy_train_mode Toy.torch (BC.policy ToyMore.trainer)),
       BC.Iter.Raised TypeError) /\
    BCTrace.batches_received tevs = [] /\
    BCTrace.preprocessed tevs = [].
Proof.
  apply (@train_without_expert_data Toy.torch Toy.preprocessing false 3
           ToyMore.trainer None (Some 2%Z) None None 100); reflexivity.
Defined.

Lemma init_registers_scheduler_callback_witness :
  (BC.lr_scheduler ToyMore.trainer = None
   <-> BC.epoch_end_step_callback ToyMore.trainer = None) /\
  (forall cb, BC.epoch_end_step_callback ToyMore.trainer = Some cb ->
              exists self',
                @BC.run_callback Toy.torch ToyMore.trainer cb = inr self') /\
  BC.ent_weight ToyMore.trainer = BC.arg_ent_weight ToyMore.args_with_scheduler /\
  BC.l2_weight ToyMore.trainer = BC.arg_l2_weight ToyMore.args_with_scheduler.
Proof.
  eapply (@init_registers_scheduler_callback Toy.torch
            ToyMore.args_with_scheduler).
  reflexivity.
Defined.

Lemma init_policy_kwargs_caller_wins_witness :
  In (BC.NewPolicy (BC.policy_kwargs ToyMore.trainer))
    [BC.GetDevice; BC.GetDevice;
     BC.NewPolicy (BC.policy_kwargs ToyMore.trainer);
     BC.NewOptimizer ∅; BC.NewLRScheduler ∅] /\
  BC.policy_kwargs ToyMore.trainer !! "net_arch"
  = match or_empty (BC.arg_policy_kwargs ToyMore.args_with_scheduler)
          !! "net_arch" with
    | Some v => Some v
    | None =>
        BCTrace.default_policy_kwargs ToyMore.args_with_scheduler !! "net_arch"
    end /\
  BCTrace.default_policy_kwargs ToyMore.args_with_scheduler !! "lr_schedule"
  = Some (PyConstantLRSchedule BC.float_max).
Proof.
  apply (@init_policy_kwargs_caller_wins Toy.torch ToyMore.args_with_scheduler
           [BC.GetDevice; BC.GetDevice;
            BC.NewPolicy (BC.policy_kwargs ToyMore.trainer);
            BC.NewOptimizer ∅; BC.NewLRScheduler ∅]
           ToyMore.trainer "net_arch").
  reflexivity.
Defined.

Lemma init_scheduler_without_kwargs_witness :
  exists policy_kwargs,
    @BC.__init__ Toy.torch ToyMore.args_scheduler_without_kwargs
    = ([BC.GetDevice; BC.GetDevice; BC.NewPolicy policy_kwargs;
        BC.NewOptimizer
          (or_empty (BC.arg_optimizer_kwargs
                       ToyMore.args_scheduler_without_kwargs))],
       inl TypeError).
Proof.
  apply (@init_scheduler_without_kwargs Toy.torch
           ToyMore.args_scheduler_without_kwargs (fun _ _ => tt));
    reflexivity.
Defined.

Section TrainerLoop.
Context `{Torch} `{Preprocessing}.

Lemma preprocessed_app (evs1 evs2 : list BC.train_event) :
  BCTrace.preprocessed (evs1 ++ evs2)
  = BCTrace.preprocessed evs1 ++ BCTrace.preprocessed evs2.
Proof.
  induction evs1 as [|e evs1 IH]; simpl; [reflexivity|].
  destruct e; simpl; rewrite ?IH; reflexivity.
Qed.

Lemma dumps_app (evs1 evs2 : list BC.train_event) :
  BCTrace.dumps (evs1 ++ evs2) = BCTrace.dumps evs1 ++ BCTrace.dumps evs2.
Proof.
  induction evs1 as [|e evs1 IH]; simpl; [reflexivity|].
  destruct e; simpl; rewrite ?IH; reflexivity.
Qed.

Lemma record_mean_silent (stats : list (string * R)) :
  BCTrace.preprocessed (map (fun kv => BC.RecordMean (fst kv) (snd kv)) stats)
  = [] /\
  BCTrace.batches_received
    (map (fun kv => BC.RecordMean (fst kv) (snd kv)) stats) = [] /\
  BCTrace.dumps (map (fun kv => BC.RecordMean (fst kv) (snd kv)) stats) = [].
Proof. induction stats as [|kv stats IH]; simpl; auto. Qed.

(** What one step of the training loop leaves in the trace. *)
Lemma train_step_trace (self : BC.t) (batch : Batch) (batch_num log_interval : Z) :
  let r := BC.train_step self batch batch_num log_interval in
  BCTrace.preprocessed (fst (fst r)) = [obs batch] /\
  BCTrace.batches_received (fst (fst r)) = [] /\
  (log_interval = 0%Z -> snd r <> None) /\
  (snd r = None ->
   log_interval <> 0%Z /\
   BCTrace.dumps (fst (fst r))
   = if (batch_num mod log_interval =? 0)%Z then [batch_num] else []).
Proof.
  unfold BC.train_step.
  destruct (BC._calculate_loss self _ _) as [loss stats].
  destruct (step _ _) as [opt pol].
  destruct (BC._calculate_policy_norms _ _) as [e|[gn wn]].
  - cbn. repeat split; discriminate.
  - match goal with |- context [map ?f ?l] =>
      destruct (record_mean_silent l) as (Hp & Hb & Hd) end.
    destruct (Z.eqb_spec log_interval 0) as [Hz|Hnz].
    + cbn [fst snd BCTrace.preprocessed BCTrace.batches_received].
      rewrite Hp, Hb. repeat split; discriminate.
    + destruct (batch_num mod log_interval =? 0)%Z;
        cbn [fst snd];
        rewrite ?preprocessed_app, ?batches_received_app, ?dumps_app;
        cbn [BCTrace.preprocessed BCTrace.batches_received BCTrace.dumps];
        rewrite ?Hp, ?Hb, ?Hd;
        repeat split; try reflexivity; try congruence.
Qed.

Lemma abandon_silent (use_tqdm : bool) :
  BCTrace.preprocessed (BC.abandon use_tqdm) = [] /\
  BCTrace.batches_received (BC.abandon use_tqdm) = [].
Proof. destruct use_tqdm; simpl; auto. Qed.

Lemma consume_preprocesses_each_batch (log_interval : Z) (use_tqdm : bool)
    (evs : list BC.Iter.event) (self : BC.t) (batch_num : Z) :
  let tevs := fst (fst (BC.consume log_interval use_tqdm evs self batch_num)) in
  BCTrace.preprocessed tevs = map obs (BCTrace.batches_received tevs).
Proof.
  revert self batch_num.
  induction evs as [|e evs IH]; intros self batch_num; [reflexivity|].
  destruct (abandon_silent use_tqdm) as [Hap Hab].
  destruct e; cbn [BC.consume];
    try (specialize (IH self batch_num); cbn zeta in IH;
         destruct (BC.consume log_interval use_tqdm evs self batch_num)
           as [[tevs' self''] err'];
         exact IH).
  - destruct (train_step_trace self batch batch_num log_interval)
      as (Hp & Hb & _).
    destruct (BC.train_step self batch batch_num log_interval)
      as [[tevs self'] err].
    cbn [fst] in Hp, Hb.
    destruct err as [e|].
    + cbn [fst BCTrace.preprocessed BCTrace.batches_received].
      rewrite preprocessed_app, batches_received_app, Hp, Hb, Hap, Hab.
      reflexivity.
    + specialize (IH self' (batch_num + 1)%Z). cbn zeta in IH.
      destruct (BC.consume log_interval use_tqdm evs self' (batch_num + 1)%Z)
        as [[tevs' self''] err'].
      cbn [fst BCTrace.preprocessed BCTrace.batches_received] in *.
      rewrite preprocessed_app, batches_received_app, Hp, Hb, IH.
      reflexivity.
  - destruct (BC.run_callback self cb) as [e|self'].
    + cbn [fst BCTrace.preprocessed BCTrace.batches_received].
      now rewrite Hap, Hab.
    + specialize (IH self' batch_num). cbn zeta in IH.
      destruct (BC.consume log_interval use_tqdm evs self' batch_num)
        as [[tevs' self''] err'].
      exact IH.
Qed.

(** X14.  In every run of [train], every batch the trainer receives from
    its iterator is preprocessed exactly once, in the order received and on
    the observations of that batch as the data loader gave them, also when
    the run ends with an error. *)
Theorem train_preprocesses_each_batch_once (isatty : bool) (fuel : nat)
    (self : BC.t) (n_epochs n_batches : option Z)
    (on_epoch_end on_batch_end : option Callback) (log_interval : Z) :
  let tevs :=
    fst (fst (BC.train isatty fuel self n_epochs n_batches
                on_epoch_end on_batch_end log_interval)) in
  BCTrace.preprocessed tevs = map obs (BCTrace.batches_received tevs).
Proof.
  unfold BC.train.
  destruct (BC.Iter.__init__ _ _ _ _ _ _ _) as [e|it]; [reflexivity|].
  cbn [BC.expert_data_loader BC.with_policy BC.with_state].
  destruct (BC.expert_data_loader self) as [dl|].
  - destruct (BC.Iter.__iter__ fuel it) as [evs out].
    match goal with |- context [BC.consume ?li ?ut ?evs ?s ?n] =>
      pose proof (consume_preprocesses_each_batch li ut evs s n) as Hc;
      destruct (BC.consume li ut evs s n) as [[tevs self'] err] end.
    exact Hc.
  - destruct (BC.Iter.use_tqdm it); reflexivity.
Qed.

(** X15.  The logging schedule of one training step.  With
    [log_interval = 0] the step cannot succeed (the remainder is undefined).
    When the step succeeds, the logger is flushed in it exactly when
    [batch_num % log_interval] is zero, so the first batch (number 0) is
    always flushed. *)
Theorem train_step_logging_schedule (self : BC.t) (batch : Batch)
    (batch_num log_interval : Z) :
  let r := BC.train_step self batch batch_num log_interval in
  (log_interval = 0%Z -> snd r <> None) /\
  (snd r = None ->
   BCTrace.dumps (fst (fst r))
   = (if (batch_num mod log_interval =? 0)%Z then [batch_num] else []) /\
   (batch_num = 0%Z -> BCTrace.dumps (fst (fst r)) = [0%Z])).
Proof.
  intros r. destruct (train_step_trace self batch batch_num log_interval)
    as (_ & _ & Hzero & Hok).
  fold r in Hzero, Hok. split; [exact Hzero|].
  intros Hnone. destruct (Hok Hnone) as [Hnz Hd]. split; [exact Hd|].
  intros ->. rewrite Hd, Z.mod_0_l by exact Hnz. reflexivity.
Qed.

(** X16.  [_calculate_policy_norms] fails exactly when there is nothing
    to stack: it raises a [RuntimeError] when no weight tensor carries a
    gradient or when the policy has no weight tensor, and in every other
    case it returns the norm of the gradient norms and the norm of the
    weight norms. *)
Theorem calculate_policy_norms_needs_gradients (self : BC.t) (norm_type : R) :
  (omap (fun g => g) (grads (BC.policy self)) = [] \/
   parameters (BC.policy self) = [] ->
   BC._calculate_policy_norms self norm_type = inl RuntimeError) /\
  (omap (fun g => g) (grads (BC.policy self)) <> [] ->
   parameters (BC.policy self) <> [] ->
   BC._calculate_policy_norms self norm_type
   = inr (th_norm
            (map (fun g => th_norm g norm_type)
               (omap (fun g => g) (grads (BC.policy self))))
            norm_type,
          th_norm
            (map (fun w => th_norm w norm_type) (parameters (BC.policy self)))
            norm_type)).
Proof.
  unfold BC._calculate_policy_norms, BC.detach, BC.stack.
  destruct (omap (fun g => g) (grads (BC.policy self))) as [|g gs];
    destruct (parameters (BC.policy self)) as [|w ws]; cbn;
    split; try reflexivity; try tauto; try congruence;
    intros [Hg|Hw]; congruence.
Qed.

End TrainerLoop.

Lemma train_step_logging_schedule_witness :
  let r :=
    @BC.train_step Toy.torch Toy.preprocessing ToyMore.trainer
      EpochOrBatchIteratorWithProgress.sample_batch 0 100 in
  (100%Z = 0%Z -> snd r <> None) /\
  (snd r = None ->
   BCTrace.dumps (fst (fst r))
   = (if (0 mod 100 =? 0)%Z then [0%Z] else []) /\
   (0%Z = 0%Z -> BCTrace.dumps (fst (fst r)) = [0%Z])).
Proof.
  apply (@train_step_logging_schedule Toy.torch Toy.preprocessing
           ToyMore.trainer EpochOrBatchIteratorWithProgress.sample_batch 0 100).
Defined.

Lemma calculate_policy_norms_needs_gradients_witness :
  @BC._calculate_policy_norms Toy.torch ToyMore.trainer 2
  = inr (@th_norm Toy.torch
           (map (fun g => @th_norm Toy.torch g 2)
              (omap (fun g => g) (@grads Toy.torch (BC.policy ToyMore.trainer))))
           2,
         @th_norm Toy.torch
           (map (fun w => @th_norm Toy.torch w 2)
              (@parameters Toy.torch (BC.policy ToyMore.trainer)))
           2).
Proof.
  apply (proj2 (@calculate_policy_norms_needs_gradients Toy.torch
                  ToyMore.trainer 2)); discriminate.
Defined.

Section RewardNetMore.
Context `{Preprocessing} `{Networks} {B : Type} `{RewardNet B}.

Lemma predict_length_base (self : B) (state action next_state : Tensor)
    (done rew : Tensor1) :
  RewardNetBase.predict self state action next_state done = inr rew ->
  length rew = length state.
Proof.
  unfold RewardNetBase.predict.
  destruct (RewardNetBase.preprocess self state action next_state done)
    as [e|[[[st act] nst] dn]]; cbn [bind]; [discriminate|].
  destruct (forward self st act nst dn) as [e|r]; cbn [bind]; [discriminate|].
  unfold assert. destruct (Nat.eqb_spec (length r) (length state)) as [Hl|Hl];
    cbn [bind]; [|discriminate].
  intros Heq. inversion Heq; subst. exact Hl.
Qed.

(** X17.  Whenever [predict] returns rewards, it returns exactly one per
    transition of the batch; the same holds for the [predict_processed] of a
    [NormalizedRewardNet], whatever its normalization layer does. *)
Theorem predict_returns_one_reward_per_transition (self : B)
    (wrapper : @NormalizedRewardNet.t B)
    (state action next_state : Tensor) (done rew : Tensor1) :
  RewardNetBase.predict self state action next_state done = inr rew \/
  NormalizedRewardNet.predict_processed wrapper state action next_state done
  = inr rew ->
  length rew = length state.
Proof.
  intros [Hp|Hp]; [now apply (predict_length_base self _ action next_state done)|].
  unfold NormalizedRewardNet.predict_processed in Hp.
  destruct (RewardNetBase.predict _ _ _ _ _) as [e|r]; cbn [bind] in Hp;
    [discriminate|].
  destruct (NormalizedRewardNet.rew_normalize_layer wrapper) as [layer|];
    [|discriminate].
  unfold assert in Hp.
  destruct (Nat.eqb_spec (length (layer r)) (length state)) as [Hl|Hl];
    cbn [bind] in Hp; [|discriminate].
  inversion Hp; subst. exact Hl.
Qed.

(** X18.  Normalization by a layer that keeps the length of its input
    never trips the shape assertion: [predict_processed] of a
    [NormalizedRewardNet] is the layer applied to the raw prediction of the
    base net, and fails exactly as the raw prediction fails.  Without a
    layer it never returns a value. *)
Theorem normalized_predict_processed_applies_layer
    (observation_space action_space : Space) (base : B)
    (cls : Z -> Tensor1 -> Tensor1) (normalize_images : bool)
    (state action next_state : Tensor) (done : Tensor1) :
  (forall x, length (cls 1%Z x) = length x) ->
  NormalizedRewardNet.predict_processed
    (NormalizedRewardNet.__init__ observation_space action_space base
       (Some cls) normalize_images)
    state action next_state done
  = match RewardNetBase.predict base state action next_state done with
    | inl e => inl e
    | inr rew => inr (cls 1%Z rew)
    end /\
  forall rew,
    NormalizedRewardNet.predict_processed
      (NormalizedRewardNet.__init__ observation_space action_space base
         None normalize_images)
      state action next_state done
    <> inr rew.
Proof.
  intros Hkeep. unfold NormalizedRewardNet.predict_processed.
  cbn [NormalizedRewardNet.__init__ NormalizedRewardNet.base
         NormalizedRewardNet.rew_normalize_layer].
  destruct (RewardNetBase.predict base state action next_state done)
    as [e|r] eqn:Hp; cbn [bind].
  - split; [reflexivity|discriminate].
  - split; [|discriminate].
    rewrite Hkeep, (predict_length_base _ _ _ _ _ _ Hp), Nat.eqb_refl.
    reflexivity.
Qed.

End RewardNetMore.

Lemma predict_returns_one_reward_per_transition_witness :
  length [1%R] = length [[2%R]].
Proof.
  apply (@predict_returns_one_reward_per_transition Toy.preprocessing
           Toy.ConstantNet Toy.constant_net {| Toy.reward := 1 |}
           (@NormalizedRewardNet.__init__ Toy.ConstantNet (Box [1%Z])
              (Discrete 2) {| Toy.reward := 1 |} None true)
           [[2%R]] [[0%R]] [[4%R]] [0%R] [1%R]).
  left. reflexivity.
Defined.

Lemma normalized_predict_processed_applies_layer_witness :
  @NormalizedRewardNet.predict_processed Toy.preprocessing Toy.ConstantNet
    Toy.constant_net
    (NormalizedRewardNet.__init__ (Box [1%Z]) (Discrete 2)
       {| Toy.reward := 1 |} (Some ToyMore.halving) true)
    [[2%R]] [[0%R]] [[4%R]] [0%R]
  = match @RewardNetBase.predict Toy.preprocessing Toy.ConstantNet
            Toy.constant_net {| Toy.reward := 1 |}
            [[2%R]] [[0%R]] [[4%R]] [0%R] with
    | inl e => inl e
    | inr rew => inr (ToyMore.halving 1%Z rew)
    end /\
  forall rew,
    @NormalizedRewardNet.predict_processed Toy.preprocessing Toy.ConstantNet
      Toy.constant_net
      (NormalizedRewardNet.__init__ (Box [1%Z]) (Discrete 2)
         {| Toy.reward := 1 |} None true)
      [[2%R]] [[0%R]] [[4%R]] [0%R]
    <> inr rew.
Proof.
  apply (@normalized_predict_processed_applies_layer Toy.preprocessing
           Toy.ConstantNet Toy.constant_net (Box [1%Z]) (Discrete 2)
           {| Toy.reward := 1 |} ToyMore.halving true
           [[2%R]] [[0%R]] [[4%R]] [0%R]).
  intros x. unfold ToyMore.halving. apply length_map.
Defined.

Section BasicRewardNetMore.
Context `{Preprocessing} `{Networks}.


Lemma cat2_rows (x y : Tensor) (wx wy : nat) :
  length x = length y ->
  Forall (fun row => length row = wx) x ->
  Forall (fun row => length row = wy) y ->
  exists z,
    cat2 x y = inr z /\ length z = length x /\
    Forall (fun row => length row = (wx + wy)%nat) z.
Proof.
  intros Hlen Hx Hy. unfold cat2. rewrite Hlen, Nat.eqb_refl.
  eexists. split; [reflexivity|]. split.
  - rewrite length_map, length_combine. lia.
  - clear Hlen. revert y Hy. induction Hx as [|r x Hr Hx IH]; intros y Hy.
    + constructor.
    + destruct Hy as [|r' y Hr' Hy]; simpl; [constructor|].
      constructor; [rewrite length_app; lia | now apply IH].
Qed.

(** Concatenating tensors of [n] rows each gives [n] rows whose width is
    the sum of the widths. *)
Lemma cat_dim1_rows (n : nat) (inputs : list (Tensor * nat)) :
  inputs <> [] ->
  Forall (fun tw => length (fst tw) = n /\
                    Forall (fun row => length row = snd tw) (fst tw)) inputs ->
  exists x,
    cat_dim1 (map fst inputs) = inr x /\ length x = n /\
    Forall (fun row => length row = list_sum (map snd inputs)) x.
Proof.
  induction inputs as [|[t w] inputs IH]; intros Hne Hall; [congruence|].
  inversion Hall as [|? ? [Hn Hw] Hrest]; subst. cbn [fst snd] in *.
  destruct inputs as [|tw inputs].
  - exists t. simpl. rewrite Nat.add_0_r. auto.
  - destruct (IH ltac:(discriminate) Hrest) as (y & Hy & Hly & Hwy).
    change (cat_dim1 (map fst ((t, w) :: tw :: inputs)))
      with (let* y := cat_dim1 (map fst (tw :: inputs)) in cat2 t y).
    rewrite Hy. cbn [bind].
    destruct (cat2_rows t y w (list_sum (map snd (tw :: inputs))))
      as (z & Hz & Hlz & Hwz); try assumption; try congruence.
    exists z. split; [exact Hz|]. split; [congruence|]. exact Hwz.
Qed.

(** X20.  The rows [forward] feeds to the MLP have the width the MLP was
    built for.  On a batch of [n] transitions whose states and next states
    have the flattened observation dimension and whose actions have the
    flattened action dimension, and with at least one input enabled,
    [forward] concatenates [n] rows of width [in_size] and applies the MLP
    to them. *)
Theorem basic_reward_net_forward_input_width
    (observation_space action_space : Space)
    (use_state use_action use_next_state use_done : bool) (kw : kwargs)
    (state action next_state : Tensor) (done : Tensor1) :
  use_state || use_action || use_next_state || use_done = true ->
  length action = length state ->
  length next_state = length state ->
  length done = length state ->
  Forall (fun row => Z.of_nat (length row)
                     = get_flattened_obs_dim observation_space) state ->
  Forall (fun row => Z.of_nat (length row)
                     = get_flattened_obs_dim observation_space) next_state ->
  Forall (fun row => Z.of_nat (length row)
                     = get_flattened_obs_dim action_space) action ->
  let self :=
    BasicRewardNet.__init__ observation_space action_space
      use_state use_action use_next_state use_done kw in
  exists inputs_concat,
    length inputs_concat = length state /\
    Forall (fun row =>
              Some (PyInt (Z.of_nat (length row)))
              = BasicRewardNet.full_build_mlp_kwargs
                  (BasicRewardNet.enabled_width observation_space action_space
                     use_state use_action use_next_state use_done) kw
                !! "in_size")
      inputs_concat /\
    BasicRewardNet.forward self state action next_state done
    = (let* outputs := mlp_forward (BasicRewardNet.mlp self) inputs_concat in
       let* _ := assert (Nat.eqb (length outputs) (length state)) in
       inr outputs).
Proof.
  intros Hany Hla Hln Hld Hs Hn Ha self.
  set (wo := Z.to_nat (get_flattened_obs_dim observation_space)).
  set (wa := Z.to_nat (get_flattened_obs_dim action_space)).
  assert (Hs' : Forall (fun row => length row = wo) state)
    by (eapply List.Forall_impl; [|exact Hs]; cbn; intros; subst wo; lia).
  assert (Hn' : Forall (fun row => length row = wo) next_state)
    by (eapply List.Forall_impl; [|exact Hn]; cbn; intros; subst wo; lia).
  assert (Ha' : Forall (fun row => length row = wa) action)
    by (eapply List.Forall_impl; [|exact Ha]; cbn; intros; subst wa; lia).
  assert (Hd' : Forall (fun row => length row = 1%nat)
                  (map (fun d : R => [d]) done))
    by (clear; induction done; simpl; constructor; auto).
  assert (Hdl : length (map (fun d : R => [d]) done) = length state)
    by now rewrite length_map.
  set (pieces :=
         (if use_state then [(state, wo)] else [])
         ++ (if use_action then [(action, wa)] else [])
         ++ (if use_next_state then [(next_state, wo)] else [])
         ++ (if use_done then [(map (fun d : R => [d]) done, 1%nat)] else [])).
  destruct (cat_dim1_rows (length state) pieces) as (x & Hx & Hlx & Hwx).
  { subst pieces.
    destruct use_state, use_action, use_next_state, use_done;
      try discriminate; simpl; discriminate. }
  { subst pieces.
    destruct use_state, use_action, use_next_state, use_done; simpl;
      repeat constructor; cbn [fst snd]; assumption. }
  exists x. split; [exact Hlx|]. split.
  - rewrite full_build_mlp_kwargs_in_size.
    destruct (Nat.eq_dec (length state) 0) as [Hzero|Hpos].
    { (* an empty batch has no rows *)
      destruct x; [constructor | simpl in Hlx; lia]. }
    assert (Hwo : Z.of_nat wo = get_flattened_obs_dim observation_space).
    { destruct Hs as [|r ? Hr _]; [simpl in Hpos; lia|]. subst wo. lia. }
    assert (Hwa : Z.of_nat wa = get_flattened_obs_dim action_space).
    { destruct Ha as [|r ? Hr _]; [simpl in Hla; lia|]. subst wa. lia. }
    assert (Hw : Z.of_nat (list_sum (map snd pieces))
                 = BasicRewardNet.enabled_width observation_space action_space
                     use_state use_action use_next_state use_done).
    { subst pieces. unfold BasicRewardNet.enabled_width.
      destruct use_state, use_action, use_next_state, use_done; simpl; lia. }
    eapply List.Forall_impl; [|exact Hwx]. cbn. intros row Hrow.
    now rewrite Hrow, Hw.
  - unfold BasicRewardNet.forward. subst self pieces.
    cbn [BasicRewardNet.__init__ BasicRewardNet.use_state
           BasicRewardNet.use_action BasicRewardNet.use_next_state
           BasicRewardNet.use_done BasicRewardNet.mlp].
    replace (cat_dim1 _) with (inr (A := exn) x); [reflexivity|].
    rewrite <- Hx.
    destruct use_state, use_action, use_next_state, use_done; reflexivity.
Qed.

(** X21.  A [BasicRewardNet] reads only the inputs that are enabled:
    changing a disabled action, next state or done flag does not change the
    result of [forward].  A disabled state still matters through its number
    of rows, which the shape assertion reads; states with the same number
    of rows give the same result. *)
Theorem basic_reward_net_reads_only_enabled_inputs
    (observation_space action_space : Space)
    (use_state use_action use_next_state use_done : bool) (kw : kwargs)
    (state state' action action' next_state next_state' : Tensor)
    (done done' : Tensor1) :
  length state' = length state ->
  BasicRewardNet.forward
    (BasicRewardNet.__init__ observation_space action_space
       false use_action use_next_state use_done kw)
    state action next_state done
  = BasicRewardNet.forward
      (BasicRewardNet.__init__ observation_space action_space
         false use_action use_next_state use_done kw)
      state' action next_state done /\
  BasicRewardNet.forward
    (BasicRewardNet.__init__ observation_space action_space
       use_state false use_next_state use_done kw)
    state action next_state done
  = BasicRewardNet.forward
      (BasicRewardNet.__init__ observation_space action_space
         use_state false use_next_state use_done kw)
      state action' next_state done /\
  BasicRewardNet.forward
    (BasicRewardNet.__init__ observation_space action_space
       use_state use_action false use_done kw)
    state action next_state done
  = BasicRewardNet.forward
      (BasicRewardNet.__init__ observation_space action_space
         use_state use_action false use_done kw)
      state action next_state' done /\
  BasicRewardNet.forward
    (BasicRewardNet.__init__ observation_space action_space
       use_state use_action use_next_state false kw)
    state action next_state done
  = BasicRewardNet.forward
      (BasicRewardNet.__init__ observation_space action_space
         use_state use_action use_next_state false kw)
      state action next_state done'.
Proof.
  intros Hlen. unfold BasicRewardNet.forward.
  cbn [BasicRewardNet.__init__ BasicRewardNet.use_state
         BasicRewardNet.use_action BasicRewardNet.use_next_state
         BasicRewardNet.use_done BasicRewardNet.mlp].
  rewrite Hlen. repeat split; reflexivity.
Qed.

End BasicRewardNetMore.

Lemma basic_reward_net_forward_input_width_witness :
  exists inputs_concat,
    length inputs_concat = length [[2%R]] /\
    Forall (fun row =>
              Some (PyInt (Z.of_nat (length row)))
              = @BasicRewardNet.full_build_mlp_kwargs
                  (@BasicRewardNet.enabled_width Toy.preprocessing
                     (Box [1%Z]) (Discrete 2) true true false false) ∅
                !! "in_size")
      inputs_concat /\
    @BasicRewardNet.forward ToyMore.networks
      (@BasicRewardNet.__init__ Toy.preprocessing ToyMore.networks
         (Box [1%Z]) (Discrete 2) true true false false ∅)
      [[2%R]] [[0%R; 1%R]] [[4%R]] [0%R]
    = (let* outputs :=
         @mlp_forward ToyMore.networks
           (BasicRewardNet.mlp
              (@BasicRewardNet.__init__ Toy.preprocessing ToyMore.networks
                 (Box [1%Z]) (Discrete 2) true true false false ∅))
           inputs_concat in
       let* _ := assert (Nat.eqb (length outputs) (length [[2%R]])) in
       inr outputs).
Proof.
  apply (@basic_reward_net_forward_input_width Toy.preprocessing
           ToyMore.networks (Box [1%Z]) (Discrete 2) true true false false ∅
           [[2%R]] [[0%R; 1%R]] [[4%R]] [0%R]);
    try reflexivity; repeat constructor.
Defined.

Lemma basic_reward_net_reads_only_enabled_inputs_witness :
  @BasicRewardNet.forward ToyMore.networks
    (@BasicRewardNet.__init__ Toy.preprocessing ToyMore.networks
       (Box [1%Z]) (Discrete 2) false true false false ∅)
    [[2%R]] [[0%R; 1%R]] [[4%R]] [0%R]
  = @BasicRewardNet.forward ToyMore.networks
      (@BasicRewardNet.__init__ Toy.preprocessing ToyMore.networks
         (Box [1%Z]) (Discrete 2) false true false false ∅)
      [[3%R]] [[0%R; 1%R]] [[4%R]] [0%R].
Proof.
  apply (proj1 (@basic_reward_net_reads_only_enabled_inputs Toy.preprocessing
                  ToyMore.networks (Box [1%Z]) (Discrete 2)
                  false true false false ∅
                  [[2%R]] [[3%R]] [[0%R; 1%R]] [[0%R; 1%R]] [[4%R]] [[4%R]]
                  [0%R] [0%R] eq_refl)).
Defined.

Section ShapingReturns.
Context {B : Type} `{RewardNet B}.

(** On tensors of one length [forward] is plain pointwise arithmetic. *)
Lemma shaped_forward_explicit (self : @ShapedRewardNet.t B)
    (state action next_state : Tensor) (done base_out : Tensor1) :
  forward (ShapedRewardNet.base self) state action next_state done
  = inr base_out ->
  length base_out = length state ->
  length done = length state ->
  length (ShapedRewardNet.potential self next_state) = length state ->
  length (ShapedRewardNet.potential self state) = length state ->
  ShapedRewardNet.forward self state action next_state done
  = inr (shaping_output (ShapedRewardNet.discount_factor self) base_out done
           (ShapedRewardNet.potential self next_state)
           (ShapedRewardNet.potential self state)).
Proof.
  intros Hbase Hlb Hld Hln Hlo.
  unfold ShapedRewardNet.forward, shaping_output, zip_with_R.
  rewrite Hbase. cbn [bind].
  assert (Hl1 : length (one_minus done)
                = length (ShapedRewardNet.potential self next_state))
    by (unfold one_minus; rewrite length_map; congruence).
  rewrite (broadcast_same_length Rmult _ _ Hl1). cbn [bind].
  assert (Hl2 : length base_out
                = length (scale (ShapedRewardNet.discount_factor self)
                            (map (fun p => Rmult (fst p) (snd p))
                               (combine (one_minus done)
                                  (ShapedRewardNet.potential self next_state)))))
    by (unfold scale; rewrite length_map, length_zip by exact Hl1;
        unfold one_minus; rewrite length_map; congruence).
  rewrite (broadcast_same_length Rplus _ _ Hl2). cbn [bind].
  match goal with |- context [broadcast Rminus ?x ?y] =>
    assert (Hl3 : length x = length y)
      by (rewrite length_zip by exact Hl2; congruence);
    rewrite (broadcast_same_length Rminus x y Hl3); cbn [bind];
    rewrite (length_zip Rminus x y Hl3), (length_zip Rplus _ _ Hl2), Hlb,
      Nat.eqb_refl
  end.
  reflexivity.
Qed.

(** Along a trajectory that ends in a terminal transition the potentials
    telescope. *)
Lemma shaping_telescopes_terminal (gamma : R) (m : nat) :
  forall (rewards potentials : list R),
    length rewards = S m ->
    length potentials = S (S m) ->
    discounted_return gamma
      (shaping_output gamma rewards (repeat 0%R m ++ [1%R])
         (tl potentials) (removelast potentials))
    = (discounted_return gamma rewards - hd 0%R potentials)%R.
Proof.
  induction m as [|m IH]; intros rewards potentials Hr Hp.
  - destruct rewards as [|r0 [|? ?]]; try discriminate.
    destruct potentials as [|p0 [|p1 [|? ?]]]; try discriminate.
    cbn. lra.
  - destruct rewards as [|r0 rewards]; [discriminate|].
    destruct potentials as [|p0 [|p1 potentials]]; try discriminate.
    specialize (IH rewards (p1 :: potentials) ltac:(simpl in *; lia)
                  ltac:(simpl in *; lia)).
    destruct potentials as [|p2 potentials]; [simpl in Hp; lia|].
    unfold shaping_output, zip_with_R, scale, one_minus in *.
    cbn [repeat app tl removelast map combine fst snd discounted_return hd]
      in *.
    rewrite IH. lra.
Qed.

Lemma map_removelast {X Y : Type} (f : X -> Y) (l : list X) :
  map f (removelast l) = removelast (map f l).
Proof.
  induction l as [|x [|y l] IH]; simpl in *; [reflexivity..|].
  now rewrite IH.
Qed.

Lemma map_tail {X Y : Type} (f : X -> Y) (l : list X) :
  map f (tl l) = tl (map f l).
Proof. destruct l; reflexivity. Qed.

(** X22.  Potential shaping preserves returns.  Take a trajectory of
    states [s_0, ..., s_n] whose last transition is terminal and a potential
    that scores each state on its own.  On the batch of its transitions
    (states [s_0 .. s_(n-1)], next states [s_1 .. s_n], [done] zero except
    for the last entry) the discounted sum of the shaped rewards is the
    discounted sum of the base rewards minus the potential of the first
    state: the potential of the terminal state does not enter. *)
Theorem shaping_preserves_returns (self : @ShapedRewardNet.t B)
    (phi : list R -> R) (trajectory : list (list R)) (action : Tensor)
    (base_out : Tensor1) (m : nat) :
  ShapedRewardNet.potential self = rowwise phi ->
  length trajectory = S (S m) ->
  forward (ShapedRewardNet.base self) (removelast trajectory) action
    (tl trajectory) (repeat 0%R m ++ [1%R])
  = inr base_out ->
  length base_out = S m ->
  exists out,
    forward self (removelast trajectory) action (tl trajectory)
      (repeat 0%R m ++ [1%R])
    = inr out /\
    discounted_return (ShapedRewardNet.discount_factor self) out
    = (discounted_return (ShapedRewardNet.discount_factor self) base_out
       - phi (hd [] trajectory))%R.
Proof.
  intros Hphi Htraj Hbase Hlb.
  assert (Hstate : length (removelast trajectory) = S m).
  { destruct trajectory as [|s0 trajectory]; [discriminate|].
    rewrite <- (length_map phi), map_removelast.
    clear -Htraj. remember (map phi (s0 :: trajectory)) as l eqn:Hl.
    assert (Hll : length l = S (S m)) by (subst l; now rewrite length_map).
    clear Hl Htraj. revert m Hll.
    induction l as [|x [|y l] IH]; intros m Hll; simpl in *; try lia.
    destruct m as [|m]; [destruct l; simpl in *; lia|].
    rewrite (IH m); lia. }
  assert (Hnext : length (tl trajectory) = S m)
    by (destruct trajectory; simpl in *; lia).
  eexists. split.
  - change (forward self) with (ShapedRewardNet.forward self).
    apply (shaped_forward_explicit self _ action _ _ base_out Hbase).
    + congruence.
    + rewrite length_app, repeat_length. simpl. lia.
    + rewrite Hphi. unfold rowwise. rewrite length_map. congruence.
    + rewrite Hphi. unfold rowwise. now rewrite length_map.
  - rewrite Hphi. unfold rowwise.
    rewrite map_removelast, map_tail.
    rewrite (shaping_telescopes_terminal _ m) by (rewrite ?length_map; lia).
    destruct trajectory; [discriminate|]. reflexivity.
Qed.

End ShapingReturns.

Lemma shaping_preserves_returns_witness :
  exists out,
    @forward _ (@ShapedRewardNet.reward_net _ Toy.constant_net)
      Toy.shaped_net (removelast [[2%R]; [4%R]; [6%R]]) [[0%R]; [0%R]]
      (tl [[2%R]; [4%R]; [6%R]]) (repeat 0%R 1 ++ [1%R])
    = inr out /\
    discounted_return (ShapedRewardNet.discount_factor Toy.shaped_net) out
    = (discounted_return (ShapedRewardNet.discount_factor Toy.shaped_net)
         [1%R; 1%R]
       - tsum (hd [] [[2%R]; [4%R]; [6%R]]))%R.
Proof.
  apply (@shaping_preserves_returns Toy.ConstantNet Toy.constant_net
           Toy.shaped_net tsum [[2%R]; [4%R]; [6%R]] [[0%R]; [0%R]]
           [1%R; 1%R] 1);
    reflexivity.
Defined.

Section ConstructorsMore.
Context `{Preprocessing} `{Networks}.

Lemma contains_build_mlp_kwargs (key : string) (kw : kwargs) :
  key <> "rew_normalize_class" ->
  contains key (build_mlp_kwargs kw) = contains key kw.
Proof.
  intros Hne. unfold contains, build_mlp_kwargs.
  now rewrite lookup_delete_ne.
Qed.

Lemma contains_false (key : string) (kw : kwargs) :
  kw !! key = None -> contains key kw = false.
Proof. unfold contains. now intros ->. Qed.

Lemma contains_true (key : string) (kw : kwargs) :
  is_Some (kw !! key) -> contains key kw = true.
Proof. unfold contains. now intros [v ->]. Qed.

(** The keyword arguments of the base net's MLP when [hid_sizes] is not
    among the caller's. *)
Lemma base_mlp_kwargs (width : Z) (reward_hid_sizes : list Z) (kw : kwargs) :
  kw !! "hid_sizes" = None ->
  exists base_kwargs,
    call_with [("hid_sizes", PyTuple reward_hid_sizes)] (build_mlp_kwargs kw)
    = inr base_kwargs /\
    BasicRewardNet.full_build_mlp_kwargs width base_kwargs !! "in_size"
    = Some (PyInt width) /\
    BasicRewardNet.full_build_mlp_kwargs width base_kwargs !! "hid_sizes"
    = Some (PyTuple reward_hid_sizes) /\
    BasicRewardNet.full_build_mlp_kwargs width base_kwargs
      !! "rew_normalize_class" = None.
Proof.
  intros Hhid. unfold call_with. cbn [existsb fst].
  rewrite contains_build_mlp_kwargs, (contains_false _ _ Hhid) by discriminate.
  cbn [orb]. eexists. split; [reflexivity|].
  split; [apply full_build_mlp_kwargs_in_size|].
  unfold BasicRewardNet.full_build_mlp_kwargs, update, build_mlp_kwargs.
  cbn [list_to_map foldr fst snd].
  split.
  - rewrite lookup_union_r by (now rewrite !lookup_insert_ne, lookup_empty).
    apply lookup_union_Some_l, lookup_union_Some_l, lookup_insert_eq.
  - rewrite !lookup_union, !lookup_insert_ne, !lookup_empty, lookup_delete_eq,
      lookup_singleton_ne by discriminate.
    reflexivity.
Qed.

(** With [build_mlp] taken to return, the two constructors return when
    the keyword arguments contain none of the keywords they pass
    explicitly. *)
Lemma constructors_on_plain_kwargs
    (observation_space action_space : Space)
    (rew_normalize_class : option (Z -> Tensor1 -> Tensor1))
    (reward_hid_sizes potential_hid_sizes : list Z)
    (use_state use_action use_next_state use_done : bool)
    (discount_factor : R) (kw : kwargs) :
  kw !! "hid_sizes" = None ->
  kw !! "in_size" = None ->
  kw !! "squeeze_output" = None ->
  kw !! "flatten_input" = None ->
  let width :=
    BasicRewardNet.enabled_width observation_space action_space
      use_state use_action use_next_state use_done in
  exists shaped normalized base_kwargs potential_kwargs,
    BasicShapedRewardNet.__init__ observation_space action_space
      reward_hid_sizes potential_hid_sizes
      use_state use_action use_next_state use_done discount_factor kw
    = inr shaped /\
    BasicNormalizedRewardNet.__init__ observation_space action_space
      rew_normalize_class reward_hid_sizes
      use_state use_action use_next_state use_done kw
    = inr normalized /\
    BasicShapedRewardNet.discount_factor shaped = discount_factor /\
    BasicRewardNet.mlp (BasicShapedRewardNet.base shaped)
    = build_mlp base_kwargs /\
    BasicRewardNet.mlp (NormalizedRewardNet.base normalized)
    = build_mlp base_kwargs /\
    NormalizedRewardNet.rew_normalize_layer normalized
    = match rew_normalize_class with
      | Some cls => Some (cls 1%Z)
      | None => None
      end /\
    BasicPotentialMLP._potential_net (BasicShapedRewardNet.potential shaped)
    = build_mlp potential_kwargs /\
    base_kwargs !! "in_size" = Some (PyInt width) /\
    base_kwargs !! "hid_sizes" = Some (PyTuple reward_hid_sizes) /\
    base_kwargs !! "rew_normalize_class" = None /\
    potential_kwargs !! "in_size"
    = Some (PyInt (get_flattened_obs_dim observation_space)) /\
    potential_kwargs !! "hid_sizes" = Some (PyTuple potential_hid_sizes) /\
    potential_kwargs !! "flatten_input" = Some (PyBool true) /\
    potential_kwargs !! "rew_normalize_class" = None.
Proof.
  intros Hhid Hin Hsq Hfl width.
  destruct (base_mlp_kwargs width reward_hid_sizes kw Hhid)
    as (bk & Hbk & Hb1 & Hb2 & Hb3).
  unfold BasicShapedRewardNet.__init__, BasicNormalizedRewardNet.__init__.
  rewrite Hbk. cbn [bind].
  assert (Hpk : call_with [("hid_sizes", PyTuple potential_hid_sizes)]
                  (build_mlp_kwargs kw)
                = inr (({["hid_sizes" := PyTuple potential_hid_sizes]} : kwargs)
                       ∪ build_mlp_kwargs kw)).
  { unfold call_with. cbn [existsb fst].
    rewrite contains_build_mlp_kwargs, (contains_false _ _ Hhid) by discriminate.
    reflexivity. }
  rewrite Hpk. cbn [bind].
  assert (Hrest : delete "hid_sizes"
                    (({["hid_sizes" := PyTuple potential_hid_sizes]} : kwargs)
                     ∪ build_mlp_kwargs kw)
                  = build_mlp_kwargs kw).
  { apply map_eq. intros k. unfold build_mlp_kwargs.
    destruct (decide (k = "hid_sizes")) as [->|Hk].
    - rewrite lookup_delete_eq, lookup_delete_ne by discriminate. now rewrite Hhid.
    - rewrite lookup_delete_ne, lookup_union_r by
        (try rewrite lookup_singleton_ne; congruence).
      reflexivity. }
  rewrite Hrest. unfold BasicPotentialMLP.__init__, call_with.
  cbn [existsb fst].
  rewrite !contains_build_mlp_kwargs by discriminate.
  rewrite (contains_false _ _ Hhid), (contains_false _ _ Hin),
    (contains_false _ _ Hsq), (contains_false _ _ Hfl).
  cbn [orb bind].
  do 4 eexists.
  split; [reflexivity|]. split; [reflexivity|].
  cbn [BasicShapedRewardNet.discount_factor BasicShapedRewardNet.base
         BasicShapedRewardNet.potential BasicPotentialMLP._potential_net
         NormalizedRewardNet.__init__ NormalizedRewardNet.base
         NormalizedRewardNet.rew_normalize_layer
         BasicRewardNet.__init__ BasicRewardNet.mlp].
  rewrite combined_size_enabled_width. fold width.
  repeat (split; [first [reflexivity | eassumption]|]).
  cbn [list_to_map foldr fst snd]. unfold build_mlp_kwargs.
  repeat split.
  - apply lookup_union_Some_l, lookup_insert_eq.
  - apply lookup_union_Some_l.
    now rewrite lookup_insert_ne, lookup_insert_eq by discriminate.
  - apply lookup_union_Some_l.
    now rewrite !lookup_insert_ne, lookup_insert_eq by discriminate.
  - apply lookup_union_None. split.
    + now rewrite !lookup_insert_ne, lookup_empty by discriminate.
    + apply lookup_delete_eq.
Qed.

(** X24.  [hid_sizes] cannot be passed through the keyword arguments of
    the convenience constructors: both give it to [BasicRewardNet]
    explicitly (as [reward_hid_sizes]), so a second value among the keyword
    arguments is a [TypeError], and no net is built. *)
Theorem basic_constructors_reject_hid_sizes
    (observation_space action_space : Space)
    (rew_normalize_class : option (Z -> Tensor1 -> Tensor1))
    (reward_hid_sizes potential_hid_sizes : list Z)
    (use_state use_action use_next_state use_done : bool)
    (discount_factor : R) (kw : kwargs) :
  is_Some (kw !! "hid_sizes") ->
  BasicShapedRewardNet.__init__ observation_space action_space
    reward_hid_sizes potential_hid_sizes
    use_state use_action use_next_state use_done discount_factor kw
  = inl TypeError /\
  BasicNormalizedRewardNet.__init__ observation_space action_space
    rew_normalize_class reward_hid_sizes
    use_state use_action use_next_state use_done kw
  = inl TypeError.
Proof.
  intros Hhid.
  unfold BasicShapedRewardNet.__init__, BasicNormalizedRewardNet.__init__,
    call_with.
  cbn [existsb fst].
  rewrite contains_build_mlp_kwargs, (contains_true _ _ Hhid) by discriminate.
  split; reflexivity.
Qed.

(** With [build_mlp] taken to return: what the two constructors do with
    a keyword that [build_mlp] is also given explicitly. *)
Lemma constructors_on_explicit_mlp_keywords
    (observation_space action_space : Space)
    (rew_normalize_class : option (Z -> Tensor1 -> Tensor1))
    (reward_hid_sizes potential_hid_sizes : list Z)
    (use_state use_action use_next_state use_done : bool)
    (discount_factor : R) (kw : kwargs) :
  kw !! "hid_sizes" = None ->
  is_Some (kw !! "in_size") \/ is_Some (kw !! "squeeze_output")
  \/ is_Some (kw !! "flatten_input") ->
  BasicShapedRewardNet.__init__ observation_space action_space
    reward_hid_sizes potential_hid_sizes
    use_state use_action use_next_state use_done discount_factor kw
  = inl TypeError /\
  exists normalized base_kwargs,
    BasicNormalizedRewardNet.__init__ observation_space action_space
      rew_normalize_class reward_hid_sizes
      use_state use_action use_next_state use_done kw
    = inr normalized /\
    BasicRewardNet.mlp (NormalizedRewardNet.base normalized)
    = build_mlp base_kwargs /\
    base_kwargs !! "in_size"
    = Some (PyInt (BasicRewardNet.enabled_width observation_space action_space
                     use_state use_action use_next_state use_done)) /\
    base_kwargs !! "squeeze_output" = Some (PyBool true) /\
    base_kwargs !! "flatten_input" = kw !! "flatten_input".
Proof.
  intros Hhid Hdup.
  assert (Hcall : forall hid,
             call_with [("hid_sizes", PyTuple hid)] (build_mlp_kwargs kw)
             = inr (({["hid_sizes" := PyTuple hid]} : kwargs)
                    ∪ build_mlp_kwargs kw)).
  { intros hid. unfold call_with. cbn [existsb fst].
    rewrite contains_build_mlp_kwargs, (contains_false _ _ Hhid) by discriminate.
    reflexivity. }
  unfold BasicShapedRewardNet.__init__, BasicNormalizedRewardNet.__init__.
  rewrite !Hcall. cbn [bind]. split.
  - assert (Hrest : delete "hid_sizes"
                      (({["hid_sizes" := PyTuple potential_hid_sizes]} : kwargs)
                       ∪ build_mlp_kwargs kw)
                    = build_mlp_kwargs kw).
    { apply map_eq. intros k. unfold build_mlp_kwargs.
      destruct (decide (k = "hid_sizes")) as [->|Hk].
      - rewrite lookup_delete_eq, lookup_delete_ne by discriminate.
        now rewrite Hhid.
      - rewrite lookup_delete_ne, lookup_union_r by
          (try rewrite lookup_singleton_ne; congruence).
        reflexivity. }
    rewrite Hrest. unfold BasicPotentialMLP.__init__, call_with.
    cbn [existsb fst].
    rewrite !contains_build_mlp_kwargs by discriminate.
    destruct Hdup as [Hd|[Hd|Hd]]; rewrite (contains_true _ _ Hd);
      rewrite ?orb_true_r; reflexivity.
  - do 2 eexists. split; [reflexivity|].
    cbn [NormalizedRewardNet.__init__ NormalizedRewardNet.base
           BasicRewardNet.__init__ BasicRewardNet.mlp].
    rewrite combined_size_enabled_width.
    split; [reflexivity|].
    split; [apply full_build_mlp_kwargs_in_size|].
    unfold BasicRewardNet.full_build_mlp_kwargs, update, build_mlp_kwargs.
    split.
    + apply lookup_union_Some_l.
      now rewrite !lookup_insert_ne, lookup_insert_eq by discriminate.
    + rewrite lookup_union_r by
        (now rewrite !lookup_insert_ne, lookup_empty by discriminate).
      rewrite lookup_union, lookup_union, !lookup_singleton_ne,
        lookup_delete_ne by discriminate.
      now destruct (kw !! "flatten_input").
Qed.

Lemma constructors_on_hid_sizes
    (observation_space action_space : Space)
    (rew_normalize_class : option (Z -> Tensor1 -> Tensor1))
    (reward_hid_sizes potential_hid_sizes : list Z)
    (use_state use_action use_next_state use_done : bool)
    (discount_factor : R) (kw : kwargs) :
  is_Some (kw !! "hid_sizes") ->
  BasicShapedRewardNet.__init__ observation_space action_space
    reward_hid_sizes potential_hid_sizes
    use_state use_action use_next_state use_done discount_factor kw
  = inl TypeError /\
  BasicNormalizedRewardNet.__init__ observation_space action_space
    rew_normalize_class reward_hid_sizes
    use_state use_action use_next_state use_done kw
  = inl TypeError.
Proof.
  intros Hhid.
  unfold BasicShapedRewardNet.__init__, BasicNormalizedRewardNet.__init__,
    call_with.
  cbn [existsb fst].
  rewrite contains_build_mlp_kwargs, (contains_true _ _ Hhid) by discriminate.
  split; reflexivity.
Qed.

Lemma lookup_cases (kw : kwargs) (key : string) :
  kw !! key = None \/ is_Some (kw !! key).
Proof. destruct (kw !! key); [right; eauto | now left]. Qed.

(** X23.  How the convenience constructors route their arguments.
    Whenever [BasicShapedRewardNet.__init__] returns a net, the MLP of its
    base net was built with the width of the enabled inputs as [in_size]
    and with [reward_hid_sizes], the MLP of its potential with the
    flattened observation dimension, [potential_hid_sizes] and flattened
    input, neither call of [build_mlp] was given [rew_normalize_class],
    and the discount factor is stored.  Whenever
    [BasicNormalizedRewardNet.__init__] returns a net, its base net was
    built in the same way and the normalization class was instantiated for
    one feature. *)
Theorem basic_constructors_route_arguments
    (observation_space action_space : Space)
    (rew_normalize_class : option (Z -> Tensor1 -> Tensor1))
    (reward_hid_sizes potential_hid_sizes : list Z)
    (use_state use_action use_next_state use_done : bool)
    (discount_factor : R) (kw : kwargs) :
  let width :=
    BasicRewardNet.enabled_width observation_space action_space
      use_state use_action use_next_state use_done in
  (forall shaped,
      BasicShapedRewardNet.__init__ observation_space action_space
        reward_hid_sizes potential_hid_sizes
        use_state use_action use_next_state use_done discount_factor kw
      = inr shaped ->
      exists base_kwargs potential_kwargs,
        BasicShapedRewardNet.discount_factor shaped = discount_factor /\
        BasicRewardNet.mlp (BasicShapedRewardNet.base shaped)
        = build_mlp base_kwargs /\
        BasicPotentialMLP._potential_net (BasicShapedRewardNet.potential shaped)
        = build_mlp potential_kwargs /\
        base_kwargs !! "in_size" = Some (PyInt width) /\
        base_kwargs !! "hid_sizes" = Some (PyTuple reward_hid_sizes) /\
        base_kwargs !! "rew_normalize_class" = None /\
        potential_kwargs !! "in_size"
        = Some (PyInt (get_flattened_obs_dim observation_space)) /\
        potential_kwargs !! "hid_sizes" = Some (PyTuple potential_hid_sizes) /\
        potential_kwargs !! "flatten_input" = Some (PyBool true) /\
        potential_kwargs !! "rew_normalize_class" = None) /\
  (forall normalized,
      BasicNormalizedRewardNet.__init__ observation_space action_space
        rew_normalize_class reward_hid_sizes
        use_state use_action use_next_state use_done kw
      = inr normalized ->
      exists base_kwargs,
        BasicRewardNet.mlp (NormalizedRewardNet.base normalized)
        = build_mlp base_kwargs /\
        base_kwargs !! "in_size" = Some (PyInt width) /\
        base_kwargs !! "hid_sizes" = Some (PyTuple reward_hid_sizes) /\
        base_kwargs !! "rew_normalize_class" = None /\
        NormalizedRewardNet.rew_normalize_layer normalized
        = match rew_normalize_class with
          | Some cls => Some (cls 1%Z)
          | None => None
          end).
Proof.
  intros width. split.
  - intros shaped Hret.
    destruct (lookup_cases kw "hid_sizes") as [Hhid|Hhid].
    2:{ destruct (constructors_on_hid_sizes observation_space action_space
                    rew_normalize_class reward_hid_sizes potential_hid_sizes
                    use_state use_action use_next_state use_done
                    discount_factor kw Hhid) as [Hs _].
        congruence. }
    destruct (lookup_cases kw "in_size") as [Hin|Hin];
      [destruct (lookup_cases kw "squeeze_output") as [Hsq|Hsq];
       [destruct (lookup_cases kw "flatten_input") as [Hfl|Hfl]|]|].
    + destruct (constructors_on_plain_kwargs observation_space action_space
                  rew_normalize_class reward_hid_sizes potential_hid_sizes
                  use_state use_action use_next_state use_done
                  discount_factor kw Hhid Hin Hsq Hfl)
        as (shaped0 & n0 & bk & pk & Hs & _ & Hd & Hb & _ & _ & Hp & Hrest).
      assert (shaped0 = shaped) by congruence. subst shaped0.
      exists bk, pk. split; [exact Hd|]. split; [exact Hb|].
      split; [exact Hp|]. destruct Hrest as (? & ? & ? & ? & ? & ? & ?).
      repeat split; assumption.
    + destruct (constructors_on_explicit_mlp_keywords
                  observation_space action_space
                  rew_normalize_class reward_hid_sizes potential_hid_sizes
                  use_state use_action use_next_state use_done
                  discount_factor kw Hhid (or_intror (or_intror Hfl)))
        as [Hs _].
      congruence.
    + destruct (constructors_on_explicit_mlp_keywords
                  observation_space action_space
                  rew_normalize_class reward_hid_sizes potential_hid_sizes
                  use_state use_action use_next_state use_done
                  discount_factor kw Hhid (or_intror (or_introl Hsq)))
        as [Hs _].
      congruence.
    + destruct (constructors_on_explicit_mlp_keywords
                  observation_space action_space
                  rew_normalize_class reward_hid_sizes potential_hid_sizes
                  use_state use_action use_next_state use_done
                  discount_factor kw Hhid (or_introl Hin))
        as [Hs _].
      congruence.
  - intros normalized Hret.
    destruct (lookup_cases kw "hid_sizes") as [Hhid|Hhid].
    2:{ destruct (constructors_on_hid_sizes observation_space action_space
                    rew_normalize_class reward_hid_sizes potential_hid_sizes
                    use_state use_action use_next_state use_done
                    discount_factor kw Hhid) as [_ Hn].
        congruence. }
    destruct (base_mlp_kwargs width reward_hid_sizes kw Hhid)
      as (bk & Hbk & Hb1 & Hb2 & Hb3).
    unfold BasicNormalizedRewardNet.__init__ in Hret.
    rewrite Hbk in Hret. cbn [bind] in Hret.
    inversion Hret; subst normalized.
    cbn [NormalizedRewardNet.__init__ NormalizedRewardNet.base
           NormalizedRewardNet.rew_normalize_layer
           BasicRewardNet.__init__ BasicRewardNet.mlp].
    rewrite combined_size_enabled_width. fold width.
    eexists. split; [reflexivity|]. repeat split; assumption.
Qed.

(** X25.  The two convenience constructors treat the keywords that
    [build_mlp] is given explicitly differently.  When the keyword arguments
    contain [in_size], [squeeze_output] or [flatten_input],
    [BasicShapedRewardNet.__init__] never returns a net:
    [BasicPotentialMLP] passes these keywords explicitly beside the keyword
    arguments, which is a [TypeError].  [BasicNormalizedRewardNet.__init__]
    does not pass them on in this way: whenever it returns a net, the base
    MLP was built with the width of the enabled inputs and squeezed output,
    the caller's [in_size] and [squeeze_output] being overwritten, and with
    the caller's [flatten_input]. *)
Theorem explicit_mlp_keywords_overridden_or_rejected
    (observation_space action_space : Space)
    (rew_normalize_class : option (Z -> Tensor1 -> Tensor1))
    (reward_hid_sizes potential_hid_sizes : list Z)
    (use_state use_action use_next_state use_done : bool)
    (discount_factor : R) (kw : kwargs) :
  is_Some (kw !! "in_size") \/ is_Some (kw !! "squeeze_output")
  \/ is_Some (kw !! "flatten_input") ->
  (forall shaped,
      BasicShapedRewardNet.__init__ observation_space action_space
        reward_hid_sizes potential_hid_sizes
        use_state use_action use_next_state use_done discount_factor kw
      <> inr shaped) /\
  (forall normalized,
      BasicNormalizedRewardNet.__init__ observation_space action_space
        rew_normalize_class reward_hid_sizes
        use_state use_action use_next_state use_done kw
      = inr normalized ->
      exists base_kwargs,
        BasicRewardNet.mlp (NormalizedRewardNet.base normalized)
        = build_mlp base_kwargs /\
        base_kwargs !! "in_size"
        = Some (PyInt (BasicRewardNet.enabled_width
                         observation_space action_space
                         use_state use_action use_next_state use_done)) /\
        base_kwargs !! "squeeze_output" = Some (PyBool true) /\
        base_kwargs !! "flatten_input" = kw !! "flatten_input").
Proof.
  intros Hdup.
  destruct (lookup_cases kw "hid_sizes") as [Hhid|Hhid].
  - destruct (constructors_on_explicit_mlp_keywords
                observation_space action_space
                rew_normalize_class reward_hid_sizes potential_hid_sizes
                use_state use_action use_next_state use_done
                discount_factor kw Hhid Hdup)
      as (Hs & n0 & bk & Hn & Hrest).
    split; [intros shaped; congruence|].
    intros normalized Hret.
    assert (n0 = normalized) by congruence. subst n0.
    exists bk. exact Hrest.
  - destruct (constructors_on_hid_sizes observation_space action_space
                rew_normalize_class reward_hid_sizes potential_hid_sizes
                use_state use_action use_next_state use_done
                discount_factor kw Hhid) as [Hs Hn].
    split; [intros shaped; congruence|].
    intros normalized Hret. congruence.
Qed.

End ConstructorsMore.

Lemma basic_constructors_route_arguments_witness :
  exists shaped potential_kwargs,
    @BasicShapedRewardNet.__init__ Toy.preprocessing ToyMore.networks
      (Box [3%Z]) (Discrete 2) [16%Z] [8%Z; 8%Z] true true false false (1 / 2)%R
      {["activation" := PyObj "relu"]}
    = inr shaped /\
    BasicPotentialMLP._potential_net (BasicShapedRewardNet.potential shaped)
    = @build_mlp ToyMore.networks potential_kwargs /\
    potential_kwargs !! "in_size" = Some (PyInt 3) /\
    potential_kwargs !! "hid_sizes" = Some (PyTuple [8%Z; 8%Z]).
Proof.
  assert (Hret : exists shaped,
             @BasicShapedRewardNet.__init__ Toy.preprocessing ToyMore.networks
               (Box [3%Z]) (Discrete 2) [16%Z] [8%Z; 8%Z]
               true true false false (1 / 2)%R
               {["activation" := PyObj "relu"]}
             = inr shaped)
    by (eexists; reflexivity).
  destruct Hret as [shaped Hret].
  destruct (proj1 (@basic_constructors_route_arguments Toy.preprocessing
                     ToyMore.networks (Box [3%Z]) (Discrete 2)
                     (Some ToyMore.halving)
                     [16%Z] [8%Z; 8%Z] true true false false (1 / 2)%R
                     {["activation" := PyObj "relu"]}) shaped Hret)
    as (bk & pk & _ & _ & Hp & _ & _ & _ & Hin & Hhid & _).
  exists shaped, pk. repeat split; assumption.
Defined.

Lemma basic_constructors_reject_hid_sizes_witness :
  @BasicShapedRewardNet.__init__ Toy.preprocessing ToyMore.networks
    (Box [3%Z]) (Discrete 2) [16%Z] [8%Z; 8%Z] true true false false (1 / 2)%R
    {["hid_sizes" := PyTuple [4%Z]]}
  = inl TypeError /\
  @BasicNormalizedRewardNet.__init__ Toy.preprocessing ToyMore.networks
    (Box [3%Z]) (Discrete 2) (Some ToyMore.halving) [16%Z]
    true true false false {["hid_sizes" := PyTuple [4%Z]]}
  = inl TypeError.
Proof.
  apply (@basic_constructors_reject_hid_sizes Toy.preprocessing
           ToyMore.networks).
  exists (PyTuple [4%Z]). reflexivity.
Defined.

Lemma explicit_mlp_keywords_overridden_or_rejected_witness :
  (forall shaped,
      @BasicShapedRewardNet.__init__ Toy.preprocessing ToyMore.networks
        (Box [3%Z]) (Discrete 2) [16%Z] [8%Z; 8%Z] true true false false
        (1 / 2)%R {["in_size" := PyInt 7]}
      <> inr shaped) /\
  exists normalized base_kwargs,
    @BasicNormalizedRewardNet.__init__ Toy.preprocessing ToyMore.networks
      (Box [3%Z]) (Discrete 2) (Some ToyMore.halving) [16%Z]
      true true false false {["in_size" := PyInt 7]}
    = inr normalized /\
    BasicRewardNet.mlp (NormalizedRewardNet.base normalized)
    = @build_mlp ToyMore.networks base_kwargs /\
    base_kwargs !! "in_size"
    = Some (PyInt (@BasicRewardNet.enabled_width Toy.preprocessing
                     (Box [3%Z]) (Discrete 2) true true false false)) /\
    base_kwargs !! "squeeze_output" = Some (PyBool true).
Proof.
  destruct (@explicit_mlp_keywords_overridden_or_rejected Toy.preprocessing
              ToyMore.networks (Box [3%Z]) (Discrete 2) (Some ToyMore.halving)
              [16%Z] [8%Z; 8%Z] true true false false (1 / 2)%R
              {["in_size" := PyInt 7]})
    as [Hshaped Hnormalized].
  { left. exists (PyInt 7). reflexivity. }
  split; [exact Hshaped|].
  assert (Hret : exists normalized,
             @BasicNormalizedRewardNet.__init__ Toy.preprocessing
               ToyMore.networks (Box [3%Z]) (Discrete 2)
               (Some ToyMore.halving) [16%Z] true true false false
               {["in_size" := PyInt 7]}
             = inr normalized)
    by (eexists; reflexivity).
  destruct Hret as [normalized Hret].
  destruct (Hnormalized normalized Hret) as (bk & Hb & Hin & Hsq & _).
  exists normalized, bk. repeat split; assumption.
Defined.
